(** * opendatapy.datapackage: executing datapackages, loading and writing resources

    A shallow embedding of [src/opendatapy/datapackage.py].  The module is
    effectful Python: it reads and writes JSON files, mutates the dicts that
    [json.load] returns, starts containers and reads the clock.  The
    embedding is a state-and-exception monad over a [world] made of the
    Python object store, the files under the base path, the clock and the
    list of containers that were asked to run. *)

From Stdlib Require Import ZArith NArith Ascii String.
From Stdlib.Strings Require Import Byte.
From stdpp Require Import gmap strings list pretty.

Local Open Scope Z_scope.

(** ** JSON documents *)

(** A file holds a JSON document in decoded form.  Numbers are integers
    (nothing here looks at a fraction); [JObj] lists the members of an
    object in the order in which they are written, each name once. *)
#[warnings="-register-all"]
Inductive json : Type :=
  | JNull
  | JBool (b : bool)
  | JNum (z : Z)
  | JStr (s : string)
  | JArr (js : list json)
  | JObj (kvs : list (string * json)).

(** ** Python dicts

    A dict is an association list in insertion order.  [dict_get] is
    [d.get(k)], [dict_set] is [d[k] = v] (an existing key keeps its place, a
    new one goes last) and [dict_pop] is what is left of [d] after
    [d.pop(k)]. *)
Section dict.
Context {A : Type}.

Fixpoint dict_get (k : string) (d : list (string * A)) : option A :=
  match d with
  | [] => None
  | (k', v) :: d' => if decide (k' = k) then Some v else dict_get k d'
  end.

Fixpoint dict_set (k : string) (v : A) (d : list (string * A)) : list (string * A) :=
  match d with
  | [] => [(k, v)]
  | (k', v') :: d' =>
      if decide (k' = k) then (k, v) :: d' else (k', v') :: dict_set k v d'
  end.

Fixpoint dict_pop (k : string) (d : list (string * A)) : list (string * A) :=
  match d with
  | [] => []
  | (k', v) :: d' =>
      if decide (k' = k) then dict_pop k d' else (k', v) :: dict_pop k d'
  end.
End dict.

(** ** Python values and the object store *)

Abbreviation loc := nat (only parsing).

(** Immutable values are held directly; a dict or a list is a reference into
    the store, so that two names for one object see each other's updates. *)
Inductive value : Type :=
  | VNone
  | VBool (b : bool)
  | VInt (z : Z)
  | VStr (s : string)
  | VRef (l : loc).

Inductive object : Type :=
  | ODict (d : list (string * value))
  | OList (xs : list value).

(** ** Exceptions *)

Inductive exn : Type :=
  | KeyError (arg : string)
  | TypeError
  | AttributeError
  | ValueError
  | SystemError
  | FileNotFoundError (path : string)
  | JSONDecodeError
  | UnicodeDecodeError
  | NotImplementedError (message : string)
  | DockerException (message : string)
  | ResourceError (message : string) (resource : value)
  | ExecutionError (message : string) (logs : list N).

Inductive result (A : Type) : Type :=
  | Ok (a : A)
  | Raise (e : exn).
Arguments Ok {A} a.
Arguments Raise {A} e.

(** ** The world *)

(** A file that is there either holds a JSON document or something
    [json.load] rejects (a write that [json.dump] abandoned half-way). *)
Inductive file : Type :=
  | Doc (j : json)
  | Garbage.

(** The keyword arguments of [docker_client.containers.run]. *)
Record run_request : Type := RunRequest {
  image : value;
  volumes : list string;
  environment : list (string * string);
  detach : bool;
  user : Z
}.

(** A container that has finished: what [wait()] reports and what [logs()]
    returns. *)
Record container : Type := Container {
  StatusCode : Z;
  logs : list byte
}.

(** The container runtime is a black box: given the request and the files
    it mounts it either refuses, or runs the image to completion, leaving
    the files as the image left them. *)
Record DockerClient : Type := {
  containers_run :
    run_request → gmap string file → result (container * gmap string file)
}.

Record world : Type := World {
  heap : list object;          (* the Python objects, by address *)
  files : gmap string file;    (* the files, by path *)
  clock : Z;                   (* int(time.time()) *)
  uid : Z;                     (* os.getuid() *)
  run_calls : list run_request (* calls of containers.run, oldest first *)
}.

Definition set_heap (h : list object) (w : world) : world :=
  World h (files w) (clock w) (uid w) (run_calls w).

Definition set_files (fs : gmap string file) (w : world) : world :=
  World (heap w) fs (clock w) (uid w) (run_calls w).

Definition add_run_call (r : run_request) (w : world) : world :=
  World (heap w) (files w) (clock w) (uid w) (run_calls w ++ [r]).

(** ** The monad *)

Definition M (A : Type) : Type := world → result A * world.

Definition ret {A} (a : A) : M A := λ w, (Ok a, w).

Definition raise {A} (e : exn) : M A := λ w, (Raise e, w).

Definition bind {A B} (m : M A) (k : A → M B) : M B :=
  λ w, match m w with
       | (Ok a, w') => k a w'
       | (Raise e, w') => (Raise e, w')
       end.

Notation "'let!' x ':=' m 'in' k" := (bind m (λ x, k))
  (at level 10, x name, m at level 100, k at level 200).
Notation "'do!' m 'in' k" := (bind m (λ _, k))
  (at level 10, m at level 100, k at level 200).

Definition get_heap : M (list object) := λ w, (Ok (heap w), w).

(** The body of a [for x in xs:] loop, run on each element in turn; the
    first exception ends the loop. *)
Fixpoint for_each {A} (xs : list A) (body : A → M unit) : M unit :=
  match xs with
  | [] => ret tt
  | x :: xs' => do! body x in for_each xs' body
  end.

(** ** Operations on objects *)

Definition alloc (o : object) : M value :=
  λ w, (Ok (VRef (length (heap w))), set_heap (heap w ++ [o]) w).

(** [o[k]] for a string [k]. *)
Definition getitem (o : value) (k : string) : M value :=
  λ w, match o with
       | VRef l =>
           match heap w !! l with
           | Some (ODict d) =>
               match dict_get k d with
               | Some v => (Ok v, w)
               | None => (Raise (KeyError k), w)
               end
           | Some (OList _) => (Raise TypeError, w)
           | None => (Raise SystemError, w)
           end
       | _ => (Raise TypeError, w)
       end.

(** [o[k] = v] for a string [k]. *)
Definition setitem (o : value) (k : string) (v : value) : M unit :=
  λ w, match o with
       | VRef l =>
           match heap w !! l with
           | Some (ODict d) =>
               (Ok tt, set_heap (<[l := ODict (dict_set k v d)]> (heap w)) w)
           | Some (OList _) => (Raise TypeError, w)
           | None => (Raise SystemError, w)
           end
       | _ => (Raise TypeError, w)
       end.

(** [o.pop(k)] for a string [k]: a list wants an integer, anything that is
    not a container has no such method. *)
Definition pop (o : value) (k : string) : M value :=
  λ w, match o with
       | VRef l =>
           match heap w !! l with
           | Some (ODict d) =>
               match dict_get k d with
               | Some v =>
                   (Ok v, set_heap (<[l := ODict (dict_pop k d)]> (heap w)) w)
               | None => (Raise (KeyError k), w)
               end
           | Some (OList _) => (Raise TypeError, w)
           | None => (Raise SystemError, w)
           end
       | _ => (Raise AttributeError, w)
       end.

(** [o.get(k)]: only a dict has the method. *)
Definition get (o : value) (k : string) : M value :=
  λ w, match o with
       | VRef l =>
           match heap w !! l with
           | Some (ODict d) =>
               match dict_get k d with
               | Some v => (Ok v, w)
               | None => (Ok VNone, w)
               end
           | Some (OList _) => (Raise AttributeError, w)
           | None => (Raise SystemError, w)
           end
       | _ => (Raise AttributeError, w)
       end.

(** [v == s] for a string literal [s]. *)
Definition eq_str (v : value) (s : string) : bool :=
  match v with
  | VStr s' => bool_decide (s' = s)
  | _ => false
  end.

(** [bool(v)]. *)
Definition truthy (h : list object) (v : value) : bool :=
  match v with
  | VNone => false
  | VBool b => b
  | VInt z => negb (z =? 0)
  | VStr s => negb (bool_decide (s = ""))
  | VRef l =>
      match h !! l with
      | Some (ODict []) | Some (OList []) => false
      | _ => true
      end
  end.

(** What [for x in v] ranges over: the elements of a list, the keys of a
    dict, the characters of a string. *)
Definition iter (v : value) : M (list value) :=
  λ w, match v with
       | VRef l =>
           match heap w !! l with
           | Some (OList xs) => (Ok xs, w)
           | Some (ODict d) => (Ok (map (λ kv, VStr kv.1) d), w)
           | None => (Raise SystemError, w)
           end
       | VStr s =>
           (Ok (map (λ a, VStr (String a "")) (list_ascii_of_string s)), w)
       | _ => (Raise TypeError, w)
       end.

(** ** [json.load] and [json.dump] *)

(** [json.load] builds fresh objects, the members of a container before the
    container itself. *)
Fixpoint load_value (j : json) (h : list object) : value * list object :=
  match j with
  | JNull => (VNone, h)
  | JBool b => (VBool b, h)
  | JNum z => (VInt z, h)
  | JStr s => (VStr s, h)
  | JArr js =>
      let '(vs, h') :=
        (fix load_items (js : list json) (h : list object) :=
           match js with
           | [] => ([], h)
           | j :: js' =>
               let '(v, h1) := load_value j h in
               let '(vs, h2) := load_items js' h1 in
               (v :: vs, h2)
           end) js h in
      (VRef (length h'), h' ++ [OList vs])
  | JObj kvs =>
      let '(d, h') :=
        (fix load_members (kvs : list (string * json)) (h : list object) :=
           match kvs with
           | [] => ([], h)
           | (k, j) :: kvs' =>
               let '(v, h1) := load_value j h in
               let '(d, h2) := load_members kvs' h1 in
               ((k, v) :: d, h2)
           end) kvs h in
      (VRef (length h'), h' ++ [ODict d])
  end.

(** The JSON text of a value, to a nesting depth of [fuel] containers. *)
Fixpoint dump_value (fuel : nat) (h : list object) (v : value) : option json :=
  match v with
  | VNone => Some JNull
  | VBool b => Some (JBool b)
  | VInt z => Some (JNum z)
  | VStr s => Some (JStr s)
  | VRef l =>
      match fuel with
      | O => None
      | S fuel' =>
          match h !! l with
          | Some (OList xs) =>
              JArr <$> mapM (dump_value fuel' h) xs
          | Some (ODict d) =>
              JObj <$> mapM (λ kv, pair kv.1 <$> dump_value fuel' h kv.2) d
          | None => None
          end
      end
  end.

(** A store of [n] objects nests at most [n] deep unless an object contains
    itself, which [json.dump] refuses with a [ValueError]. *)
Definition dumps (h : list object) (v : value) : option json :=
  dump_value (S (length h)) h v.

(** [with open(path, "r") as f: json.load(f)] *)
Definition load_file (path : string) : M value :=
  λ w, match files w !! path with
       | None => (Raise (FileNotFoundError path), w)
       | Some Garbage => (Raise JSONDecodeError, w)
       | Some (Doc j) =>
           let '(v, h) := load_value j (heap w) in (Ok v, set_heap h w)
       end.

(** [with open(path, "w") as f: json.dump(v, f, indent=2)]: the file is
    truncated when it is opened, so a dump that fails leaves it broken. *)
Definition dump_file (v : value) (path : string) : M unit :=
  λ w, match dumps (heap w) v with
       | Some j => (Ok tt, set_files (<[path := Doc j]> (files w)) w)
       | None => (Raise ValueError, set_files (<[path := Garbage]> (files w)) w)
       end.

(** ** Text *)

(** [bytes.decode("utf-8")]: the code points, or nothing when the bytes are
    not well-formed UTF-8. *)
Definition continuation (b : N) : bool := ((128 <=? b) && (b <=? 191))%N.

Fixpoint decode_points (bs : list N) : option (list N) :=
  match bs with
  | [] => Some []
  | b0 :: r0 =>
      if (b0 <? 128)%N then cons b0 <$> decode_points r0
      else if ((194 <=? b0) && (b0 <=? 223))%N then
        match r0 with
        | b1 :: r1 =>
            if continuation b1
            then cons ((b0 - 192) * 64 + (b1 - 128))%N <$> decode_points r1
            else None
        | _ => None
        end
      else if ((224 <=? b0) && (b0 <=? 239))%N then
        match r0 with
        | b1 :: b2 :: r2 =>
            if continuation b1 && continuation b2
               && negb ((b0 =? 224) && (b1 <? 160))%N
               && negb ((b0 =? 237) && (160 <=? b1))%N
            then cons ((b0 - 224) * 4096 + (b1 - 128) * 64 + (b2 - 128))%N
                   <$> decode_points r2
            else None
        | _ => None
        end
      else if ((240 <=? b0) && (b0 <=? 244))%N then
        match r0 with
        | b1 :: b2 :: b3 :: r3 =>
            if continuation b1 && continuation b2 && continuation b3
               && negb ((b0 =? 240) && (b1 <? 144))%N
               && negb ((b0 =? 244) && (144 <=? b1))%N
            then cons ((b0 - 240) * 262144 + (b1 - 128) * 4096
                       + (b2 - 128) * 64 + (b3 - 128))%N
                   <$> decode_points r3
            else None
        | _ => None
        end
      else None
  end.

Definition decode (bs : list byte) : option (list N) :=
  decode_points (map Byte.to_N bs).

(** [str.isspace] on one character. *)
Definition isspace (c : N) : bool :=
  ((9 <=? c) && (c <=? 13) || (28 <=? c) && (c <=? 32)
   || (c =? 133) || (c =? 160) || (c =? 5760)
   || (8192 <=? c) && (c <=? 8202) || (c =? 8232) || (c =? 8233)
   || (c =? 8239) || (c =? 8287) || (c =? 12288))%N.

Fixpoint lstrip (cs : list N) : list N :=
  match cs with
  | [] => []
  | c :: cs' => if isspace c then lstrip cs' else cs
  end.

Definition strip (cs : list N) : list N := rev (lstrip (rev (lstrip cs))).

(** The code points of an ASCII literal. *)
Definition text (s : string) : list N := map N_of_ascii (list_ascii_of_string s).

Definition bytes (s : string) : list byte := list_byte_of_string s.

(** [load_value] on the elements of an array and on the members of an
    object. *)
Fixpoint load_items (js : list json) (h : list object)
    : list value * list object :=
  match js with
  | [] => ([], h)
  | j :: js' =>
      let '(v, h1) := load_value j h in
      let '(vs, h2) := load_items js' h1 in
      (v :: vs, h2)
  end.

Fixpoint load_members (kvs : list (string * json)) (h : list object)
    : list (string * value) * list object :=
  match kvs with
  | [] => ([], h)
  | (k, j) :: kvs' =>
      let '(v, h1) := load_value j h in
      let '(d, h2) := load_members kvs' h1 in
      ((k, v) :: d, h2)
  end.

(** ** Reading the store as JSON *)

(** [bool(v)] for the value that [json.load] makes of [j]. *)
Definition json_truthy (j : json) : bool :=
  match j with
  | JNull => false
  | JBool b => b
  | JNum z => negb (z =? 0)
  | JStr s => negb (bool_decide (s = ""))
  | JArr js => match js with [] => false | _ => true end
  | JObj kvs => match kvs with [] => false | _ => true end
  end.

(** [denotes h a j b v]: in the store [h] the value [v] is the root of a tree
    of objects, all at addresses from [a] up to but excluding [b] and each
    above its members, that spells the document [j]. *)
Fixpoint denotes (h : list object) (a : nat) (j : json) (b : nat) (v : value)
    {struct j} : Prop :=
  match j with
  | JNull => v = VNone
  | JBool x => v = VBool x
  | JNum z => v = VInt z
  | JStr s => v = VStr s
  | JArr js =>
      ∃ l vs, v = VRef l ∧ (a ≤ l < b)%nat ∧ h !! l = Some (OList vs) ∧
        (fix items (js : list json) (vs : list value) : Prop :=
           match js, vs with
           | [], [] => True
           | j :: js', v :: vs' => denotes h a j l v ∧ items js' vs'
           | _, _ => False
           end) js vs
  | JObj kvs =>
      ∃ l d, v = VRef l ∧ (a ≤ l < b)%nat ∧ h !! l = Some (ODict d) ∧
        (fix members (kvs : list (string * json)) (d : list (string * value))
           : Prop :=
           match kvs, d with
           | [], [] => True
           | (k, j) :: kvs', (k', v) :: d' =>
               k = k' ∧ denotes h a j l v ∧ members kvs' d'
           | _, _ => False
           end) kvs d
  end.

Definition items_denote (h : list object) (a l : nat)
    (js : list json) (vs : list value) : Prop :=
  Forall2 (λ j v, denotes h a j l v) js vs.

Definition members_denote (h : list object) (a l : nat)
    (kvs : list (string * json)) (d : list (string * value)) : Prop :=
  Forall2 (λ kj kv, kj.1 = kv.1 ∧ denotes h a kj.2 l kv.2) kvs d.

(** The JSON text of one field of a record, if the record is a dict that
    has the field. *)
Definition field_json (w : world) (record : value) (k : string) : option json :=
  match record with
  | VRef l =>
      match heap w !! l with
      | Some (ODict d) => dict_get k d ≫= dumps (heap w)
      | _ => None
      end
  | _ => None
  end.

(** ** Example data *)

Module Example.

Definition r1_members : list (string * json) :=
  [("name", JStr "r1"); ("profile", JStr "tabular-data-resource");
   ("schema", JStr "inherit-from-format");
   ("data", JArr [JObj [("x", JNum 1)]])].

Definition r2_members : list (string * json) :=
  [("name", JStr "r2"); ("profile", JStr "tabular-data-resource");
   ("schema", JObj [("fields", JArr [])]); ("data", JArr [])].

Definition r3_members : list (string * json) :=
  [("name", JStr "r3"); ("profile", JStr "geo-resource");
   ("schema", JStr "inherit-from-format"); ("data", JArr [])].

Definition f1_schema : list (string * json) :=
  [("fields", JArr [JObj [("name", JStr "x"); ("type", JStr "number")]])].

Definition f1_members : list (string * json) :=
  [("name", JStr "f1"); ("schema", JObj f1_schema)].

Definition dp_members : list (string * json) :=
  [("name", JStr "dp"); ("updated", JNum 100); ("resources", JArr [])].

Definition c1_bindings : list json :=
  [JObj [("name", JStr "x"); ("resource", JStr "r1"); ("format", JStr "f1")]].

Definition c1_members : list (string * json) :=
  [("name", JStr "c1"); ("container", JStr "algorithm:latest");
   ("data", JArr c1_bindings)].

Definition v1_members : list (string * json) :=
  [("name", JStr "v1"); ("container", JStr "view:latest");
   ("resources", JArr (map JStr ["r1"; "r2"]))].

Definition v2_members : list (string * json) :=
  [("name", JStr "v2"); ("container", JStr "view:latest");
   ("resources", JArr (map JStr ["r1"]))].

Definition fs : gmap string file :=
  list_to_map
    [("/dp/resources/r1.json", Doc (JObj r1_members));
     ("/dp/resources/r2.json", Doc (JObj r2_members));
     ("/dp/resources/r3.json", Doc (JObj r3_members));
     ("/dp/formats/f1.json", Doc (JObj f1_members));
     ("/dp/datapackage.json", Doc (JObj dp_members));
     ("/dp/configurations/c1.json", Doc (JObj c1_members));
     ("/dp/views/v1.json", Doc (JObj v1_members));
     ("/dp/views/v2.json", Doc (JObj v2_members))].

(** Nothing loaded yet, the clock at 1000. *)
Definition w0 : world := World [] fs 1000 501 [].

(** A record in memory that has lost its [format]. *)
Definition bare : world :=
  World [ODict [("name", VStr "r1"); ("schema", VStr "inherit-from-format")]]
    fs 1000 501 [].

(** A runtime whose containers leave the files alone. *)
Definition docker (status : Z) (output : string) : DockerClient :=
  {| containers_run := λ _ fs, Ok (Container status (bytes output), fs) |}.

(** Stand-ins for what the module takes from outside: containers print as
    nothing, and the typed resource is its record. *)
Definition no_repr : list object → loc → string := λ _ _, "".
Definition tdr_init : value → M value := ret.
Definition tdr_to_dict : value → M value := ret.

(** A runtime whose container exits with 1 and prints one byte that is no
    UTF-8. *)
Definition garbled : DockerClient :=
  {| containers_run := λ _ fs, Ok (Container 1 [Byte.xff], fs) |}.

(** A resource whose own schema carries the tag of a format copy. *)
Definition r4_schema : list (string * json) :=
  [("fields", JArr []); ("type", JStr "format")].

Definition r4_members : list (string * json) :=
  [("name", JStr "r4"); ("profile", JStr "tabular-data-resource");
   ("schema", JObj r4_schema); ("data", JArr [])].

(** A view that lists a resource for which there is no file. *)
Definition v3_members : list (string * json) :=
  [("name", JStr "v3"); ("container", JStr "view:latest");
   ("resources", JArr (map JStr ["r1"; "r9"]))].

(** A configuration whose binding has no format. *)
Definition c2_binding : list (string * json) :=
  [("name", JStr "x"); ("resource", JStr "r1")].

Definition c2_members : list (string * json) :=
  [("name", JStr "c2"); ("container", JStr "algorithm:latest");
   ("data", JArr [JObj c2_binding])].

(** The package with those three added. *)
Definition wide : world :=
  World []
    (<["/dp/resources/r4.json" := Doc (JObj r4_members)]>
       (<["/dp/views/v3.json" := Doc (JObj v3_members)]>
          (<["/dp/configurations/c2.json" := Doc (JObj c2_members)]> fs)))
    1000 501 [].

(** The package without its metadata. *)
Definition headless : world :=
  World [] (delete "/dp/datapackage.json" fs) 1000 501 [].

(** A configuration in memory that is not on disk yet. *)
Definition c3_members : list (string * json) :=
  [("name", JStr "c3"); ("container", JStr "algorithm:latest");
   ("data", JArr [])].

Definition drafted : world :=
  World [OList [];
         ODict [("name", VStr "c3"); ("container", VStr "algorithm:latest");
                ("data", VRef 0%nat)]]
    fs 1000 501 [].

End Example.

(** ** The module *)

Definition ALGORITHMS_DIR : string := "algorithms".
Definition CONFIGURATIONS_DIR : string := "configurations".
Definition RESOURCES_DIR : string := "resources".
Definition FORMATS_DIR : string := "formats".
Definition VIEWS_DIR : string := "views".

(** The double quote, for the one message that has it. *)
Definition dquote : string := String (ascii_of_nat 34) "".

Section datapackage.

(** How Python prints a list or a dict inside an f-string is left open:
    no function of the module depends on it for well-typed records. *)
Variable container_repr : list object → loc → string.

(** [resources.TabularDataResource] is not part of this file: its
    constructor and its [to_dict] method are taken as they come. *)
Variable TabularDataResource : Type.
Variable TabularDataResource_init : value → M TabularDataResource.
Variable to_dict : TabularDataResource → M value.

(** [f"{v}"] *)
Definition format_value (h : list object) (v : value) : string :=
  match v with
  | VNone => "None"
  | VBool true => "True"
  | VBool false => "False"
  | VInt z => pretty z
  | VStr s => s
  | VRef l => container_repr h l
  end.

(** What [load_resource] returns and [write_resource] accepts. *)
Inductive resource : Type :=
  | Typed (r : TabularDataResource)
  | Raw (v : value).

Definition os_getuid : M Z := λ w, (Ok (uid w), w).

Definition time_time : M Z := λ w, (Ok (clock w), w).

(** [docker_client.containers.run(...)] followed by [container.wait()]. *)
Definition run_container (docker_client : DockerClient) (r : run_request)
  : M container :=
  λ w, match containers_run docker_client r (files w) with
       | Ok (c, fs) => (Ok c, set_files fs (add_run_call r w))
       | Raise e => (Raise e, add_run_call r w)
       end.

(** [container.logs().decode("utf-8").strip()] *)
Definition stripped_logs (c : container) : M (list N) :=
  match decode (logs c) with
  | Some cs => ret (strip cs)
  | None => raise UnicodeDecodeError
  end.

(** The arguments [execute_container] gives to [containers.run]. *)
Definition container_request (container_name : value)
    (environment : list (string * string)) (base_path : string) (u : Z)
  : run_request :=
  {| image := container_name;
     volumes := [base_path +:+ ":/usr/src/app/datapackage"];
     environment := environment;
     detach := true;
     user := u |}.

Definition execute_container (docker_client : DockerClient)
    (container_name : value) (environment : list (string * string))
    (base_path : string) : M (list N) :=
  let! u := os_getuid in
  let! container :=
    run_container docker_client
      (container_request container_name environment base_path u) in
  if negb (StatusCode container =? 0) then
    let! l := stripped_logs container in
    raise (ExecutionError
             "Execution failed with status code {result['StatusCode']}" l)
  else
    stripped_logs container.

Definition load_view (view_name base_path : string) : M value :=
  load_file (base_path +:+ "/" +:+ VIEWS_DIR +:+ "/" +:+ view_name +:+ ".json").

Definition load_configuration (configuration_name base_path : string)
  : M value :=
  load_file (base_path +:+ "/" +:+ CONFIGURATIONS_DIR +:+ "/"
             +:+ configuration_name +:+ ".json").

Definition write_configuration (configuration : value) (base_path : string)
  : M unit :=
  let! name := getitem configuration "name" in
  let! h := get_heap in
  dump_file configuration
    (base_path +:+ "/" +:+ CONFIGURATIONS_DIR +:+ "/"
     +:+ format_value h name +:+ ".json").

Definition execute_datapackage (docker_client : DockerClient)
    (configuration_name base_path : string) : M (list N) :=
  let! configuration := load_configuration configuration_name base_path in
  let! container_name := getitem configuration "container" in
  execute_container docker_client container_name
    [("CONFIGURATION", configuration_name)] base_path.

Definition resource_path (base_path : string) (h : list object)
    (resource_name : value) : string :=
  base_path +:+ "/" +:+ RESOURCES_DIR +:+ "/"
  +:+ format_value h resource_name +:+ ".json".

(** The body of the loop of [execute_view]. *)
Definition check_populated (base_path : string) (resource_name : value)
  : M unit :=
  let! h := get_heap in
  let! r := load_file (resource_path base_path h resource_name) in
  let! data := getitem r "data" in
  let! h' := get_heap in
  if negb (truthy h' data) then
    raise (ResourceError
             ("Can't render view with empty resource "
              +:+ format_value h' resource_name
              +:+ ". Have you executed the datapackage?")
             resource_name)
  else ret tt.

Definition execute_view (docker_client : DockerClient)
    (view_name base_path : string) : M (list N) :=
  let! view := load_view view_name base_path in
  let! resources := getitem view "resources" in
  let! names := iter resources in
  do! for_each names (check_populated base_path) in
  let! container_name := getitem view "container" in
  execute_container docker_client container_name
    [("VIEW", view_name)] base_path.

Definition load_resource (resource_name format_name : value)
    (base_path : string) (as_dict : bool) : M resource :=
  let! h := get_heap in
  let! resource_json := load_file (resource_path base_path h resource_name) in
  do! match format_name with
      | VNone =>
          let! placeholder := alloc (ODict [("hello", VStr "world")]) in
          setitem resource_json "format" placeholder
      | _ =>
          let! h := get_heap in
          let! format :=
            load_file (base_path +:+ "/" +:+ FORMATS_DIR +:+ "/"
                       +:+ format_value h format_name +:+ ".json") in
          let! format_schema := getitem format "schema" in
          do! setitem resource_json "format" format_schema in
          let! schema := getitem resource_json "schema" in
          if eq_str schema "inherit-from-format" then
            let! f := getitem resource_json "format" in
            do! setitem resource_json "schema" f in
            let! s := getitem resource_json "schema" in
            setitem s "type" (VStr "format")
          else ret tt
      end in
  if as_dict then ret (Raw resource_json)
  else
    let! profile := getitem resource_json "profile" in
    if eq_str profile "tabular-data-resource"
       || eq_str profile "parameter-tabular-data-resource"
    then
      let! r := TabularDataResource_init resource_json in
      ret (Typed r)
    else
      let! h := get_heap in
      raise (NotImplementedError
               ("Unknown resource profile " +:+ dquote
                +:+ format_value h profile +:+ dquote)).

(** Modelled from the spec: [helpers.find_by_name] is not part of this
    file.  The spec has it scan the bindings in declared order for the
    first one whose variable name matches, and the caller tests the
    answer against [None]. *)
Definition has_name (h : list object) (name : string) (item : value) : bool :=
  match item with
  | VRef l =>
      match h !! l with
      | Some (ODict d) =>
          match dict_get "name" d with
          | Some v => eq_str v name
          | None => false
          end
      | _ => false
      end
  | _ => false
  end.

Definition find_by_name (array_of_dicts : value) (name : string) : M value :=
  let! items := iter array_of_dicts in
  let! h := get_heap in
  ret (default VNone (head (filter (λ i, has_name h name i = true) items))).

Definition load_resource_by_variable
    (variable_name configuration_name base_path : string) (as_dict : bool)
  : M resource :=
  let! configuration := load_configuration configuration_name base_path in
  let! data := getitem configuration "data" in
  let! variable := find_by_name data variable_name in
  match variable with
  | VNone =>
      raise (KeyError ("Can't find variable named " +:+ variable_name
                       +:+ " in configuration " +:+ configuration_name))
  | _ =>
      let! resource_name := getitem variable "resource" in
      let! format_name := getitem variable "format" in
      load_resource resource_name format_name base_path as_dict
  end.

(** [resource.to_dict()] for the typed value, the record itself otherwise. *)
Definition as_record (resource : resource) : M value :=
  match resource with
  | Typed r => to_dict r
  | Raw v => ret v
  end.

Definition write_resource (resource : resource) (base_path : string)
  : M unit :=
  let! resource_json := as_record resource in
  let! name := getitem resource_json "name" in
  let! h := get_heap in
  let resource_path := resource_path base_path h name in
  do! pop resource_json "format" in
  let! schema := getitem resource_json "schema" in
  let! type := get schema "type" in
  do! (if eq_str type "format"
       then setitem resource_json "schema" (VStr "inherit-from-format")
       else ret tt) in
  do! dump_file resource_json resource_path in
  let! dp := load_file (base_path +:+ "/datapackage.json") in
  let! now := time_time in
  do! setitem dp "updated" (VInt now) in
  dump_file dp (base_path +:+ "/datapackage.json").

(** ** Resources as the files have them *)

(** The [data] of the resource called [name]. *)
Definition resource_data (fs : gmap string file) (base_path name : string)
  : option json :=
  match fs !! resource_path base_path [] (VStr name) with
  | Some (Doc (JObj kvs)) => dict_get "data" kvs
  | _ => None
  end.

Definition populated (fs : gmap string file) (base_path name : string) : Prop :=
  ∃ data, resource_data fs base_path name = Some data ∧ json_truthy data = true.

Definition unpopulated (fs : gmap string file) (base_path name : string) : Prop :=
  ∃ data, resource_data fs base_path name = Some data ∧ json_truthy data = false.

(** Whether a binding of a configuration, as the file has it, is the one
    for the variable [name]. *)
Definition binds (name : string) (binding : json) : bool :=
  match binding with
  | JObj kvs =>
      match dict_get "name" kvs with
      | Some (JStr s) => bool_decide (s = name)
      | _ => false
      end
  | _ => false
  end.

(** [reads_only w w']: going from [w] to [w'] no file was written and no
    container was asked for, the clock and the user are the same, and every
    object that [w] had is still there as it was; objects may have been
    added. *)
Definition reads_only (w w' : world) : Prop :=
  files w' = files w ∧ run_calls w' = run_calls w ∧
  clock w' = clock w ∧ uid w' = uid w ∧
  ∀ l o, heap w !! l = Some o → heap w' !! l = Some o.

(** ** Facts about dicts *)
Section dict_facts.
Context {A : Type}.
Implicit Types (d : list (string * A)) (k : string).

Lemma dict_get_set_eq k v d : dict_get k (dict_set k v d) = Some v.
Proof.
  induction d as [|[k' v'] d IH]; simpl.
  - by rewrite decide_True.
  - destruct (decide (k' = k)) as [->|Hne]; simpl.
    + by rewrite decide_True.
    + by rewrite decide_False.
Qed.

Lemma dict_get_set_ne k k' v d :
  k ≠ k' → dict_get k' (dict_set k v d) = dict_get k' d.
Proof.
  intros Hne. induction d as [|[k0 v0] d IH]; simpl.
  - by rewrite decide_False.
  - destruct (decide (k0 = k)) as [->|Hne0]; simpl.
    + by rewrite !decide_False.
    + by rewrite IH.
Qed.

Lemma dict_get_pop_eq k d : dict_get k (dict_pop k d) = None.
Proof.
  induction d as [|[k' v'] d IH]; simpl; [done|].
  destruct (decide (k' = k)); simpl; [done|]. by rewrite decide_False.
Qed.

Lemma dict_get_pop_ne k k' d :
  k ≠ k' → dict_get k' (dict_pop k d) = dict_get k' d.
Proof.
  intros Hne. induction d as [|[k0 v0] d IH]; simpl; [done|].
  destruct (decide (k0 = k)) as [->|Hne0]; simpl.
  - by rewrite decide_False.
  - by rewrite IH.
Qed.
End dict_facts.

(** Two dicts with the same keys in the same order and related values. *)
Section dict_rel.
Context {A B : Type} (R : A → B → Prop).
Definition entry_rel (x : string * A) (y : string * B) : Prop := x.1 = y.1 ∧ R x.2 y.2.

Lemma dict_get_rel k d e :
  Forall2 entry_rel d e →
  option_Forall2 R (dict_get k d) (dict_get k e).
Proof.
  induction 1 as [|[k1 x] [k2 y] d e [Hk Hx] _ IH]; simpl in *; [constructor|].
  subst k2. destruct (decide (k1 = k)); [by constructor|done].
Qed.

Lemma dict_set_rel k x y d e :
  R x y → Forall2 entry_rel d e →
  Forall2 entry_rel (dict_set k x d) (dict_set k y e).
Proof.
  intros Hxy. induction 1 as [|[k1 x1] [k2 y1] d e [Hk Hx] Hde IH]; simpl in *.
  - by repeat constructor.
  - subst k2. destruct (decide (k1 = k)); constructor; done.
Qed.

Lemma dict_pop_rel k d e :
  Forall2 entry_rel d e →
  Forall2 entry_rel (dict_pop k d) (dict_pop k e).
Proof.
  induction 1 as [|[k1 x1] [k2 y1] d e [Hk Hx] Hde IH]; simpl in *; [constructor|].
  subst k2. destruct (decide (k1 = k)); [done|]. by constructor.
Qed.
End dict_rel.

(** ** Induction on documents *)
Lemma json_ind' (P : json → Prop) :
  P JNull → (∀ b, P (JBool b)) → (∀ z, P (JNum z)) → (∀ s, P (JStr s)) →
  (∀ js, Forall P js → P (JArr js)) →
  (∀ kvs, Forall (λ kj, P kj.2) kvs → P (JObj kvs)) →
  ∀ j, P j.
Proof.
  intros Hnull Hbool Hnum Hstr Harr Hobj.
  fix IH 1. intros [ | b | z | s | js | kvs ].
  - exact Hnull.
  - apply Hbool.
  - apply Hnum.
  - apply Hstr.
  - apply Harr. induction js as [|j js IHjs]; constructor; [apply IH|exact IHjs].
  - apply Hobj. induction kvs as [|[k j] kvs IHkvs]; constructor;
      [apply IH|exact IHkvs].
Qed.

Lemma denotes_arr h a js b v :
  denotes h a (JArr js) b v ↔
  ∃ l vs, v = VRef l ∧ (a ≤ l < b)%nat ∧ h !! l = Some (OList vs) ∧ items_denote h a l js vs.
Proof.
  assert (Hit : ∀ l js vs,
    (fix items (js : list json) (vs : list value) : Prop :=
           match js, vs with
           | [], [] => True
           | j :: js', v :: vs' => denotes h a j l v ∧ items js' vs'
           | _, _ => False
           end) js vs ↔ items_denote h a l js vs).
  { intros l. induction js0 as [|j js0 IH]; intros [|v0 vs]; split; try done.
    - constructor.
    - inversion 1.
    - inversion 1.
    - intros [H1 H2]. constructor; [done|]. by apply IH.
    - inversion 1; subst. split; [done|]. by apply IH. }
  simpl. split; intros (l & vs & ? & ? & ? & Hi); exists l, vs;
    (split; [done|split; [done|split; [done|]]]).
  - by apply (proj1 (Hit l js vs)).
  - by apply (proj2 (Hit l js vs)).
Qed.

Lemma denotes_obj h a kvs b v :
  denotes h a (JObj kvs) b v ↔
  ∃ l d, v = VRef l ∧ (a ≤ l < b)%nat ∧ h !! l = Some (ODict d) ∧ members_denote h a l kvs d.
Proof.
  assert (Hit : ∀ l kvs d,
    (fix members (kvs : list (string * json)) (d : list (string * value))
           : Prop :=
           match kvs, d with
           | [], [] => True
           | (k, j) :: kvs', (k', v) :: d' =>
               k = k' ∧ denotes h a j l v ∧ members kvs' d'
           | _, _ => False
           end) kvs d ↔ members_denote h a l kvs d).
  { intros l. induction kvs0 as [|[k j] kvs0 IH]; intros [|[k0 v0] d]; split; try done.
    - constructor.
    - inversion 1.
    - inversion 1.
    - intros (H1 & H2 & H3). constructor; [done|]. by apply IH.
    - inversion 1 as [|? ? ? ? [? ?]]; simplify_eq/=. repeat split; try done. by apply IH. }
  simpl. split; intros (l & d & ? & ? & ? & Hm); exists l, d;
    (split; [done|split; [done|split; [done|]]]).
  - by apply (proj1 (Hit l kvs d)).
  - by apply (proj2 (Hit l kvs d)).
Qed.

Lemma load_value_arr js h :
  load_value (JArr js) h =
  let '(vs, h') := load_items js h in (VRef (length h'), h' ++ [OList vs]).
Proof. reflexivity. Qed.

Lemma load_value_obj kvs h :
  load_value (JObj kvs) h =
  let '(d, h') := load_members kvs h in (VRef (length h'), h' ++ [ODict d]).
Proof. reflexivity. Qed.

(** ** The representation is stable *)

Lemma denotes_weaken h a a' j b b' v :
  (a' ≤ a)%nat → (b ≤ b')%nat → denotes h a j b v → denotes h a' j b' v.
Proof.
  intros Ha. revert b b' v.
  induction j as [ | x | z | s | js IH | kvs IH ] using json_ind'; intros b b' v Hb; try (simpl; congruence).
  - rewrite !denotes_arr. intros (l & vs & -> & Hl & Hh & Hi).
    exists l, vs. split_and!; [done|lia|lia|done|].
    unfold items_denote in *. clear Hh.
    induction Hi as [|j v js vs Hj _ IHi]; [constructor|].
    inversion IH; subst. constructor; [|by apply IHi].
    by apply (H1 l l).
  - rewrite !denotes_obj. intros (l & d & -> & Hl & Hh & Hm).
    exists l, d. split_and!; [done|lia|lia|done|].
    unfold members_denote in *. clear Hh.
    induction Hm as [|kj kv kvs d [Hk Hj] _ IHm]; [constructor|].
    inversion IH; subst. constructor; [|by apply IHm].
    split; [done|]. by apply (H1 l l).
Qed.

Lemma denotes_agree h h' a j b v :
  (∀ l, (a ≤ l < b)%nat → h' !! l = h !! l) →
  denotes h a j b v → denotes h' a j b v.
Proof.
  revert b v.
  induction j as [ | x | z | s | js IH | kvs IH ] using json_ind'; intros b v Hagree; try (simpl; congruence).
  - rewrite !denotes_arr. intros (l & vs & -> & Hl & Hh & Hi).
    exists l, vs. split_and!; [done|lia|lia|by rewrite Hagree|].
    unfold items_denote in *. clear Hh.
    induction Hi as [|j v js vs Hj _ IHi]; [constructor|].
    inversion IH; subst. constructor; [|by apply IHi].
    apply H1; [|done]. intros l' ?. apply Hagree. lia.
  - rewrite !denotes_obj. intros (l & d & -> & Hl & Hh & Hm).
    exists l, d. split_and!; [done|lia|lia|by rewrite Hagree|].
    unfold members_denote in *. clear Hh.
    induction Hm as [|kj kv kvs d [Hk Hj] _ IHm]; [constructor|].
    inversion IH; subst. constructor; [|by apply IHm].
    split; [done|]. apply H1; [|done]. intros l' ?. apply Hagree. lia.
Qed.

Lemma denotes_app h ext a j b v :
  (b ≤ length h)%nat → denotes h a j b v → denotes (h ++ ext) a j b v.
Proof.
  intros Hb. apply denotes_agree. intros l Hl. apply lookup_app_l. lia.
Qed.

(** ** What [json.load] builds *)

Lemma load_value_denotes j :
  ∀ h v h', load_value j h = (v, h') →
    (∃ ext, h' = h ++ ext) ∧ denotes h' (length h) j (length h') v.
Proof.
  induction j as [ | x | z | s | js IH | kvs IH ] using json_ind'; intros h v h' Hload.
  - simpl in Hload. simplify_eq. split; [by exists []; rewrite app_nil_r|done].
  - simpl in Hload. simplify_eq. split; [by exists []; rewrite app_nil_r|done].
  - simpl in Hload. simplify_eq. split; [by exists []; rewrite app_nil_r|done].
  - simpl in Hload. simplify_eq. split; [by exists []; rewrite app_nil_r|done].
  - rewrite load_value_arr in Hload.
    destruct (load_items js h) as [vs h1] eqn:Hitems. simplify_eq.
    assert (Hspec : (∃ ext, h1 = h ++ ext) ∧
                    items_denote h1 (length h) (length h1) js vs).
    { clear -IH Hitems. revert h vs h1 Hitems.
      induction js as [|j js IHjs]; intros h vs h1 Hitems; simpl in Hitems.
      - simplify_eq. split; [by exists []; rewrite app_nil_r|constructor].
      - inversion IH as [|? ? Hj Hjs]; subst.
        destruct (load_value j h) as [v h0] eqn:Hv.
        destruct (load_items js h0) as [vs' h2] eqn:Hvs. simplify_eq.
        destruct (Hj _ _ _ Hv) as [[e0 ->] Hd].
        destruct (IHjs Hjs _ _ _ Hvs) as [[e1 ->] Hds].
        split; [by exists (e0 ++ e1); rewrite app_assoc|].
        constructor.
        + apply (denotes_weaken _ (length h) _ _ (length (h ++ e0)));
            [lia|rewrite !length_app; lia|].
          by apply denotes_app.
        + unfold items_denote in *. eapply Forall2_impl; [exact Hds|].
          intros j' v'. simpl. apply denotes_weaken; [rewrite length_app; lia|lia]. }
    destruct Hspec as [[ext ->] Hi].
    split; [by exists (ext ++ [OList vs]); rewrite app_assoc|].
    apply denotes_arr. exists (length (h ++ ext)), vs.
    split_and!; try done.
    + rewrite !length_app. simpl. lia.
    + rewrite !length_app. simpl. lia.
    + by apply list_lookup_middle.
    + unfold items_denote in *. eapply Forall2_impl; [exact Hi|].
      intros j' v'. simpl. apply denotes_app. lia.
  - rewrite load_value_obj in Hload.
    destruct (load_members kvs h) as [d h1] eqn:Hmembers. simplify_eq.
    assert (Hspec : (∃ ext, h1 = h ++ ext) ∧
                    members_denote h1 (length h) (length h1) kvs d).
    { clear -IH Hmembers. revert h d h1 Hmembers.
      induction kvs as [|[k j] kvs IHkvs]; intros h d h1 Hmembers; simpl in Hmembers.
      - simplify_eq. split; [by exists []; rewrite app_nil_r|constructor].
      - inversion IH as [|? ? Hj Hjs]; subst. simpl in Hj.
        destruct (load_value j h) as [v h0] eqn:Hv.
        destruct (load_members kvs h0) as [d' h2] eqn:Hd'. simplify_eq.
        destruct (Hj _ _ _ Hv) as [[e0 ->] Hd].
        destruct (IHkvs Hjs _ _ _ Hd') as [[e1 ->] Hds].
        split; [by exists (e0 ++ e1); rewrite app_assoc|].
        constructor.
        + split; [done|]. simpl.
          apply (denotes_weaken _ (length h) _ _ (length (h ++ e0)));
            [lia|rewrite !length_app; lia|].
          by apply denotes_app.
        + unfold members_denote in *. eapply Forall2_impl; [exact Hds|].
          intros kj kv [? ?]. split; [done|].
          eapply denotes_weaken; [| |done]; [rewrite length_app; lia|lia]. }
    destruct Hspec as [[ext ->] Hm].
    split; [by exists (ext ++ [ODict d]); rewrite app_assoc|].
    apply denotes_obj. exists (length (h ++ ext)), d.
    split_and!; try done.
    + rewrite !length_app. simpl. lia.
    + rewrite !length_app. simpl. lia.
    + by apply list_lookup_middle.
    + unfold members_denote in *. eapply Forall2_impl; [exact Hm|].
      intros kj kv [? ?]. split; [done|]. apply denotes_app; [lia|done].
Qed.

Lemma denotes_ref h a j b l :
  denotes h a j b (VRef l) → (a ≤ l < b)%nat ∧ (l < length h)%nat.
Proof.
  destruct j; simpl; try congruence.
  - intros (l' & vs & ? & ? & Hh & _). simplify_eq.
    split; [done|]. by eapply lookup_lt_Some.
  - intros (l' & d & ? & ? & Hh & _). simplify_eq.
    split; [done|]. by eapply lookup_lt_Some.
Qed.

Lemma denotes_truthy h a j b v :
  denotes h a j b v → truthy h v = json_truthy j.
Proof.
  destruct j as [ | x | z | s | js | kvs ]; try (simpl; by intros ->).
  - rewrite denotes_arr. intros (l & vs & -> & _ & Hh & Hi). simpl. rewrite Hh.
    by destruct Hi.
  - rewrite denotes_obj. intros (l & d & -> & _ & Hh & Hm). simpl. rewrite Hh.
    by destruct Hm.
Qed.

(** ** What [json.dump] writes *)

Lemma denotes_dump j :
  ∀ h a b v fuel, denotes h a j b v → (∀ l, v = VRef l → (l < fuel)%nat) →
    dump_value fuel h v = Some j.
Proof.
  induction j as [ | x | z | s | js IH | kvs IH ] using json_ind';
    intros h a b v fuel; try (simpl; intros -> _; by destruct fuel).
  - rewrite denotes_arr. intros (l & vs & -> & Hl & Hh & Hi) Hfuel.
    specialize (Hfuel l eq_refl). destruct fuel as [|fuel]; [lia|].
    simpl. rewrite Hh.
    enough (mapM (dump_value fuel h) vs = Some js) as -> by done.
    apply mapM_Some. unfold items_denote in Hi. clear Hh.
    induction Hi as [|j v js vs Hj _ IHi]; [constructor|].
    inversion IH as [|? ? IHj IHjs]; subst. constructor; [|by apply IHi].
    eapply IHj; [exact Hj|]. intros l' ->. apply denotes_ref in Hj. lia.
  - rewrite denotes_obj. intros (l & d & -> & Hl & Hh & Hm) Hfuel.
    specialize (Hfuel l eq_refl). destruct fuel as [|fuel]; [lia|].
    simpl. rewrite Hh.
    enough (mapM (λ kv, pair kv.1 <$> dump_value fuel h kv.2) d = Some kvs)
      as -> by done.
    apply mapM_Some. unfold members_denote in Hm. clear Hh.
    induction Hm as [|[k j] [k' v] kvs d [Hk Hj] _ IHm]; [constructor|].
    inversion IH as [|? ? IHj IHjs]; subst. simpl in *. subst k'.
    constructor; [|by apply IHm].
    erewrite (IHj _ _ _ _ _ Hj); [done|].
    intros l' ->. apply denotes_ref in Hj. lia.
Qed.

Lemma denotes_dumps h a j b v : denotes h a j b v → dumps h v = Some j.
Proof.
  intros Hd. eapply denotes_dump; [exact Hd|].
  intros l ->. apply denotes_ref in Hd. lia.
Qed.

(** What is written for a dict has the keys of the dict, in order. *)
Lemma dumps_dict h l d j :
  h !! l = Some (ODict d) → dumps h (VRef l) = Some j →
  ∃ kvs, j = JObj kvs ∧
    Forall2 (entry_rel (λ v j, dump_value (length h) h v = Some j)) d kvs.
Proof.
  intros Hh. unfold dumps. simpl. rewrite Hh.
  destruct (mapM _ d) as [kvs|] eqn:Hm; [|done]. intros [= <-].
  exists kvs. split; [done|].
  apply mapM_Some in Hm. eapply Forall2_impl; [exact Hm|].
  intros [k v] [k' j']. simpl.
  destruct (dump_value (length h) h v) eqn:Hv; simpl; [|done].
  intros [= <- <-]. by split.
Qed.

Lemma dumps_dict_absent h l d kvs k :
  h !! l = Some (ODict d) → dumps h (VRef l) = Some (JObj kvs) →
  dict_get k d = None → dict_get k kvs = None.
Proof.
  intros Hh Hd Hk. destruct (dumps_dict _ _ _ _ Hh Hd) as (kvs' & [= <-] & Hrel).
  pose proof (dict_get_rel _ k _ _ Hrel) as Hget. rewrite Hk in Hget.
  by inversion Hget.
Qed.

(** ** Members of a loaded object *)

Lemma members_get h a l kvs d k :
  members_denote h a l kvs d →
  match dict_get k kvs with
  | Some j => ∃ v, dict_get k d = Some v ∧ denotes h a j l v
  | None => dict_get k d = None
  end.
Proof.
  intros Hm.
  pose proof (dict_get_rel (λ j v, denotes h a j l v) k kvs d Hm) as Hget.
  destruct Hget as [j v Hj|]; eauto.
Qed.

Lemma members_set h a l kvs d k j v :
  denotes h a j l v → members_denote h a l kvs d →
  members_denote h a l (dict_set k j kvs) (dict_set k v d).
Proof. intros Hj Hm. by apply (dict_set_rel (λ j v, denotes h a j l v)). Qed.

Lemma members_pop h a l kvs d k :
  members_denote h a l kvs d →
  members_denote h a l (dict_pop k kvs) (dict_pop k d).
Proof. apply (dict_pop_rel (λ j v, denotes h a j l v)). Qed.

Lemma members_agree h h' a l kvs d :
  (∀ l', (a ≤ l' < l)%nat → h' !! l' = h !! l') →
  members_denote h a l kvs d → members_denote h' a l kvs d.
Proof.
  intros Hagree Hm. eapply Forall2_impl; [exact Hm|].
  intros kj kv [? ?]. split; [done|]. by eapply denotes_agree.
Qed.

(** ** Running the monad *)

Lemma bind_ok {A B} (m : M A) (k : A → M B) w a w1 :
  m w = (Ok a, w1) → bind m k w = k a w1.
Proof. unfold bind. by intros ->. Qed.

Lemma bind_raise {A B} (m : M A) (k : A → M B) w e w1 :
  m w = (Raise e, w1) → bind m k w = (Raise e, w1).
Proof. unfold bind. by intros ->. Qed.

Lemma bind_inv {A B} (m : M A) (k : A → M B) w b w' :
  bind m k w = (Ok b, w') → ∃ a w1, m w = (Ok a, w1) ∧ k a w1 = (Ok b, w').
Proof.
  unfold bind. destruct (m w) as [[a|e] w1]; [|done]. intros Hk. by exists a, w1.
Qed.

Lemma bind_cases {A B} (m : M A) (k : A → M B) w r w' :
  bind m k w = (r, w') →
  (∃ a w1, m w = (Ok a, w1) ∧ k a w1 = (r, w')) ∨
  (∃ e, m w = (Raise e, w') ∧ r = Raise e).
Proof.
  unfold bind. destruct (m w) as [[a|e] w1].
  - intros Hk. left. by exists a, w1.
  - intros [= <- <-]. right. by exists e.
Qed.

(** ** The container executor *)

(** C3.  Once the container has run and its output is text, [execute_container]
    raises an [ExecutionError] whose [logs] are the stripped output exactly
    when the exit status is not zero, and returns the stripped output when
    the status is zero. *)
Theorem execute_container_status docker_client container_name environment
    base_path w c fs cs :
  containers_run docker_client
    (container_request container_name environment base_path (uid w))
    (files w) = Ok (c, fs) →
  decode (logs c) = Some cs →
  (StatusCode c ≠ 0 ↔
   ∃ message,
     (execute_container docker_client container_name environment base_path w).1
     = Raise (ExecutionError message (strip cs))) ∧
  (StatusCode c = 0 →
   (execute_container docker_client container_name environment base_path w).1
   = Ok (strip cs)).
Proof.
  intros Hrun Hdecode.
  assert (Hexec :
    (execute_container docker_client container_name environment base_path w).1
    = if negb (StatusCode c =? 0)
      then Raise (ExecutionError
                    "Execution failed with status code {result['StatusCode']}"
                    (strip cs))
      else Ok (strip cs)).
  { unfold execute_container, bind, os_getuid, run_container, stripped_logs.
    rewrite Hrun. destruct (negb (StatusCode c =? 0)); by rewrite Hdecode. }
  rewrite Hexec. destruct (Z.eqb_spec (StatusCode c) 0) as [Hz|Hnz]; simpl.
  - split; [|done]. split; [done|]. by intros [? ?].
  - split; [|done]. split; [eauto|done].
Qed.

(** ** Paths *)

Lemma resource_path_not_metadata base_path h name :
  resource_path base_path h name ≠ base_path +:+ "/datapackage.json".
Proof.
  unfold resource_path. intros Heq. apply (inj (String.app base_path)) in Heq.
  discriminate Heq.
Qed.

(** ** Inverting the operations on objects *)

Lemma getitem_world o k w r w' : getitem o k w = (r, w') → w' = w.
Proof. unfold getitem. intros H. repeat case_match; by simplify_eq. Qed.

Lemma getitem_inv o k w v w' :
  getitem o k w = (Ok v, w') →
  w' = w ∧ ∃ l d, o = VRef l ∧ heap w !! l = Some (ODict d) ∧ dict_get k d = Some v.
Proof. unfold getitem. intros H. repeat case_match; simplify_eq; eauto 10. Qed.

Lemma getitem_dict l d k w :
  heap w !! l = Some (ODict d) →
  getitem (VRef l) k w =
  (match dict_get k d with Some v => Ok v | None => Raise (KeyError k) end, w).
Proof. unfold getitem. intros ->. by destruct (dict_get k d). Qed.

Lemma setitem_inv o k v w w' :
  setitem o k v w = (Ok tt, w') →
  ∃ l d, o = VRef l ∧ heap w !! l = Some (ODict d) ∧
         w' = set_heap (<[l := ODict (dict_set k v d)]> (heap w)) w.
Proof. unfold setitem. intros H. repeat case_match; simplify_eq; eauto 10. Qed.

Lemma setitem_dict l d k v w :
  heap w !! l = Some (ODict d) →
  setitem (VRef l) k v w =
  (Ok tt, set_heap (<[l := ODict (dict_set k v d)]> (heap w)) w).
Proof. unfold setitem. by intros ->. Qed.

Lemma setitem_files o k v w r w' : setitem o k v w = (r, w') → files w' = files w.
Proof. unfold setitem. intros H. repeat case_match; by simplify_eq. Qed.

Lemma pop_dict l d k w :
  heap w !! l = Some (ODict d) →
  pop (VRef l) k w =
  match dict_get k d with
  | Some v => (Ok v, set_heap (<[l := ODict (dict_pop k d)]> (heap w)) w)
  | None => (Raise (KeyError k), w)
  end.
Proof. unfold pop. by intros ->. Qed.

Lemma pop_inv o k w v w' :
  pop o k w = (Ok v, w') →
  ∃ l d, o = VRef l ∧ heap w !! l = Some (ODict d) ∧ dict_get k d = Some v ∧
         w' = set_heap (<[l := ODict (dict_pop k d)]> (heap w)) w.
Proof. unfold pop. intros H. repeat case_match; simplify_eq; eauto 10. Qed.

Lemma get_world o k w r w' : get o k w = (r, w') → w' = w.
Proof. unfold get. intros H. repeat case_match; by simplify_eq. Qed.

Lemma get_dict l d k w :
  heap w !! l = Some (ODict d) →
  get (VRef l) k w = (Ok (default VNone (dict_get k d)), w).
Proof. unfold get. intros ->. by destruct (dict_get k d). Qed.

Lemma load_file_inv path w v w' :
  load_file path w = (Ok v, w') →
  ∃ j h, files w !! path = Some (Doc j) ∧ load_value j (heap w) = (v, h) ∧
         w' = set_heap h w.
Proof.
  unfold load_file. intros H. repeat case_match; simplify_eq. eauto 10.
Qed.

Lemma load_file_doc path w j :
  files w !! path = Some (Doc j) →
  load_file path w =
  (Ok (load_value j (heap w)).1, set_heap (load_value j (heap w)).2 w).
Proof. unfold load_file. intros ->. by destruct (load_value j (heap w)). Qed.

Lemma load_file_files path w r w' : load_file path w = (r, w') → files w' = files w.
Proof. unfold load_file. intros H. repeat case_match; by simplify_eq. Qed.

Lemma dump_file_inv v path w w' :
  dump_file v path w = (Ok tt, w') →
  ∃ j, dumps (heap w) v = Some j ∧ w' = set_files (<[path := Doc j]> (files w)) w.
Proof. unfold dump_file. intros H. case_match; simplify_eq. eauto. Qed.

Lemma dump_file_other v path w r w' path' :
  dump_file v path w = (r, w') → path ≠ path' →
  files w' !! path' = files w !! path'.
Proof.
  unfold dump_file. intros H Hne. case_match; simplify_eq; simpl;
    by rewrite lookup_insert_ne.
Qed.

(** ** Writing a record that has no [format] *)

(** C9.  [write_resource] pops [format] before it writes: when the record
    (the dict itself, or what [to_dict] makes of the typed value) has no
    such key the call raises a [KeyError] and the world is as the
    normalisation left it, so neither the resource file nor the metadata is
    written. *)
Theorem write_resource_without_format resource base_path w l w1 d :
  as_record resource w = (Ok (VRef l), w1) →
  heap w1 !! l = Some (ODict d) →
  dict_get "format" d = None →
  ∃ key, (key = "name" ∨ key = "format") ∧
    write_resource resource base_path w = (Raise (KeyError key), w1).
Proof.
  intros Hrec Hl Hformat. unfold write_resource.
  rewrite (bind_ok _ _ _ _ _ Hrec). cbv beta.
  destruct (dict_get "name" d) as [name|] eqn:Hname.
  - exists "format". split; [by right|].
    rewrite (bind_ok _ _ _ name w1);
      [|by rewrite (getitem_dict _ _ _ _ Hl), Hname].
    cbv beta. rewrite (bind_ok _ _ _ (heap w1) w1); [|done].
    cbv beta zeta. apply bind_raise. by rewrite (pop_dict _ _ _ _ Hl), Hformat.
  - exists "name". split; [by left|].
    apply bind_raise. by rewrite (getitem_dict _ _ _ _ Hl), Hname.
Qed.

(** ** Loading without a format *)

Lemma dump_value_str fuel h s :
  dump_value fuel h (VStr s) = Some (JStr s).
Proof. by destruct fuel. Qed.

(** What [load_resource] does to the store when no format is named: the
    record is loaded at [r], the placeholder is allocated after it and the
    record's [format] is pointed at the placeholder. *)
Lemma load_resource_plain (resource_name base_path : string) w rkvs :
  files w !! resource_path base_path (heap w) (VStr resource_name)
    = Some (Doc (JObj rkvs)) →
  ∃ r d h1,
    (length (heap w) ≤ r < length h1)%nat ∧
    h1 !! r = Some (ODict d) ∧
    members_denote h1 (length (heap w)) r rkvs d ∧
    load_resource (VStr resource_name) VNone base_path true w =
    (Ok (Raw (VRef r)),
     set_heap (<[r := ODict (dict_set "format" (VRef (length h1)) d)]>
                 (h1 ++ [ODict [("hello", VStr "world")]])) w).
Proof.
  intros Hfile.
  destruct (load_value (JObj rkvs) (heap w)) as [v1 h1] eqn:Hload.
  destruct (load_value_denotes _ _ _ _ Hload) as [[e1 Hh1] Hden].
  apply denotes_obj in Hden as (r & d & -> & Hr & Hhr & Hm).
  exists r, d, h1. split_and!; [lia|lia|done|done|].
  unfold load_resource.
  rewrite (bind_ok _ _ _ (heap w) w); [|done]. cbv beta.
  rewrite (bind_ok _ _ _ (VRef r) (set_heap h1 w));
    [|by rewrite (load_file_doc _ _ _ Hfile), Hload].
  cbv beta.
  rewrite (bind_ok _ _ _ tt
    (set_heap (<[r := ODict (dict_set "format" (VRef (length h1)) d)]>
                 (h1 ++ [ODict [("hello", VStr "world")]])) w)); [done|].
  rewrite (bind_ok _ _ _ (VRef (length h1))
             (set_heap (h1 ++ [ODict [("hello", VStr "world")]]) w)); [|done].
  cbv beta. erewrite setitem_dict; [done|].
  simpl. by apply lookup_app_l_Some.
Qed.

(** C7 (as amended).  Loaded without a format name, a resource gets the
    fixed dummy format [{"hello": "world"}], which is not empty, whatever
    its schema; every other field, the schema included, is as the file has
    it. *)
Theorem load_resource_without_format (resource_name base_path : string) w rkvs :
  files w !! resource_path base_path (heap w) (VStr resource_name)
    = Some (Doc (JObj rkvs)) →
  ∃ record w',
    load_resource (VStr resource_name) VNone base_path true w
      = (Ok (Raw record), w') ∧
    field_json w' record "format" = Some (JObj [("hello", JStr "world")]) ∧
    ∀ k, k ≠ "format" → field_json w' record k = dict_get k rkvs.
Proof.
  intros Hfile.
  destruct (load_resource_plain _ _ _ _ Hfile) as (r & d & h1 & Hr & Hhr & Hm & Hload).
  eexists _, _. split; [exact Hload|].
  assert (Hrec : (<[r := ODict (dict_set "format" (VRef (length h1)) d)]>
                    (h1 ++ [ODict [("hello", VStr "world")]])) !! r
                 = Some (ODict (dict_set "format" (VRef (length h1)) d))).
  { apply list_lookup_insert_eq. rewrite length_app. lia. }
  unfold field_json. cbn [heap set_heap]. rewrite Hrec. split.
  - rewrite dict_get_set_eq. simpl. unfold dumps. simpl.
    rewrite list_lookup_insert_ne by lia.
    rewrite list_lookup_middle by done. simpl.
    by rewrite dump_value_str.
  - intros k Hk. rewrite dict_get_set_ne by done.
    pose proof (members_get _ _ _ _ _ k Hm) as Hget.
    destruct (dict_get k rkvs) as [j|].
    + destruct Hget as (v & -> & Hv). simpl.
      eapply denotes_dumps, denotes_agree; [|exact Hv].
      intros l' Hl'. rewrite list_lookup_insert_ne by lia.
      apply lookup_app_l. lia.
    + by rewrite Hget.
Qed.

(** ** Writing a record whose schema is a string *)

Lemma write_resource_string_schema base_path w l d s :
  heap w !! l = Some (ODict d) →
  dict_get "schema" d = Some (VStr s) →
  ∃ e w', write_resource (Raw (VRef l)) base_path w = (Raise e, w') ∧
    files w' = files w ∧
    (is_Some (dict_get "name" d) → is_Some (dict_get "format" d) →
     e = AttributeError).
Proof.
  intros Hl Hschema. unfold write_resource.
  rewrite (bind_ok _ _ _ (VRef l) w); [|done]. cbv beta.
  destruct (dict_get "name" d) as [name|] eqn:Hname; last first.
  { exists (KeyError "name"), w. split; [|split; [done|by intros [? ?]]].
    apply bind_raise. by rewrite (getitem_dict _ _ _ _ Hl), Hname. }
  rewrite (bind_ok _ _ _ name w);
    [|by rewrite (getitem_dict _ _ _ _ Hl), Hname].
  cbv beta. rewrite (bind_ok _ _ _ (heap w) w); [|done]. cbv beta zeta.
  destruct (dict_get "format" d) as [f|] eqn:Hformat; last first.
  { exists (KeyError "format"), w. split; [|split; [done|by intros _ [? ?]]].
    apply bind_raise. by rewrite (pop_dict _ _ _ _ Hl), Hformat. }
  set (w1 := set_heap (<[l := ODict (dict_pop "format" d)]> (heap w)) w).
  assert (Hl1 : heap w1 !! l = Some (ODict (dict_pop "format" d))).
  { apply list_lookup_insert_eq. by eapply lookup_lt_Some. }
  exists AttributeError, w1. split; [|done].
  rewrite (bind_ok _ _ _ f w1);
    [|by rewrite (pop_dict _ _ _ _ Hl), Hformat].
  rewrite (bind_ok _ _ _ (VStr s) w1); [by apply bind_raise|].
  by rewrite (getitem_dict _ _ _ _ Hl1), dict_get_pop_ne, Hschema.
Qed.

Lemma dump_file_no_attribute_error v path w e w' :
  dump_file v path w = (Raise e, w') → e ≠ AttributeError.
Proof. unfold dump_file. intros H. case_match; by simplify_eq. Qed.

Lemma load_file_no_attribute_error path w e w' :
  load_file path w = (Raise e, w') → e ≠ AttributeError.
Proof. unfold load_file. intros H. repeat case_match; by simplify_eq. Qed.

Lemma setitem_no_attribute_error o k v w e w' :
  setitem o k v w = (Raise e, w') → e ≠ AttributeError.
Proof. unfold setitem. intros H. repeat case_match; by simplify_eq. Qed.

Lemma write_resource_object_schema base_path w l d s sd r w' :
  heap w !! l = Some (ODict d) →
  dict_get "schema" d = Some (VRef s) →
  heap w !! s = Some (ODict sd) →
  write_resource (Raw (VRef l)) base_path w = (r, w') →
  r ≠ Raise AttributeError.
Proof.
  intros Hl Hschema Hs Hw. unfold write_resource in Hw.
  rewrite (bind_ok _ _ _ (VRef l) w) in Hw; [|done]. cbv beta in Hw.
  apply bind_cases in Hw as [(name & w1 & Hname & Hw)|(e & Hname & ->)]; last first.
  { rewrite (getitem_dict _ _ _ _ Hl) in Hname. case_match; by simplify_eq. }
  pose proof (getitem_world _ _ _ _ _ Hname) as ->.
  rewrite (bind_ok _ _ _ (heap w) w) in Hw; [|done]. cbv beta zeta in Hw.
  apply bind_cases in Hw as [(f & w2 & Hpop & Hw)|(e & Hpop & ->)]; last first.
  { rewrite (pop_dict _ _ _ _ Hl) in Hpop. case_match; by simplify_eq. }
  apply pop_inv in Hpop as (l' & d' & [= <-] & Hl' & Hf & ->).
  rewrite Hl in Hl'. injection Hl' as <-.
  set (w2 := set_heap (<[l := ODict (dict_pop "format" d)]> (heap w)) w) in *.
  assert (Hl2 : heap w2 !! l = Some (ODict (dict_pop "format" d))).
  { apply list_lookup_insert_eq. by eapply lookup_lt_Some. }
  assert (Hs2 : ∃ sd', heap w2 !! s = Some (ODict sd')).
  { destruct (decide (s = l)) as [->|Hne]; [by eauto|].
    exists sd. simpl. by rewrite list_lookup_insert_ne. }
  destruct Hs2 as [sd' Hs2].
  rewrite (bind_ok _ _ _ (VRef s) w2) in Hw;
    [|by rewrite (getitem_dict _ _ _ _ Hl2), dict_get_pop_ne, Hschema].
  rewrite (bind_ok _ _ _ _ _ (get_dict _ _ "type" _ Hs2)) in Hw.
  apply bind_cases in Hw as [(u1 & w3 & Hset & Hw)|(e & Hset & ->)]; last first.
  { destruct (eq_str _ _); [|done].
    intros [= ->]. by eapply setitem_no_attribute_error. }
  apply bind_cases in Hw as [(u2 & w4 & Hdump & Hw)|(e & Hdump & ->)]; last first.
  { intros [= ->]. by eapply dump_file_no_attribute_error. }
  apply bind_cases in Hw as [(dp & w5 & Hload & Hw)|(e & Hload & ->)]; last first.
  { intros [= ->]. by eapply load_file_no_attribute_error. }
  apply bind_cases in Hw as [(now & w6 & Hnow & Hw)|(e & Hnow & ->)]; [|done].
  apply bind_cases in Hw as [(u3 & w7 & Hupd & Hw)|(e & Hupd & ->)]; last first.
  { intros [= ->]. by eapply setitem_no_attribute_error. }
  intros ->. by eapply dump_file_no_attribute_error.
Qed.

(** C10.  [write_resource] looks up [type] in the schema with [.get]: a
    record whose schema is a string makes the call fail with no file
    touched, with an [AttributeError] when the record has its [name] and
    [format]; a schema that is a dict never gives that error; and the
    record that [load_resource] returns without a format name for a
    resource that inherits its schema is such a record. *)
Theorem write_resource_needs_schema_object base_path :
  (∀ w l d s,
     heap w !! l = Some (ODict d) →
     dict_get "schema" d = Some (VStr s) →
     ∃ e w', write_resource (Raw (VRef l)) base_path w = (Raise e, w') ∧
       files w' = files w ∧
       (is_Some (dict_get "name" d) → is_Some (dict_get "format" d) →
        e = AttributeError)) ∧
  (∀ w l d s sd r w',
     heap w !! l = Some (ODict d) →
     dict_get "schema" d = Some (VRef s) →
     heap w !! s = Some (ODict sd) →
     write_resource (Raw (VRef l)) base_path w = (r, w') →
     r ≠ Raise AttributeError) ∧
  (∀ (resource_name : string) w rkvs,
     files w !! resource_path base_path (heap w) (VStr resource_name)
       = Some (Doc (JObj rkvs)) →
     dict_get "schema" rkvs = Some (JStr "inherit-from-format") →
     is_Some (dict_get "name" rkvs) →
     ∃ record w1 w2,
       load_resource (VStr resource_name) VNone base_path true w
         = (Ok (Raw record), w1) ∧
       write_resource (Raw record) base_path w1 = (Raise AttributeError, w2) ∧
       files w2 = files w).
Proof.
  split_and!.
  - intros w l d s. apply write_resource_string_schema.
  - intros w l d s sd r w'. apply write_resource_object_schema.
  - intros resource_name w rkvs Hfile Hschema [nj Hname].
    destruct (load_resource_plain _ _ _ _ Hfile)
      as (r & d & h1 & Hr & Hhr & Hm & Hload).
    set (w1 := set_heap _ w) in Hload.
    assert (Hrec : heap w1 !! r
                   = Some (ODict (dict_set "format" (VRef (length h1)) d))).
    { apply list_lookup_insert_eq. rewrite length_app. lia. }
    pose proof (members_get _ _ _ _ _ "schema" Hm) as Hs.
    rewrite Hschema in Hs. destruct Hs as (vs & Hvs & Hden). simpl in Hden.
    subst vs.
    pose proof (members_get _ _ _ _ _ "name" Hm) as Hn.
    rewrite Hname in Hn. destruct Hn as (vn & Hvn & _).
    destruct (write_resource_string_schema base_path w1 r _ "inherit-from-format" Hrec)
      as (e & w2 & Hwrite & Hfiles & He).
    { by rewrite dict_get_set_ne. }
    exists (VRef r), w1, w2. split; [done|].
    rewrite He in Hwrite; [done| |].
    + rewrite dict_get_set_ne by done. by rewrite Hvn.
    + by rewrite dict_get_set_eq.
Qed.

(** ** The profile of a resource *)

Lemma eq_str_true v s : eq_str v s = true ↔ v = VStr s.
Proof.
  destruct v; simpl; try (split; congruence).
  rewrite bool_decide_eq_true. split; congruence.
Qed.

Lemma load_resource_typed resource_name format_name base_path w record w1 profile :
  load_resource resource_name format_name base_path true w
    = (Ok (Raw record), w1) →
  getitem record "profile" w1 = (Ok profile, w1) →
  load_resource resource_name format_name base_path false w =
  if eq_str profile "tabular-data-resource"
     || eq_str profile "parameter-tabular-data-resource"
  then
    match TabularDataResource_init record w1 with
    | (Ok r, w2) => (Ok (Typed r), w2)
    | (Raise e, w2) => (Raise e, w2)
    end
  else
    (Raise (NotImplementedError
              ("Unknown resource profile " +:+ dquote
               +:+ format_value (heap w1) profile +:+ dquote)), w1).
Proof.
  intros Hload Hprofile. unfold load_resource in *.
  apply bind_inv in Hload as (h & w0 & Hh & Hload).
  apply bind_inv in Hload as (rj & wa & Hfile & Hload).
  apply bind_inv in Hload as (u & wb & Hmerge & Hload).
  injection Hload as <- <-.
  rewrite (bind_ok _ _ _ _ _ Hh). cbv beta.
  rewrite (bind_ok _ _ _ _ _ Hfile). cbv beta.
  rewrite (bind_ok _ _ _ _ _ Hmerge). cbv beta iota.
  rewrite (bind_ok _ _ _ _ _ Hprofile). cbv beta.
  destruct (eq_str profile "tabular-data-resource"
            || eq_str profile "parameter-tabular-data-resource"); [|done].
  unfold bind. by destruct (TabularDataResource_init rj wb) as [[r|e] w2].
Qed.

(** C5.  Without [as_dict], a resource whose profile is neither
    [tabular-data-resource] nor [parameter-tabular-data-resource] makes
    [load_resource] raise the error for an unsupported profile (the module's
    [NotImplementedError]) with the profile in its message; with one of the
    two profiles the call is the constructor of the typed resource applied
    to the merged record. *)
Theorem load_resource_profile resource_name format_name base_path w record w1
    profile :
  load_resource resource_name format_name base_path true w
    = (Ok (Raw record), w1) →
  getitem record "profile" w1 = (Ok profile, w1) →
  (profile ≠ VStr "tabular-data-resource" →
   profile ≠ VStr "parameter-tabular-data-resource" →
   load_resource resource_name format_name base_path false w =
   (Raise (NotImplementedError
             ("Unknown resource profile " +:+ dquote
              +:+ format_value (heap w1) profile +:+ dquote)), w1)) ∧
  (profile = VStr "tabular-data-resource" ∨
   profile = VStr "parameter-tabular-data-resource" →
   load_resource resource_name format_name base_path false w =
   match TabularDataResource_init record w1 with
   | (Ok r, w2) => (Ok (Typed r), w2)
   | (Raise e, w2) => (Raise e, w2)
   end).
Proof.
  intros Hload Hprofile.
  rewrite (load_resource_typed _ _ _ _ _ _ _ Hload Hprofile). split.
  - intros H1 H2.
    destruct (eq_str profile "tabular-data-resource") eqn:E1;
      [by apply eq_str_true in E1|].
    destruct (eq_str profile "parameter-tabular-data-resource") eqn:E2;
      [by apply eq_str_true in E2|done].
  - intros [->| ->]; done.
Qed.

(** ** The precondition of a view *)

Lemma denotes_dict_obj h a j b l d :
  denotes h a j b (VRef l) → h !! l = Some (ODict d) →
  ∃ kvs, j = JObj kvs ∧ members_denote h a l kvs d.
Proof.
  destruct j as [ | x | z | s | js | kvs ]; try (simpl; congruence).
  - rewrite denotes_arr. intros (l' & vs & [= <-] & _ & Hh & _) Hd. congruence.
  - rewrite denotes_obj. intros (l' & d' & [= <-] & _ & Hh & Hm) Hd.
    exists kvs. split; [done|]. congruence.
Qed.

Lemma items_denote_strings h a l names vs :
  items_denote h a l (map JStr names) vs → vs = map VStr names.
Proof.
  revert vs. induction names as [|n names IH]; intros vs Hi; simpl in *.
  - by inversion Hi.
  - inversion Hi as [|? v ? vs' Hv Hvs]; subst. simpl in Hv. subst v.
    f_equal. by apply IH.
Qed.

Lemma check_populated_inv base_path (name : string) w r w' :
  check_populated base_path (VStr name) w = (r, w') →
  files w' = files w ∧ run_calls w' = run_calls w ∧
  (∃ ext, heap w' = heap w ++ ext) ∧
  (r = Ok tt → populated (files w) base_path name).
Proof.
  unfold check_populated. intros H.
  rewrite (bind_ok _ _ _ (heap w) w) in H; [|done]. cbv beta in H.
  apply bind_cases in H as [(v & w1 & Hload & H)|(e & Hload & ->)]; last first.
  { unfold load_file in Hload. repeat case_match; simplify_eq;
      (split_and!; [done|done|by exists []; rewrite app_nil_r|done]). }
  apply load_file_inv in Hload as (j & h1 & Hfile & Hval & ->).
  destruct (load_value_denotes _ _ _ _ Hval) as [Hext Hden].
  apply bind_cases in H as [(data & w2 & Hdata & H)|(e & Hdata & ->)]; last first.
  { by rewrite (getitem_world _ _ _ _ _ Hdata). }
  apply getitem_inv in Hdata as (-> & l & d & -> & Hl & Hget).
  rewrite (bind_ok _ _ _ h1 (set_heap h1 w)) in H; [|done]. cbv beta in H.
  destruct (truthy h1 data) eqn:Htruthy; cbn [negb] in H; last first.
  { injection H as <- <-. by split_and!. }
  injection H as <- <-. split_and!; [done|done|done|]. intros _.
  destruct (denotes_dict_obj _ _ _ _ _ _ Hden Hl) as (kvs & -> & Hm).
  pose proof (members_get _ _ _ _ _ "data" Hm) as Hd.
  destruct (dict_get "data" kvs) as [dj|] eqn:Hdj; [|simpl in Hget; congruence].
  destruct Hd as (v & Hv & Hdv). simpl in Hget. simplify_eq.
  exists dj. split.
  - unfold resource_data. replace (resource_path base_path [] (VStr name))
      with (resource_path base_path (heap w) (VStr name)) by done.
    by rewrite Hfile.
  - by rewrite <-(denotes_truthy _ _ _ _ _ Hdv).
Qed.

Lemma check_populated_empty base_path (name : string) w :
  unpopulated (files w) base_path name →
  ∃ w', check_populated base_path (VStr name) w =
    (Raise (ResourceError
              ("Can't render view with empty resource " +:+ name
               +:+ ". Have you executed the datapackage?") (VStr name)), w').
Proof.
  intros (dj & Hdata & Hfalsy). unfold resource_data in Hdata.
  destruct (files w !! _) as [[[ | | | | |kvs]|]|] eqn:Hfile; try done.
  unfold check_populated.
  rewrite (bind_ok _ _ _ (heap w) w); [|done]. cbv beta.
  destruct (load_value (JObj kvs) (heap w)) as [v h1] eqn:Hval.
  destruct (load_value_denotes _ _ _ _ Hval) as [_ Hden].
  apply denotes_obj in Hden as (l & d & -> & _ & Hl & Hm).
  pose proof (members_get _ _ _ _ _ "data" Hm) as Hd. rewrite Hdata in Hd.
  destruct Hd as (dv & Hdv & Hden).
  rewrite (bind_ok _ _ _ (VRef l) (set_heap h1 w)); last first.
  { replace (resource_path base_path (heap w) (VStr name))
      with (resource_path base_path [] (VStr name)) by done.
    by rewrite (load_file_doc _ _ _ Hfile), Hval. }
  cbv beta. rewrite (bind_ok _ _ _ dv (set_heap h1 w)); last first.
  { erewrite getitem_dict; [|done]. by rewrite Hdv. }
  cbv beta. rewrite (bind_ok _ _ _ h1 (set_heap h1 w)); [|done]. cbv beta.
  rewrite (denotes_truthy _ _ _ _ _ Hden), Hfalsy. simpl. by eexists.
Qed.

Lemma check_populated_ok base_path (name : string) w :
  populated (files w) base_path name →
  ∃ w', check_populated base_path (VStr name) w = (Ok tt, w').
Proof.
  intros (dj & Hdata & Htruthy). unfold resource_data in Hdata.
  destruct (files w !! _) as [[[ | | | | |kvs]|]|] eqn:Hfile; try done.
  unfold check_populated.
  rewrite (bind_ok _ _ _ (heap w) w); [|done]. cbv beta.
  destruct (load_value (JObj kvs) (heap w)) as [v h1] eqn:Hval.
  destruct (load_value_denotes _ _ _ _ Hval) as [_ Hden].
  apply denotes_obj in Hden as (l & d & -> & _ & Hl & Hm).
  pose proof (members_get _ _ _ _ _ "data" Hm) as Hd. rewrite Hdata in Hd.
  destruct Hd as (dv & Hdv & Hden).
  rewrite (bind_ok _ _ _ (VRef l) (set_heap h1 w)); last first.
  { replace (resource_path base_path (heap w) (VStr name))
      with (resource_path base_path [] (VStr name)) by done.
    by rewrite (load_file_doc _ _ _ Hfile), Hval. }
  cbv beta. rewrite (bind_ok _ _ _ dv (set_heap h1 w)); last first.
  { erewrite getitem_dict; [|done]. by rewrite Hdv. }
  cbv beta. rewrite (bind_ok _ _ _ h1 (set_heap h1 w)); [|done]. cbv beta.
  rewrite (denotes_truthy _ _ _ _ _ Hden), Htruthy. simpl. by eexists.
Qed.

Lemma check_all_inv base_path names w r w' :
  for_each (map VStr names) (check_populated base_path) w = (r, w') →
  files w' = files w ∧ run_calls w' = run_calls w ∧
  (∃ ext, heap w' = heap w ++ ext) ∧
  (r = Ok tt → Forall (populated (files w) base_path) names).
Proof.
  revert w. induction names as [|name names IH]; intros w H; simpl in H.
  - injection H as <- <-. split_and!; [done|done|by exists []; rewrite app_nil_r|done].
  - apply bind_cases in H as [([] & w1 & Hcheck & H)|(e & Hcheck & ->)].
    + apply check_populated_inv in Hcheck as (Hf & Hr & [e1 He1] & Hp).
      apply IH in H as (Hf' & Hr' & [e2 He2] & Hps). rewrite Hf in Hf', Hps.
      split_and!; [congruence|congruence| |].
      * exists (e1 ++ e2). by rewrite He2, He1, app_assoc.
      * intros ->. constructor; auto.
    + apply check_populated_inv in Hcheck as (Hf & Hr & Hext & _). by split_and!.
Qed.

Lemma check_all_ok base_path names w :
  Forall (populated (files w) base_path) names →
  ∃ w', for_each (map VStr names) (check_populated base_path) w = (Ok tt, w').
Proof.
  revert w. induction names as [|name names IH]; intros w Hall; simpl.
  - by eexists.
  - inversion Hall as [|? ? Hn Hns]; subst.
    destruct (check_populated_ok _ _ _ Hn) as [w1 Hcheck].
    pose proof (check_populated_inv _ _ _ _ _ Hcheck) as (Hf & _).
    rewrite <-Hf in Hns. destruct (IH w1 Hns) as [w' Hrest].
    exists w'. by rewrite (bind_ok _ _ _ _ _ Hcheck).
Qed.

Lemma check_all_first_empty base_path before name after w :
  Forall (populated (files w) base_path) before →
  unpopulated (files w) base_path name →
  ∃ w', for_each (map VStr (before ++ name :: after))
          (check_populated base_path) w =
    (Raise (ResourceError
              ("Can't render view with empty resource " +:+ name
               +:+ ". Have you executed the datapackage?") (VStr name)), w').
Proof.
  revert w. induction before as [|b before IH]; intros w Hbefore Hname; simpl.
  - destruct (check_populated_empty _ _ _ Hname) as [w' Hcheck].
    exists w'. by apply bind_raise.
  - inversion Hbefore as [|? ? Hb Hbs]; subst.
    destruct (check_populated_ok _ _ _ Hb) as [w1 Hcheck].
    pose proof (check_populated_inv _ _ _ _ _ Hcheck) as (Hf & _).
    rewrite <-Hf in Hbs, Hname.
    destruct (IH w1 Hbs Hname) as [w' Hrest].
    exists w'. by rewrite (bind_ok _ _ _ _ _ Hcheck).
Qed.

Lemma execute_container_run_calls docker_client container_name environment
    base_path w r w' :
  execute_container docker_client container_name environment base_path w
    = (r, w') →
  run_calls w' = run_calls w
                 ++ [container_request container_name environment base_path (uid w)].
Proof.
  unfold execute_container. intros H.
  rewrite (bind_ok _ _ _ (uid w) w) in H; [|done]. cbv beta in H.
  unfold bind, run_container in H.
  destruct (containers_run docker_client _ (files w)) as [[c fs]|e]; last first.
  { by injection H as <- <-. }
  unfold stripped_logs in H.
  destruct (negb (StatusCode c =? 0)), (decode (logs c));
    by injection H as <- <-.
Qed.

(** What [execute_view] does before the loop: the view is loaded and its
    list of resources read. *)
Lemma execute_view_loaded docker_client view_name base_path w vkvs names :
  files w !! (base_path +:+ "/" +:+ VIEWS_DIR +:+ "/" +:+ view_name +:+ ".json")
    = Some (Doc (JObj vkvs)) →
  dict_get "resources" vkvs = Some (JArr (map JStr names)) →
  ∃ lv d h1,
    h1 !! lv = Some (ODict d) ∧
    members_denote h1 (length (heap w)) lv vkvs d ∧
    execute_view docker_client view_name base_path w =
    (do! for_each (map VStr names) (check_populated base_path) in
     let! container_name := getitem (VRef lv) "container" in
     execute_container docker_client container_name [("VIEW", view_name)]
       base_path) (set_heap h1 w).
Proof.
  intros Hfile Hres.
  destruct (load_value (JObj vkvs) (heap w)) as [v h1] eqn:Hval.
  destruct (load_value_denotes _ _ _ _ Hval) as [_ Hden].
  apply denotes_obj in Hden as (lv & d & -> & _ & Hl & Hm).
  pose proof (members_get _ _ _ _ _ "resources" Hm) as Hr. rewrite Hres in Hr.
  destruct Hr as (rv & Hrv & Hden).
  apply denotes_arr in Hden as (la & vs & -> & _ & Hla & Hi).
  apply items_denote_strings in Hi as ->.
  exists lv, d, h1. split_and!; [done|done|].
  unfold execute_view, load_view.
  rewrite (bind_ok _ _ _ (VRef lv) (set_heap h1 w));
    [|by rewrite (load_file_doc _ _ _ Hfile), Hval].
  cbv beta. rewrite (bind_ok _ _ _ (VRef la) (set_heap h1 w)); last first.
  { erewrite getitem_dict; [|done]. by rewrite Hrv. }
  cbv beta.
  rewrite (bind_ok _ _ _ (map VStr names) (set_heap h1 w)); [done|].
  unfold iter. simpl. by rewrite Hla.
Qed.

(** C2.  When a declared resource has empty data and those declared before
    it are populated, [execute_view] raises a [ResourceError] that carries
    its name and no container is asked to run; a container is asked to run
    only when every declared resource is populated, and then with
    [{VIEW: view_name}] and the image the view names; and when all are
    populated and the view names an image, the container is asked to run. *)
Theorem execute_view_precondition docker_client view_name base_path w vkvs names :
  files w !! (base_path +:+ "/" +:+ VIEWS_DIR +:+ "/" +:+ view_name +:+ ".json")
    = Some (Doc (JObj vkvs)) →
  dict_get "resources" vkvs = Some (JArr (map JStr names)) →
  (∀ before name after,
     names = before ++ name :: after →
     Forall (populated (files w) base_path) before →
     unpopulated (files w) base_path name →
     ∃ w', execute_view docker_client view_name base_path w =
             (Raise (ResourceError
                       ("Can't render view with empty resource " +:+ name
                        +:+ ". Have you executed the datapackage?")
                       (VStr name)), w') ∧
           run_calls w' = run_calls w) ∧
  (∀ r w',
     execute_view docker_client view_name base_path w = (r, w') →
     run_calls w' ≠ run_calls w →
     Forall (populated (files w) base_path) names ∧
     ∃ request,
       run_calls w' = run_calls w ++ [request] ∧
       environment request = [("VIEW", view_name)] ∧
       ∀ img, dict_get "container" vkvs = Some (JStr img) →
              image request = VStr img) ∧
  (Forall (populated (files w) base_path) names →
   is_Some (dict_get "container" vkvs) →
   ∃ request,
     run_calls (execute_view docker_client view_name base_path w).2
       = run_calls w ++ [request] ∧
     environment request = [("VIEW", view_name)]).
Proof.
  intros Hfile Hres.
  destruct (execute_view_loaded docker_client _ _ _ _ _ Hfile Hres)
    as (lv & d & h1 & Hlv & Hm & ->).
  set (w1 := set_heap h1 w).
  split_and!.
  - intros before name after -> Hbefore Hname.
    destruct (check_all_first_empty base_path before name after w1 Hbefore Hname)
      as [w' Hloop].
    exists w'. split; [by apply bind_raise|].
    by apply check_all_inv in Hloop as (_ & -> & _).
  - intros r w' Hexec Hran.
    apply bind_cases in Hexec as [([] & w2 & Hloop & Hexec)|(e & Hloop & ->)];
      last first.
    { by apply check_all_inv in Hloop as (_ & Hcalls & _). }
    apply check_all_inv in Hloop as (_ & Hcalls & [ext Hext] & Hall).
    split; [by apply Hall|].
    apply bind_cases in Hexec as [(c & w3 & Hc & Hexec)|(e & Hc & ->)];
      last first.
    { apply getitem_world in Hc as ->. done. }
    apply getitem_inv in Hc as (-> & l' & d' & [= <-] & Hl' & Hget).
    apply execute_container_run_calls in Hexec.
    eexists. split; [by rewrite Hexec, Hcalls|]. split; [done|].
    intros img Himg. simpl.
    rewrite Hext in Hl'. rewrite (lookup_app_l_Some _ _ _ _ Hlv) in Hl'.
    injection Hl' as <-.
    pose proof (members_get _ _ _ _ _ "container" Hm) as Hcont.
    rewrite Himg in Hcont. destruct Hcont as (cv & Hcv & Hden).
    simpl in Hden. congruence.
  - intros Hall [cj Hcj].
    destruct (check_all_ok base_path names w1 Hall) as [w2 Hloop].
    rewrite (bind_ok _ _ _ _ _ Hloop).
    apply check_all_inv in Hloop as (_ & Hcalls & [ext Hext] & _).
    pose proof (members_get _ _ _ _ _ "container" Hm) as Hcont.
    rewrite Hcj in Hcont. destruct Hcont as (cv & Hcv & _).
    rewrite (bind_ok _ _ _ cv w2); last first.
    { erewrite getitem_dict; [|rewrite Hext; by apply lookup_app_l_Some].
      by rewrite Hcv. }
    destruct (execute_container docker_client cv [("VIEW", view_name)]
                base_path w2) as [r w'] eqn:Hexec.
    apply execute_container_run_calls in Hexec.
    eexists. split; [cbn [snd]; by rewrite Hexec, Hcalls|done].
Qed.

(** ** The metadata timestamp *)

Lemma setitem_clock o k v w r w' : setitem o k v w = (r, w') → clock w' = clock w.
Proof. unfold setitem. intros H. repeat case_match; by simplify_eq. Qed.

(** C8.  A call of [write_resource] that succeeds rewrites
    [datapackage.json] after the resource: [updated] is set to the clock
    and every other field is as it was, so with a clock that is not behind
    the old [updated] the new value is at least the old one. *)
Theorem write_resource_updates_metadata resource base_path w record w1 w2 dpj :
  as_record resource w = (Ok record, w1) →
  files w1 !! (base_path +:+ "/datapackage.json") = Some (Doc dpj) →
  write_resource resource base_path w = (Ok tt, w2) →
  ∃ old new,
    dpj = JObj old ∧
    files w2 !! (base_path +:+ "/datapackage.json") = Some (Doc (JObj new)) ∧
    new = dict_set "updated" (JNum (clock w1)) old ∧
    dict_get "updated" new = Some (JNum (clock w1)) ∧
    (∀ k, k ≠ "updated" → dict_get k new = dict_get k old) ∧
    (∀ t, dict_get "updated" old = Some (JNum t) → t ≤ clock w1 →
          ∃ t', dict_get "updated" new = Some (JNum t') ∧ t ≤ t').
Proof.
  intros Hrec Hdp Hwrite. unfold write_resource in Hwrite.
  rewrite (bind_ok _ _ _ _ _ Hrec) in Hwrite. cbv beta in Hwrite.
  apply bind_inv in Hwrite as (name & w' & Hname & Hwrite).
  apply getitem_world in Hname as ->.
  rewrite (bind_ok _ _ _ (heap w1) w1) in Hwrite; [|done].
  cbv beta zeta in Hwrite.
  apply bind_inv in Hwrite as (f & wa & Hpop & Hwrite).
  apply pop_inv in Hpop as (lr & dr & -> & Hlr & Hf & ->).
  apply bind_inv in Hwrite as (schema & w' & Hschema & Hwrite).
  apply getitem_world in Hschema as ->.
  apply bind_inv in Hwrite as (type & w' & Htype & Hwrite).
  apply get_world in Htype as ->.
  apply bind_inv in Hwrite as ([] & wb & Hset & Hwrite).
  assert (Hwb : files wb = files w1 ∧ clock wb = clock w1).
  { destruct (eq_str type "format").
    - split; [by rewrite (setitem_files _ _ _ _ _ _ Hset)
             |by rewrite (setitem_clock _ _ _ _ _ _ Hset)].
    - by injection Hset as <-. }
  destruct Hwb as [Hfb Hcb].
  apply bind_inv in Hwrite as ([] & wc & Hdump & Hwrite).
  apply dump_file_inv in Hdump as (jr & _ & ->).
  apply bind_inv in Hwrite as (dp & wd & Hload & Hwrite).
  apply load_file_inv in Hload as (j' & h & Hfile & Hval & ->).
  simpl in Hfile.
  rewrite lookup_insert_ne in Hfile by apply resource_path_not_metadata.
  rewrite Hfb, Hdp in Hfile. injection Hfile as <-.
  apply bind_inv in Hwrite as (now & w' & Hnow & Hwrite).
  injection Hnow as <- <-. simpl in Hwrite. rewrite Hcb in Hwrite.
  apply bind_inv in Hwrite as ([] & we & Hupd & Hwrite).
  apply setitem_inv in Hupd as (l & d & -> & Hl & ->). simpl in Hl.
  destruct (load_value_denotes _ _ _ _ Hval) as [_ Hden].
  destruct (denotes_dict_obj _ _ _ _ _ _ Hden Hl) as (old & -> & Hm).
  apply denotes_ref in Hden as [Hbound Hlt].
  cbn [heap set_files set_heap] in Hbound, Hm.
  apply dump_file_inv in Hwrite as (j2 & Hdumps & ->). simpl in Hdumps.
  assert (Hnew : dumps (<[l := ODict (dict_set "updated" (VInt (clock w1)) d)]> h)
                   (VRef l)
                 = Some (JObj (dict_set "updated" (JNum (clock w1)) old))).
  { apply (denotes_dumps _ (length (heap wb)) _ (S l)), denotes_obj.
    exists l, (dict_set "updated" (VInt (clock w1)) d).
    split_and!; [done|lia|lia|by apply list_lookup_insert_eq|].
    apply members_set; [done|].
    eapply members_agree; [|exact Hm].
    intros l' Hl'. apply list_lookup_insert_ne. lia. }
  rewrite Hnew in Hdumps. injection Hdumps as <-.
  exists old, (dict_set "updated" (JNum (clock w1)) old).
  split_and!; [done| |done| | |].
  - simpl. by rewrite lookup_insert_eq.
  - apply dict_get_set_eq.
  - intros k Hk. by apply dict_get_set_ne.
  - intros t _ Ht. exists (clock w1). split; [apply dict_get_set_eq|done].
Qed.

(** ** Loading with a format *)

Lemma load_file_value path w j v h :
  files w !! path = Some (Doc j) → load_value j (heap w) = (v, h) →
  load_file path w = (Ok v, set_heap h w).
Proof. intros Hfile Hval. by rewrite (load_file_doc _ _ _ Hfile), Hval. Qed.

(** What [load_resource] does to the store when the resource inherits its
    schema and the format has one: the record is loaded at [r], the format
    after it with its schema at [s]; the record's [format] and [schema]
    are both pointed at [s], and [s] gets the tag. *)
Lemma load_resource_inherit (resource_name format_name base_path : string)
    w rkvs fkvs skvs :
  files w !! resource_path base_path (heap w) (VStr resource_name)
    = Some (Doc (JObj rkvs)) →
  dict_get "schema" rkvs = Some (JStr "inherit-from-format") →
  files w !! (base_path +:+ "/" +:+ FORMATS_DIR +:+ "/" +:+ format_name
              +:+ ".json") = Some (Doc (JObj fkvs)) →
  dict_get "schema" fkvs = Some (JObj skvs) →
  ∃ r s d ds h2,
    (length (heap w) ≤ r < s)%nat ∧ (s < length h2)%nat ∧
    h2 !! r = Some (ODict d) ∧
    members_denote h2 (length (heap w)) r rkvs d ∧
    h2 !! s = Some (ODict ds) ∧
    members_denote h2 (S r) s skvs ds ∧
    load_resource (VStr resource_name) (VStr format_name) base_path true w =
    (Ok (Raw (VRef r)),
     set_heap
       (<[s := ODict (dict_set "type" (VStr "format") ds)]>
          (<[r := ODict (dict_set "schema" (VRef s)
                           (dict_set "format" (VRef s) d))]> h2)) w).
Proof.
  intros Hrfile Hrschema Hffile Hfschema.
  destruct (load_value (JObj rkvs) (heap w)) as [v1 h1] eqn:Hload1.
  destruct (load_value_denotes _ _ _ _ Hload1) as [_ Hden1].
  apply denotes_obj in Hden1 as (r & d & -> & Hr & Hhr & Hm).
  destruct (load_value (JObj fkvs) h1) as [v2 h2] eqn:Hload2.
  destruct (load_value_denotes _ _ _ _ Hload2) as [[e2 ->] Hden2].
  apply denotes_obj in Hden2 as (f & df & -> & Hf & Hhf & Hmf).
  pose proof (members_get _ _ _ _ _ "schema" Hmf) as Hfs.
  rewrite Hfschema in Hfs. destruct Hfs as (sv & Hsv & Hdens).
  apply denotes_obj in Hdens as (s & ds & -> & Hs & Hhs & Hms).
  pose proof (members_get _ _ _ _ _ "schema" Hm) as Hrs.
  rewrite Hrschema in Hrs. destruct Hrs as (rsv & Hrsv & Hrsd).
  simpl in Hrsd. subst rsv.
  assert (Hhr2 : (h1 ++ e2) !! r = Some (ODict d)) by by apply lookup_app_l_Some.
  pose proof (lookup_lt_Some _ _ _ Hhs) as Hslt.
  pose proof (lookup_lt_Some _ _ _ Hhr2) as Hrlt.
  exists r, s, d, ds, (h1 ++ e2).
  split_and!; [lia|lia|done|done| |done| |].
  { eapply members_agree; [|exact Hm]. intros l' Hl'. apply lookup_app_l. lia. }
  { eapply Forall2_impl; [exact Hms|]. intros kj kv [? ?]. split; [done|].
    eapply denotes_weaken; [| |done]; lia. }
  unfold load_resource.
  rewrite (bind_ok _ _ _ (heap w) w); [|done]. cbv beta.
  rewrite (bind_ok _ _ _ (VRef r) (set_heap h1 w));
    [|by apply (load_file_value _ _ _ _ _ Hrfile)].
  cbv beta iota.
  set (ha := <[r := ODict (dict_set "format" (VRef s) d)]> (h1 ++ e2)).
  set (hb := <[r := ODict (dict_set "schema" (VRef s)
                             (dict_set "format" (VRef s) d))]> (h1 ++ e2)).
  set (hc := <[s := ODict (dict_set "type" (VStr "format") ds)]> hb).
  rewrite (bind_ok _ _ _ tt (set_heap hc w)); [done|]. cbv beta.
  rewrite (bind_ok _ _ _ h1 (set_heap h1 w)); [|done]. cbv beta.
  rewrite (bind_ok _ _ _ (VRef f) (set_heap (h1 ++ e2) w));
    [|by apply (load_file_value _ (set_heap h1 w) _ _ _ Hffile)].
  cbv beta.
  rewrite (bind_ok _ _ _ (VRef s) (set_heap (h1 ++ e2) w)); last first.
  { erewrite getitem_dict; [|done]. by rewrite Hsv. }
  cbv beta.
  rewrite (bind_ok _ _ _ tt (set_heap ha w)); last first.
  { by erewrite setitem_dict. }
  assert (Hha : ha !! r = Some (ODict (dict_set "format" (VRef s) d))).
  { by apply list_lookup_insert_eq. }
  rewrite (bind_ok _ _ _ (VStr "inherit-from-format") (set_heap ha w));
    last first.
  { erewrite getitem_dict; [|done]. by rewrite dict_get_set_ne, Hrsv. }
  cbv beta.
  rewrite (proj2 (eq_str_true (VStr "inherit-from-format") _) eq_refl).
  cbv iota.
  rewrite (bind_ok _ _ _ (VRef s) (set_heap ha w)); last first.
  { erewrite getitem_dict; [|done]. by rewrite dict_get_set_eq. }
  cbv beta.
  assert (Hhb : hb !! r = Some (ODict (dict_set "schema" (VRef s)
                                         (dict_set "format" (VRef s) d)))).
  { by apply list_lookup_insert_eq. }
  rewrite (bind_ok _ _ _ tt (set_heap hb w)); last first.
  { erewrite setitem_dict; [|done]. simpl. unfold ha, hb.
    by rewrite list_insert_insert_eq. }
  rewrite (bind_ok _ _ _ (VRef s) (set_heap hb w)); last first.
  { erewrite getitem_dict; [|done]. by rewrite dict_get_set_eq. }
  cbv beta. erewrite setitem_dict; [done|].
  simpl. unfold hb. rewrite list_lookup_insert_ne by lia. done.
Qed.

(** C4 (as amended).  For a resource whose schema on file is
    [inherit-from-format], loading with format [F] gives a record whose
    [schema] is the schema of [F] with [type = "format"] added, and whose
    [format] is that very object, tag included, not an untagged copy. *)
Theorem load_resource_format_merge (resource_name format_name base_path : string)
    w rkvs fkvs skvs :
  files w !! resource_path base_path (heap w) (VStr resource_name)
    = Some (Doc (JObj rkvs)) →
  dict_get "schema" rkvs = Some (JStr "inherit-from-format") →
  files w !! (base_path +:+ "/" +:+ FORMATS_DIR +:+ "/" +:+ format_name
              +:+ ".json") = Some (Doc (JObj fkvs)) →
  dict_get "schema" fkvs = Some (JObj skvs) →
  ∃ record w' s,
    load_resource (VStr resource_name) (VStr format_name) base_path true w
      = (Ok (Raw record), w') ∧
    getitem record "schema" w' = (Ok (VRef s), w') ∧
    getitem record "format" w' = (Ok (VRef s), w') ∧
    field_json w' record "schema"
      = Some (JObj (dict_set "type" (JStr "format") skvs)) ∧
    field_json w' record "format"
      = Some (JObj (dict_set "type" (JStr "format") skvs)).
Proof.
  intros Hrfile Hrschema Hffile Hfschema.
  destruct (load_resource_inherit _ _ _ _ _ _ _ Hrfile Hrschema Hffile Hfschema)
    as (r & s & d & ds & h2 & Hr & Hs & Hhr & Hm & Hhs & Hms & Hload).
  set (hb := <[r := ODict (dict_set "schema" (VRef s)
                             (dict_set "format" (VRef s) d))]> h2) in *.
  set (hc := <[s := ODict (dict_set "type" (VStr "format") ds)]> hb) in *.
  assert (Hhcr : hc !! r = Some (ODict (dict_set "schema" (VRef s)
                                          (dict_set "format" (VRef s) d)))).
  { unfold hc. rewrite list_lookup_insert_ne by lia.
    apply list_lookup_insert_eq. lia. }
  assert (Hdump : dumps hc (VRef s)
                  = Some (JObj (dict_set "type" (JStr "format") skvs))).
  { apply (denotes_dumps _ (S r) _ (S s)), denotes_obj.
    exists s, (dict_set "type" (VStr "format") ds).
    split_and!; [done|lia|lia| |].
    - apply list_lookup_insert_eq. unfold hb. rewrite length_insert. lia.
    - apply members_set; [done|]. eapply members_agree; [|exact Hms].
      intros l' Hl'. unfold hc, hb. rewrite !list_lookup_insert_ne by lia. done. }
  exists (VRef r), (set_heap hc w), s. split_and!; [done| | | |].
  - erewrite getitem_dict; [|done]. by rewrite dict_get_set_eq.
  - erewrite getitem_dict; [|done].
    by rewrite dict_get_set_ne, dict_get_set_eq.
  - unfold field_json. cbn [heap set_heap]. rewrite Hhcr.
    by rewrite dict_get_set_eq.
  - unfold field_json. cbn [heap set_heap]. rewrite Hhcr.
    by rewrite dict_get_set_ne, dict_get_set_eq.
Qed.

(** ** The round trip *)

Lemma dict_pop_set_eq {A} k (v : A) d : dict_pop k (dict_set k v d) = dict_pop k d.
Proof.
  induction d as [|[k' v'] d IH]; simpl.
  - by rewrite decide_True.
  - destruct (decide (k' = k)) as [->|Hne]; simpl.
    + by rewrite decide_True.
    + by rewrite decide_False, IH.
Qed.

Lemma dict_pop_set_ne {A} k k' (v : A) d :
  k ≠ k' → dict_pop k' (dict_set k v d) = dict_set k v (dict_pop k' d).
Proof.
  intros Hne. induction d as [|[k0 v0] d IH]; simpl.
  - by rewrite decide_False.
  - destruct (decide (k0 = k)) as [->|Hne0]; simpl.
    + rewrite !decide_False by done. simpl. by rewrite decide_True.
    + destruct (decide (k0 = k')) as [->|Hne1]; [done|].
      simpl. by rewrite decide_False, IH.
Qed.

Lemma dict_set_set_eq {A} k (v v' : A) d :
  dict_set k v' (dict_set k v d) = dict_set k v' d.
Proof.
  induction d as [|[k0 v0] d IH]; simpl.
  - by rewrite decide_True.
  - destruct (decide (k0 = k)) as [->|Hne]; simpl.
    + by rewrite decide_True.
    + by rewrite decide_False, IH.
Qed.

Lemma dict_set_id {A} k (v : A) d : dict_get k d = Some v → dict_set k v d = d.
Proof.
  induction d as [|[k0 v0] d IH]; simpl; [done|].
  destruct (decide (k0 = k)) as [->|Hne].
  - by intros [= ->].
  - intros Hget. by rewrite IH.
Qed.

(** The last four lines of [write_resource] leave every file but the
    metadata alone. *)
Lemma update_metadata_other base_path w r w' path :
  (let! dp := load_file (base_path +:+ "/datapackage.json") in
   let! now := time_time in
   do! setitem dp "updated" (VInt now) in
   dump_file dp (base_path +:+ "/datapackage.json")) w = (r, w') →
  path ≠ base_path +:+ "/datapackage.json" →
  files w' !! path = files w !! path.
Proof.
  intros H Hne.
  apply bind_cases in H as [(dp & w1 & Hload & H)|(e & Hload & ->)];
    [|by rewrite (load_file_files _ _ _ _ Hload)].
  apply load_file_files in Hload as <-.
  apply bind_cases in H as [(now & w2 & Hnow & H)|(e & Hnow & ->)]; [|done].
  injection Hnow as <- <-.
  apply bind_cases in H as [(u & w3 & Hset & H)|(e & Hset & ->)];
    [|by rewrite (setitem_files _ _ _ _ _ _ Hset)].
  apply setitem_files in Hset as <-.
  by apply (dump_file_other _ _ _ _ _ _ H).
Qed.

(** Whatever [write_resource] persists has no [format] field. *)
Lemma write_resource_strips_format resource base_path w record w1 w2 :
  as_record resource w = (Ok record, w1) →
  write_resource resource base_path w = (Ok tt, w2) →
  ∃ name kvs,
    getitem record "name" w1 = (Ok name, w1) ∧
    files w2 !! resource_path base_path (heap w1) name = Some (Doc (JObj kvs)) ∧
    dict_get "format" kvs = None.
Proof.
  intros Hrec Hwrite. unfold write_resource in Hwrite.
  rewrite (bind_ok _ _ _ _ _ Hrec) in Hwrite. cbv beta in Hwrite.
  apply bind_inv in Hwrite as (name & w' & Hname & Hwrite).
  pose proof (getitem_world _ _ _ _ _ Hname) as ->.
  rewrite (bind_ok _ _ _ (heap w1) w1) in Hwrite; [|done].
  cbv beta zeta in Hwrite.
  apply bind_inv in Hwrite as (f & wa & Hpop & Hwrite).
  apply pop_inv in Hpop as (lr & dr & -> & Hlr & Hf & ->).
  set (wa := set_heap (<[lr := ODict (dict_pop "format" dr)]> (heap w1)) w1) in *.
  assert (Hla : heap wa !! lr = Some (ODict (dict_pop "format" dr))).
  { apply list_lookup_insert_eq. by eapply lookup_lt_Some. }
  apply bind_inv in Hwrite as (schema & w' & Hschema & Hwrite).
  apply getitem_world in Hschema as ->.
  apply bind_inv in Hwrite as (type & w' & Htype & Hwrite).
  apply get_world in Htype as ->.
  apply bind_inv in Hwrite as ([] & wb & Hset & Hwrite).
  assert (Hlb : ∃ d', heap wb !! lr = Some (ODict d') ∧ dict_get "format" d' = None).
  { destruct (eq_str type "format").
    - apply setitem_inv in Hset as (l' & d0 & [= <-] & Hl0 & ->).
      rewrite Hla in Hl0. injection Hl0 as <-.
      eexists. split.
      + apply list_lookup_insert_eq. by eapply lookup_lt_Some.
      + by rewrite dict_get_set_ne, dict_get_pop_eq.
    - injection Hset as <-. eexists. split; [done|]. apply dict_get_pop_eq. }
  destruct Hlb as (d' & Hlb & Hformat).
  apply bind_inv in Hwrite as ([] & wc & Hdump & Hwrite).
  apply dump_file_inv in Hdump as (jr & Hdumps & ->).
  destruct (dumps_dict _ _ _ _ Hlb Hdumps) as (kvs & -> & _).
  exists name, kvs. split_and!; [done| |by eapply dumps_dict_absent].
  rewrite (update_metadata_other _ _ _ _ _ Hwrite)
    by apply resource_path_not_metadata.
  simpl. by rewrite lookup_insert_eq.
Qed.

(** The last four lines of [write_resource] go through when the metadata
    holds an object. *)
Lemma update_metadata_ok base_path w dpm :
  files w !! (base_path +:+ "/datapackage.json") = Some (Doc (JObj dpm)) →
  ∃ w',
    (let! dp := load_file (base_path +:+ "/datapackage.json") in
     let! now := time_time in
     do! setitem dp "updated" (VInt now) in
     dump_file dp (base_path +:+ "/datapackage.json")) w = (Ok tt, w').
Proof.
  intros Hfile.
  destruct (load_value (JObj dpm) (heap w)) as [v h] eqn:Hval.
  destruct (load_value_denotes _ _ _ _ Hval) as [_ Hden].
  apply denotes_obj in Hden as (l & d & -> & Hl & Hhl & Hm).
  rewrite (bind_ok _ _ _ _ _ (load_file_value _ _ _ _ _ Hfile Hval)). cbv beta.
  rewrite (bind_ok _ _ _ (clock w) (set_heap h w)); [|done]. cbv beta.
  rewrite (bind_ok _ _ _ tt
             (set_heap (<[l := ODict (dict_set "updated" (VInt (clock w)) d)]> h)
                (set_heap h w))); [|by erewrite setitem_dict].
  unfold dump_file. cbn [heap set_heap].
  erewrite (denotes_dumps _ (length (heap w))
              (JObj (dict_set "updated" (JNum (clock w)) dpm)) (S l));
    [by eexists|].
  apply denotes_obj. exists l, (dict_set "updated" (VInt (clock w)) d).
  split_and!; [done|lia|lia| |].
  - apply list_lookup_insert_eq. by eapply lookup_lt_Some.
  - apply members_set; [done|]. eapply members_agree; [|exact Hm].
    intros l' Hl'. apply list_lookup_insert_ne. lia.
Qed.

(** A resource that inherits its schema, loaded with a format and written
    back: the record the file had, less any [format], is written to the
    file of the resource, and what is left of [write_resource] is the
    update of the metadata. *)
Lemma write_loaded_inherit (resource_name format_name base_path name : string)
    w rkvs fkvs skvs :
  files w !! resource_path base_path (heap w) (VStr resource_name)
    = Some (Doc (JObj rkvs)) →
  dict_get "schema" rkvs = Some (JStr "inherit-from-format") →
  dict_get "name" rkvs = Some (JStr name) →
  files w !! (base_path +:+ "/" +:+ FORMATS_DIR +:+ "/" +:+ format_name
              +:+ ".json") = Some (Doc (JObj fkvs)) →
  dict_get "schema" fkvs = Some (JObj skvs) →
  ∃ record w1 w3,
    load_resource (VStr resource_name) (VStr format_name) base_path true w
      = (Ok (Raw record), w1) ∧
    files w3 = <[resource_path base_path [] (VStr name)
                 := Doc (JObj (dict_pop "format" rkvs))]> (files w) ∧
    write_resource (Raw record) base_path w1 =
    (let! dp := load_file (base_path +:+ "/datapackage.json") in
     let! now := time_time in
     do! setitem dp "updated" (VInt now) in
     dump_file dp (base_path +:+ "/datapackage.json")) w3.
Proof.
  intros Hrfile Hrschema Hrname Hffile Hfschema.
  destruct (load_resource_inherit _ _ _ _ _ _ _ Hrfile Hrschema Hffile Hfschema)
    as (r & s & d & ds & h2 & Hr & Hs & Hhr & Hm & Hhs & Hms & Hload).
  set (dm := dict_set "schema" (VRef s) (dict_set "format" (VRef s) d)) in *.
  set (hb := <[r := ODict dm]> h2) in *.
  set (hc := <[s := ODict (dict_set "type" (VStr "format") ds)]> hb) in *.
  set (w1 := set_heap hc w) in *.
  set (hd := <[r := ODict (dict_pop "format" dm)]> hc).
  set (dl := dict_set "schema" (VStr "inherit-from-format")
               (dict_pop "format" dm)).
  set (he := <[r := ODict dl]> hd).
  exists (VRef r), w1,
    (set_files (<[resource_path base_path [] (VStr name)
                  := Doc (JObj (dict_pop "format" rkvs))]> (files w))
       (set_heap he w)).
  split; [done|]. split; [done|].
  assert (Hhcr : heap w1 !! r = Some (ODict dm)).
  { simpl. unfold hc. rewrite list_lookup_insert_ne by lia.
    apply list_lookup_insert_eq. lia. }
  pose proof (members_get _ _ _ _ _ "name" Hm) as Hn. rewrite Hrname in Hn.
  destruct Hn as (nv & Hnv & Hnd). simpl in Hnd. subst nv.
  unfold write_resource.
  rewrite (bind_ok _ _ _ (VRef r) w1); [|done]. cbv beta.
  rewrite (bind_ok _ _ _ (VStr name) w1); last first.
  { erewrite getitem_dict; [|done]. unfold dm.
    by rewrite !dict_get_set_ne, Hnv. }
  cbv beta. rewrite (bind_ok _ _ _ (heap w1) w1); [|done]. cbv beta zeta.
  rewrite (bind_ok _ _ _ (VRef s) (set_heap hd w1)); last first.
  { erewrite pop_dict; [|done]. unfold dm at 1.
    by rewrite dict_get_set_ne, dict_get_set_eq. }
  assert (Hhdr : heap (set_heap hd w1) !! r = Some (ODict (dict_pop "format" dm))).
  { apply list_lookup_insert_eq. unfold hc, hb. rewrite !length_insert. lia. }
  rewrite (bind_ok _ _ _ (VRef s) (set_heap hd w1)); last first.
  { erewrite getitem_dict; [|done]. unfold dm.
    by rewrite dict_get_pop_ne, dict_get_set_eq. }
  cbv beta.
  rewrite (bind_ok _ _ _ (VStr "format") (set_heap hd w1)); last first.
  { erewrite get_dict; [by rewrite dict_get_set_eq|].
    simpl. unfold hd, hc. rewrite list_lookup_insert_ne by lia.
    apply list_lookup_insert_eq. unfold hb. rewrite length_insert. lia. }
  cbv beta. rewrite (proj2 (eq_str_true (VStr "format") _) eq_refl). cbv iota.
  rewrite (bind_ok _ _ _ tt (set_heap he (set_heap hd w1)));
    [|by erewrite setitem_dict].
  assert (Hdump : dumps he (VRef r) = Some (JObj (dict_pop "format" rkvs))).
  { apply (denotes_dumps _ (length (heap w)) _ (S r)), denotes_obj.
    exists r, dl. split_and!; [done|lia|lia| |].
    - apply list_lookup_insert_eq. unfold hd, hc, hb. rewrite !length_insert. lia.
    - replace dl with (dict_set "schema" (VStr "inherit-from-format")
                         (dict_pop "format" d)); last first.
      { unfold dl, dm.
        by rewrite dict_pop_set_ne, dict_pop_set_eq, dict_set_set_eq. }
      rewrite <-(dict_set_id "schema" (JStr "inherit-from-format")
                   (dict_pop "format" rkvs))
        by by rewrite dict_get_pop_ne.
      apply members_set; [done|]. apply members_pop.
      eapply members_agree; [|exact Hm].
      intros l' Hl'. unfold he, hd, hc, hb.
      rewrite !list_lookup_insert_ne by lia. done. }
  rewrite (bind_ok _ _ _ tt
             (set_files (<[resource_path base_path [] (VStr name)
                           := Doc (JObj (dict_pop "format" rkvs))]> (files w))
                (set_heap he w))); [done|].
  unfold dump_file. cbn [heap set_heap]. by rewrite Hdump.
Qed.

(** When a resource that inherits its schema has been loaded with a format,
    the format is an object whose schema is an object: anything else makes
    [load_resource] raise. *)
Lemma load_resource_inherit_inv (resource_name format_name base_path : string)
    w rkvs res w1 :
  files w !! resource_path base_path (heap w) (VStr resource_name)
    = Some (Doc (JObj rkvs)) →
  dict_get "schema" rkvs = Some (JStr "inherit-from-format") →
  load_resource (VStr resource_name) (VStr format_name) base_path true w
    = (Ok res, w1) →
  ∃ fkvs skvs,
    files w !! (base_path +:+ "/" +:+ FORMATS_DIR +:+ "/" +:+ format_name
                +:+ ".json") = Some (Doc (JObj fkvs)) ∧
    dict_get "schema" fkvs = Some (JObj skvs).
Proof.
  intros Hrfile Hrschema Hload. unfold load_resource in Hload.
  rewrite (bind_ok _ _ _ (heap w) w) in Hload; [|done]. cbv beta in Hload.
  destruct (load_value (JObj rkvs) (heap w)) as [v1 h1] eqn:Hload1.
  destruct (load_value_denotes _ _ _ _ Hload1) as [_ Hden1].
  apply denotes_obj in Hden1 as (r & d & -> & Hr & Hhr & Hm).
  rewrite (bind_ok _ _ _ (VRef r) (set_heap h1 w)) in Hload;
    [|by apply (load_file_value _ _ _ _ _ Hrfile)].
  cbv beta iota in Hload.
  apply bind_inv in Hload as (u & wb & Hmerge & _).
  rewrite (bind_ok _ _ _ h1 (set_heap h1 w)) in Hmerge; [|done].
  cbv beta in Hmerge.
  apply bind_inv in Hmerge as (f & wf & Hfl & Hmerge).
  apply load_file_inv in Hfl as (fj & h2 & Hffile & Hval2 & ->).
  destruct (load_value_denotes _ _ _ _ Hval2) as [[e2 Hh2] Hden2].
  cbn [heap set_heap] in Hh2, Hden2. subst h2.
  apply bind_inv in Hmerge as (fs & w' & Hfs & Hmerge).
  apply getitem_inv in Hfs as (-> & lf & df & -> & Hlf & Hgetfs).
  cbn [heap set_heap] in Hlf.
  destruct (denotes_dict_obj _ _ _ _ _ _ Hden2 Hlf) as (fkvs & -> & Hmf).
  pose proof (members_get _ _ _ _ _ "schema" Hmf) as Hsj.
  destruct (dict_get "schema" fkvs) as [sj|] eqn:Hfschema; [|congruence].
  destruct Hsj as (fs' & Hfs' & Hdens). rewrite Hgetfs in Hfs'.
  injection Hfs' as <-.
  exists fkvs.
  assert (Hhr2 : (h1 ++ e2) !! r = Some (ODict d)) by by apply lookup_app_l_Some.
  pose proof (lookup_lt_Some _ _ _ Hhr2) as Hrlt.
  pose proof (members_get _ _ _ _ _ "schema" Hm) as Hrs.
  rewrite Hrschema in Hrs. destruct Hrs as (rsv & Hrsv & Hrsd).
  simpl in Hrsd. subst rsv.
  set (ha := <[r := ODict (dict_set "format" fs d)]> (h1 ++ e2)) in *.
  rewrite (bind_ok _ _ _ tt (set_heap ha w)) in Hmerge;
    [|by erewrite setitem_dict].
  assert (Hha : ha !! r = Some (ODict (dict_set "format" fs d))).
  { by apply list_lookup_insert_eq. }
  rewrite (bind_ok _ _ _ (VStr "inherit-from-format") (set_heap ha w)) in Hmerge;
    last first.
  { erewrite getitem_dict; [|done]. by rewrite dict_get_set_ne, Hrsv. }
  cbv beta in Hmerge.
  rewrite (proj2 (eq_str_true (VStr "inherit-from-format") _) eq_refl) in Hmerge.
  cbv iota in Hmerge.
  rewrite (bind_ok _ _ _ fs (set_heap ha w)) in Hmerge; last first.
  { erewrite getitem_dict; [|done]. by rewrite dict_get_set_eq. }
  cbv beta in Hmerge.
  set (hb := <[r := ODict (dict_set "schema" fs (dict_set "format" fs d))]> ha)
    in *.
  rewrite (bind_ok _ _ _ tt (set_heap hb w)) in Hmerge;
    [|by erewrite setitem_dict].
  assert (Hhb : hb !! r = Some (ODict (dict_set "schema" fs
                                         (dict_set "format" fs d)))).
  { apply list_lookup_insert_eq. unfold ha. by rewrite length_insert. }
  rewrite (bind_ok _ _ _ fs (set_heap hb w)) in Hmerge; last first.
  { erewrite getitem_dict; [|done]. by rewrite dict_get_set_eq. }
  destruct u. apply setitem_inv in Hmerge as (s & ds & -> & Hs & _).
  cbn [heap set_heap] in Hs.
  pose proof (denotes_ref _ _ _ _ _ Hdens) as [Hsb _].
  unfold hb, ha in Hs. rewrite !list_lookup_insert_ne in Hs by lia.
  destruct (denotes_dict_obj _ _ _ _ _ _ Hdens Hs) as (skvs & -> & _).
  by exists skvs.
Qed.

(** C1.  Whatever [write_resource] persists to [resources/<name>.json] has
    no [format] field; and when a resource whose schema on file is
    [inherit-from-format] has been loaded with a format, writing it back
    persists it with that schema again, as the record the file had less
    any [format], the call returning when the metadata holds an object. *)
Theorem load_write_round_trip base_path :
  (∀ resource w record w1 w2,
     as_record resource w = (Ok record, w1) →
     write_resource resource base_path w = (Ok tt, w2) →
     ∃ name kvs,
       getitem record "name" w1 = (Ok name, w1) ∧
       files w2 !! resource_path base_path (heap w1) name
         = Some (Doc (JObj kvs)) ∧
       dict_get "format" kvs = None) ∧
  (∀ (resource_name format_name name : string) w rkvs loaded w1,
     files w !! resource_path base_path (heap w) (VStr resource_name)
       = Some (Doc (JObj rkvs)) →
     dict_get "schema" rkvs = Some (JStr "inherit-from-format") →
     dict_get "name" rkvs = Some (JStr name) →
     load_resource (VStr resource_name) (VStr format_name) base_path true w
       = (Ok loaded, w1) →
     (∀ r w2, write_resource loaded base_path w1 = (r, w2) →
        ∃ kvs,
          files w2 !! resource_path base_path [] (VStr name)
            = Some (Doc (JObj kvs)) ∧
          kvs = dict_pop "format" rkvs ∧
          dict_get "format" kvs = None ∧
          dict_get "schema" kvs = Some (JStr "inherit-from-format")) ∧
     (∀ dpm,
        files w !! (base_path +:+ "/datapackage.json")
          = Some (Doc (JObj dpm)) →
        ∃ w2, write_resource loaded base_path w1 = (Ok tt, w2))).
Proof.
  split.
  - intros resource w record w1 w2. apply write_resource_strips_format.
  - intros resource_name format_name name w rkvs loaded w1
      Hrfile Hrschema Hrname Hloaded.
    destruct (load_resource_inherit_inv _ _ _ _ _ _ _ Hrfile Hrschema Hloaded)
      as (fkvs & skvs & Hffile & Hfschema).
    destruct (write_loaded_inherit _ _ _ _ _ _ _ _
                Hrfile Hrschema Hrname Hffile Hfschema)
      as (record & w1' & w3 & Hload & Hfiles & Hwrite).
    rewrite Hload in Hloaded. injection Hloaded as <- <-.
    rewrite Hwrite. split.
    + intros r w2 Hw.
      exists (dict_pop "format" rkvs). split_and!; [|done| |].
      * rewrite (update_metadata_other _ _ _ _ _ Hw)
          by apply resource_path_not_metadata.
        rewrite Hfiles. apply lookup_insert_eq.
      * apply dict_get_pop_eq.
      * by rewrite dict_get_pop_ne.
    + intros dpm Hdp. apply (update_metadata_ok _ _ dpm).
      rewrite Hfiles, lookup_insert_ne; [done|].
      apply resource_path_not_metadata.
Qed.

(** ** Resolving a variable *)

Lemma has_name_binds h a j b v name :
  denotes h a j b v → has_name h name v = binds name j.
Proof.
  destruct j as [ | x | z | s | js | kvs ]; try (simpl; by intros ->).
  - rewrite denotes_arr. intros (l & vs & -> & _ & Hl & _). simpl. by rewrite Hl.
  - rewrite denotes_obj. intros (l & d & -> & _ & Hl & Hm). simpl. rewrite Hl.
    pose proof (members_get _ _ _ _ _ "name" Hm) as Hn.
    destruct (dict_get "name" kvs) as [nj|]; [|by rewrite Hn].
    destruct Hn as (nv & -> & Hnv).
    destruct nj; simpl in Hnv; subst; try done.
    + by destruct Hnv as (? & ? & -> & _).
    + by destruct Hnv as (? & ? & -> & _).
Qed.

Lemma find_first h name before v after :
  Forall (λ i, has_name h name i = false) before →
  has_name h name v = true →
  head (filter (λ i, has_name h name i = true) (before ++ v :: after)) = Some v.
Proof.
  intros Hbefore Hv. induction Hbefore as [|b before Hb _ IH]; simpl.
  - by rewrite filter_cons_True.
  - rewrite filter_cons_False by congruence. done.
Qed.

Lemma find_none h name items :
  Forall (λ i, has_name h name i = false) items →
  head (filter (λ i, has_name h name i = true) items) = None.
Proof.
  induction 1 as [|b items Hb _ IH]; [done|].
  rewrite filter_cons_False by congruence. done.
Qed.

(** C6.  [load_resource_by_variable] loads the configuration and takes the
    first binding in [data] whose name is the variable (as the spec has
    [find_by_name] do): with such a binding the call is [load_resource] on
    the binding's resource and format; with none it raises the error for a
    variable that is not found (the module's [KeyError]), naming the
    variable and the configuration. *)
Theorem load_resource_by_variable_resolves
    (variable_name configuration_name base_path : string) as_dict w ckvs bindings :
  files w !! (base_path +:+ "/" +:+ CONFIGURATIONS_DIR +:+ "/"
              +:+ configuration_name +:+ ".json") = Some (Doc (JObj ckvs)) →
  dict_get "data" ckvs = Some (JArr bindings) →
  ∃ h1,
    (∀ before binding after (resource_name format_name : string),
       bindings = before ++ JObj binding :: after →
       Forall (λ b, binds variable_name b = false) before →
       dict_get "name" binding = Some (JStr variable_name) →
       dict_get "resource" binding = Some (JStr resource_name) →
       dict_get "format" binding = Some (JStr format_name) →
       load_resource_by_variable variable_name configuration_name base_path
         as_dict w
       = load_resource (VStr resource_name) (VStr format_name) base_path
           as_dict (set_heap h1 w)) ∧
    (Forall (λ b, binds variable_name b = false) bindings →
     load_resource_by_variable variable_name configuration_name base_path
       as_dict w
     = (Raise (KeyError ("Can't find variable named " +:+ variable_name
                         +:+ " in configuration " +:+ configuration_name)),
        set_heap h1 w)).
Proof.
  intros Hfile Hdata.
  destruct (load_value (JObj ckvs) (heap w)) as [v h1] eqn:Hval.
  destruct (load_value_denotes _ _ _ _ Hval) as [_ Hden].
  apply denotes_obj in Hden as (lc & d & -> & _ & Hlc & Hm).
  pose proof (members_get _ _ _ _ _ "data" Hm) as Hd. rewrite Hdata in Hd.
  destruct Hd as (dv & Hdv & Hden).
  apply denotes_arr in Hden as (la & vs & -> & _ & Hla & Hi).
  exists h1.
  assert (Hstart : ∀ k : value → M resource,
    (let! configuration := load_configuration configuration_name base_path in
     let! data := getitem configuration "data" in
     let! variable := find_by_name data variable_name in
     k variable) w
    = k (default VNone (head (filter (λ i, has_name h1 variable_name i = true) vs)))
        (set_heap h1 w)).
  { intros k. unfold load_configuration.
    rewrite (bind_ok _ _ _ (VRef lc) (set_heap h1 w));
      [|by apply (load_file_value _ _ _ _ _ Hfile)].
    cbv beta. rewrite (bind_ok _ _ _ (VRef la) (set_heap h1 w)); last first.
    { erewrite getitem_dict; [|done]. by rewrite Hdv. }
    cbv beta. unfold find_by_name.
    rewrite (bind_ok _ _ _
               (default VNone
                  (head (filter (λ i, has_name h1 variable_name i = true) vs)))
               (set_heap h1 w)); [done|].
    rewrite (bind_ok _ _ _ vs (set_heap h1 w)); last first.
    { unfold iter. simpl. by rewrite Hla. }
    cbv beta. by rewrite (bind_ok _ _ _ h1 (set_heap h1 w)). }
  unfold load_resource_by_variable. rewrite Hstart. split.
  - intros before binding after resource_name format_name -> Hbefore
      Hname Hresource Hformat.
    apply Forall2_app_inv_l in Hi as (vbefore & vrest & Hvb & Hvr & ->).
    apply Forall2_cons_inv_l in Hvr as (bv & vafter & Hbv & _ & ->).
    rewrite (find_first _ _ _ bv); last first.
    { rewrite (has_name_binds _ _ _ _ _ _ Hbv). simpl. rewrite Hname.
      by apply bool_decide_eq_true. }
    { clear -Hvb Hbefore. induction Hvb as [|j v js vs Hj _ IH]; [constructor|].
      inversion Hbefore; subst. constructor; [|by apply IH].
      by rewrite (has_name_binds _ _ _ _ _ _ Hj). }
    apply denotes_obj in Hbv as (lb & db & -> & _ & Hlb & Hmb).
    cbn [default from_option id]. cbv beta iota.
    pose proof (members_get _ _ _ _ _ "resource" Hmb) as Hr.
    rewrite Hresource in Hr. destruct Hr as (rv & Hrv & Hrd).
    simpl in Hrd. subst rv.
    pose proof (members_get _ _ _ _ _ "format" Hmb) as Hf.
    rewrite Hformat in Hf. destruct Hf as (fv & Hfv & Hfd).
    simpl in Hfd. subst fv.
    rewrite (bind_ok _ _ _ (VStr resource_name) (set_heap h1 w)); last first.
    { erewrite getitem_dict; [|done]. by rewrite Hrv. }
    cbv beta. rewrite (bind_ok _ _ _ (VStr format_name) (set_heap h1 w)); [done|].
    erewrite getitem_dict; [|done]. by rewrite Hfv.
  - intros Hnone. rewrite find_none; [done|].
    clear -Hi Hnone. induction Hi as [|j v js vs Hj _ IH]; [constructor|].
    inversion Hnone; subst. constructor; [|by apply IH].
    by rewrite (has_name_binds _ _ _ _ _ _ Hj).
Qed.

(** ** More on the container executor *)

Lemma execute_container_unfold docker_client container_name environment
    base_path w :
  execute_container docker_client container_name environment base_path w =
  match containers_run docker_client
          (container_request container_name environment base_path (uid w))
          (files w) with
  | Raise e =>
      (Raise e,
       add_run_call
         (container_request container_name environment base_path (uid w)) w)
  | Ok (c, fs) =>
      (match decode (logs c) with
       | None => Raise UnicodeDecodeError
       | Some cs =>
           if StatusCode c =? 0 then Ok (strip cs)
           else Raise (ExecutionError
                         "Execution failed with status code {result['StatusCode']}"
                         (strip cs))
       end,
       set_files fs
         (add_run_call
            (container_request container_name environment base_path (uid w)) w))
  end.
Proof.
  unfold execute_container.
  rewrite (bind_ok _ _ _ (uid w) w); [|done]. cbv beta.
  unfold bind, run_container.
  destruct (containers_run docker_client _ (files w)) as [[c fs]|e]; [|done].
  unfold stripped_logs.
  by destruct (StatusCode c =? 0), (decode (logs c)).
Qed.

(** X1.  Whatever comes of it, [execute_container] asks the runtime for
    exactly one container: detached, as the current user, with the base
    path mounted at [/usr/src/app/datapackage] and the environment it was
    given.  It leaves the objects in memory alone; a refusal of the runtime
    is passed on with the files untouched, and otherwise the files are as
    the container left them. *)
Theorem execute_container_one_run docker_client container_name environment
    base_path w r w' :
  execute_container docker_client container_name environment base_path w
    = (r, w') →
  run_calls w' =
    run_calls w ++ [{| image := container_name;
                       volumes := [base_path +:+ ":/usr/src/app/datapackage"];
                       environment := environment;
                       detach := true;
                       user := uid w |}] ∧
  heap w' = heap w ∧
  match containers_run docker_client
          (container_request container_name environment base_path (uid w))
          (files w) with
  | Raise e => r = Raise e ∧ files w' = files w
  | Ok (c, fs) => files w' = fs
  end.
Proof.
  rewrite execute_container_unfold.
  destruct (containers_run docker_client _ (files w)) as [[c fs]|e];
    intros [= <- <-]; by split_and!.
Qed.

(** X2.  Output that is not UTF-8 makes [execute_container] raise
    [UnicodeDecodeError] whatever the exit status: a failed container whose
    output cannot be decoded gives no [ExecutionError]. *)
Theorem execute_container_undecodable docker_client container_name environment
    base_path w c fs :
  containers_run docker_client
    (container_request container_name environment base_path (uid w))
    (files w) = Ok (c, fs) →
  decode (logs c) = None →
  (execute_container docker_client container_name environment base_path w).1
  = Raise UnicodeDecodeError.
Proof. intros Hrun Hdec. by rewrite execute_container_unfold, Hrun, Hdec. Qed.

Lemma lstrip_split cs :
  ∃ spaces, cs = spaces ++ lstrip cs ∧ Forall (λ c, isspace c = true) spaces.
Proof.
  induction cs as [|c cs (spaces & Hcs & Hsp)]; simpl.
  - by exists [].
  - destruct (isspace c) eqn:Hc.
    + exists (c :: spaces). split; [by rewrite Hcs at 1|by constructor].
    + by exists [].
Qed.

Lemma lstrip_head cs c : head (lstrip cs) = Some c → isspace c = false.
Proof.
  induction cs as [|c' cs IH]; simpl; [done|].
  destruct (isspace c') eqn:Hc; [done|]. simpl. by intros [= <-].
Qed.

Lemma strip_head cs c : head (strip cs) = Some c → isspace c = false.
Proof.
  unfold strip. intros Hhead.
  destruct (lstrip_split (rev (lstrip cs))) as (spaces & Hsplit & _).
  apply (f_equal (@rev N)) in Hsplit.
  rewrite rev_involutive, rev_app_distr in Hsplit.
  apply (lstrip_head cs). rewrite Hsplit.
  destruct (rev (lstrip (rev (lstrip cs)))); [done|]. by simpl in *.
Qed.

Lemma strip_last cs c : last (strip cs) = Some c → isspace c = false.
Proof.
  unfold strip. intros Hlast. apply (lstrip_head (rev (lstrip cs))).
  destruct (lstrip (rev (lstrip cs))) as [|c' l]; [done|].
  simpl in Hlast. by rewrite last_snoc in Hlast.
Qed.

(** X3.  Once the runtime has run the container, the logs that
    [execute_container] returns, and those it attaches to an
    [ExecutionError], neither begin nor end with white space. *)
Theorem execute_container_logs_stripped docker_client container_name
    environment base_path w c fs :
  containers_run docker_client
    (container_request container_name environment base_path (uid w))
    (files w) = Ok (c, fs) →
  ∀ l,
    (execute_container docker_client container_name environment base_path w).1
      = Ok l ∨
    (∃ message,
       (execute_container docker_client container_name environment base_path
          w).1 = Raise (ExecutionError message l)) →
    ∀ x, head l = Some x ∨ last l = Some x → isspace x = false.
Proof.
  intros Hrun l. rewrite execute_container_unfold, Hrun. cbn [fst]. intros Hl.
  assert (∃ cs, l = strip cs) as [cs ->].
  { destruct (decode (logs c)) as [cs|]; [|by destruct Hl as [?|[? ?]]].
    exists cs. destruct (StatusCode c =? 0), Hl as [?|[? ?]]; by simplify_eq. }
  intros x [Hx|Hx]; [by eapply strip_head|by eapply strip_last].
Qed.

(** ** Running a datapackage *)

(** X4.  [execute_datapackage] checks no resource: with a configuration
    that names an image it asks for exactly one container, of that image
    and with [{CONFIGURATION: configuration_name}], returns its stripped
    output when it exits with 0 and raises an [ExecutionError] with that
    output otherwise. *)
Theorem execute_datapackage_runs docker_client (configuration_name base_path : string)
    w ckvs (img : string) :
  files w !! (base_path +:+ "/" +:+ CONFIGURATIONS_DIR +:+ "/"
              +:+ configuration_name +:+ ".json") = Some (Doc (JObj ckvs)) →
  dict_get "container" ckvs = Some (JStr img) →
  run_calls (execute_datapackage docker_client configuration_name base_path w).2
  = run_calls w
    ++ [container_request (VStr img) [("CONFIGURATION", configuration_name)]
          base_path (uid w)] ∧
  ∀ c fs cs,
    containers_run docker_client
      (container_request (VStr img) [("CONFIGURATION", configuration_name)]
         base_path (uid w)) (files w) = Ok (c, fs) →
    decode (logs c) = Some cs →
    (execute_datapackage docker_client configuration_name base_path w).1
    = if StatusCode c =? 0 then Ok (strip cs)
      else Raise (ExecutionError
                    "Execution failed with status code {result['StatusCode']}"
                    (strip cs)).
Proof.
  intros Hfile Hcontainer.
  destruct (load_value (JObj ckvs) (heap w)) as [v h1] eqn:Hval.
  destruct (load_value_denotes _ _ _ _ Hval) as [_ Hden].
  apply denotes_obj in Hden as (lc & d & -> & _ & Hlc & Hm).
  pose proof (members_get _ _ _ _ _ "container" Hm) as Hc.
  rewrite Hcontainer in Hc. destruct Hc as (cv & Hcv & Hcd).
  simpl in Hcd. subst cv.
  assert (Hexec :
    execute_datapackage docker_client configuration_name base_path w
    = execute_container docker_client (VStr img)
        [("CONFIGURATION", configuration_name)] base_path (set_heap h1 w)).
  { unfold execute_datapackage, load_configuration.
    rewrite (bind_ok _ _ _ (VRef lc) (set_heap h1 w));
      [|by apply (load_file_value _ _ _ _ _ Hfile)].
    cbv beta. rewrite (bind_ok _ _ _ (VStr img) (set_heap h1 w)); [done|].
    erewrite getitem_dict; [|done]. by rewrite Hcv. }
  rewrite Hexec, execute_container_unfold. cbn [uid set_heap files]. split.
  - by destruct (containers_run docker_client _ (files w)) as [[c fs]|e].
  - intros c fs cs -> Hdec. cbn [fst]. by rewrite Hdec.
Qed.

(** X5.  Without its configuration [execute_datapackage] raises
    [FileNotFoundError] and nothing changes; with a configuration that
    names no image it raises [KeyError] on [container].  In both cases no
    container is asked to run. *)
Theorem execute_datapackage_no_image docker_client
    (configuration_name base_path : string) w :
  (files w !! (base_path +:+ "/" +:+ CONFIGURATIONS_DIR +:+ "/"
               +:+ configuration_name +:+ ".json") = None →
   execute_datapackage docker_client configuration_name base_path w
   = (Raise (FileNotFoundError
               (base_path +:+ "/" +:+ CONFIGURATIONS_DIR +:+ "/"
                +:+ configuration_name +:+ ".json")), w)) ∧
  (∀ ckvs,
     files w !! (base_path +:+ "/" +:+ CONFIGURATIONS_DIR +:+ "/"
                 +:+ configuration_name +:+ ".json") = Some (Doc (JObj ckvs)) →
     dict_get "container" ckvs = None →
     ∃ w',
       execute_datapackage docker_client configuration_name base_path w
       = (Raise (KeyError "container"), w') ∧
       run_calls w' = run_calls w ∧ files w' = files w).
Proof.
  split.
  - intros Hfile. unfold execute_datapackage, load_configuration.
    apply bind_raise. unfold load_file. by rewrite Hfile.
  - intros ckvs Hfile Hcontainer.
    destruct (load_value (JObj ckvs) (heap w)) as [v h1] eqn:Hval.
    destruct (load_value_denotes _ _ _ _ Hval) as [_ Hden].
    apply denotes_obj in Hden as (lc & d & -> & _ & Hlc & Hm).
    pose proof (members_get _ _ _ _ _ "container" Hm) as Hc.
    rewrite Hcontainer in Hc.
    exists (set_heap h1 w). split; [|done].
    unfold execute_datapackage, load_configuration.
    rewrite (bind_ok _ _ _ (VRef lc) (set_heap h1 w));
      [|by apply (load_file_value _ _ _ _ _ Hfile)].
    cbv beta. apply bind_raise. erewrite getitem_dict; [|done]. by rewrite Hc.
Qed.

(** ** Views and configurations *)

Lemma load_file_reads path w :
  match files w !! path with
  | None => load_file path w = (Raise (FileNotFoundError path), w)
  | Some Garbage => load_file path w = (Raise JSONDecodeError, w)
  | Some (Doc j) =>
      ∃ v ext,
        load_file path w = (Ok v, set_heap (heap w ++ ext) w) ∧
        dumps (heap w ++ ext) v = Some j
  end.
Proof.
  unfold load_file. destruct (files w !! path) as [[j|]|]; [|done|done].
  destruct (load_value j (heap w)) as [v h] eqn:Hval.
  destruct (load_value_denotes _ _ _ _ Hval) as [[ext ->] Hden].
  exists v, ext. split; [done|]. by eapply denotes_dumps.
Qed.

(** X6.  [load_view] reads [views/<name>.json] and [load_configuration]
    reads [configurations/<name>.json]: a missing file is a
    [FileNotFoundError] for that path and a file that is not JSON a
    [JSONDecodeError], both with nothing changed; otherwise the value
    returned is made of new objects, spells the document of the file, and
    no file, clock or container is touched. *)
Theorem load_view_load_configuration (name base_path : string) w :
  match files w !! (base_path +:+ "/" +:+ VIEWS_DIR +:+ "/" +:+ name +:+ ".json")
  with
  | None =>
      load_view name base_path w
      = (Raise (FileNotFoundError
                  (base_path +:+ "/" +:+ VIEWS_DIR +:+ "/" +:+ name +:+ ".json")),
         w)
  | Some Garbage => load_view name base_path w = (Raise JSONDecodeError, w)
  | Some (Doc j) =>
      ∃ v ext,
        load_view name base_path w = (Ok v, set_heap (heap w ++ ext) w) ∧
        dumps (heap w ++ ext) v = Some j
  end ∧
  match files w !! (base_path +:+ "/" +:+ CONFIGURATIONS_DIR +:+ "/" +:+ name
                    +:+ ".json")
  with
  | None =>
      load_configuration name base_path w
      = (Raise (FileNotFoundError
                  (base_path +:+ "/" +:+ CONFIGURATIONS_DIR +:+ "/" +:+ name
                   +:+ ".json")), w)
  | Some Garbage =>
      load_configuration name base_path w = (Raise JSONDecodeError, w)
  | Some (Doc j) =>
      ∃ v ext,
        load_configuration name base_path w
          = (Ok v, set_heap (heap w ++ ext) w) ∧
        dumps (heap w ++ ext) v = Some j
  end.
Proof. split; apply load_file_reads. Qed.

Lemma dumps_obj_inv h v kvs :
  dumps h v = Some (JObj kvs) →
  ∃ l d, v = VRef l ∧ h !! l = Some (ODict d) ∧
    Forall2 (entry_rel (λ v j, dump_value (length h) h v = Some j)) d kvs.
Proof.
  intros Hd. destruct v as [ | x | z | s | l ]; try done.
  destruct (h !! l) as [[d|xs]|] eqn:Hl.
  - destruct (dumps_dict _ _ _ _ Hl Hd) as (kvs' & [= <-] & Hrel). eauto.
  - unfold dumps in Hd. simpl in Hd. rewrite Hl in Hd.
    by destruct (mapM _ xs).
  - unfold dumps in Hd. simpl in Hd. by rewrite Hl in Hd.
Qed.

Lemma dump_value_str_inv fuel h v s :
  dump_value fuel h v = Some (JStr s) → v = VStr s.
Proof.
  destruct v as [ | x | z | s' | l ]; destruct fuel; simpl; try congruence.
  destruct (h !! l) as [[d|xs]|]; [| |done].
  - by destruct (mapM _ d).
  - by destruct (mapM _ xs).
Qed.

(** X7.  [write_configuration] writes the whole record to
    [configurations/<name>.json], the name being the record's own, and
    touches nothing else; [load_configuration] of that name then gives the
    record back. *)
Theorem write_configuration_round_trip configuration base_path w kvs
    (name : string) :
  dumps (heap w) configuration = Some (JObj kvs) →
  dict_get "name" kvs = Some (JStr name) →
  write_configuration configuration base_path w
  = (Ok tt,
     set_files
       (<[base_path +:+ "/" +:+ CONFIGURATIONS_DIR +:+ "/" +:+ name +:+ ".json"
          := Doc (JObj kvs)]> (files w)) w) ∧
  ∃ v w',
    load_configuration name base_path
      (set_files
         (<[base_path +:+ "/" +:+ CONFIGURATIONS_DIR +:+ "/" +:+ name
            +:+ ".json" := Doc (JObj kvs)]> (files w)) w)
    = (Ok v, w') ∧
    dumps (heap w') v = Some (JObj kvs).
Proof.
  intros Hdumps Hname.
  destruct (dumps_obj_inv _ _ _ Hdumps) as (l & d & -> & Hl & Hrel).
  pose proof (dict_get_rel _ "name" _ _ Hrel) as Hn. rewrite Hname in Hn.
  inversion Hn as [nv ? Hnv Hd|]; subst.
  apply dump_value_str_inv in Hnv as ->. split.
  - unfold write_configuration.
    rewrite (bind_ok _ _ _ (VStr name) w); last first.
    { erewrite getitem_dict; [|done]. by rewrite <-Hd. }
    cbv beta. rewrite (bind_ok _ _ _ (heap w) w); [|done]. cbv beta.
    unfold dump_file. by rewrite Hdumps.
  - set (w1 := set_files _ w).
    pose proof (load_file_reads
                  (base_path +:+ "/" +:+ CONFIGURATIONS_DIR +:+ "/" +:+ name
                   +:+ ".json") w1) as Hload.
    unfold w1 in Hload at 1. cbn [files set_files] in Hload.
    rewrite lookup_insert_eq in Hload.
    destruct Hload as (v & ext & Hload & Hv).
    by exists v, (set_heap (heap w1 ++ ext) w1).
Qed.

(** ** More on writing a resource *)

(** X8.  [write_resource] works on the caller's own dict: once a call has
    returned, the record has lost its [format], and writing the same record
    again raises [KeyError] with nothing written. *)
Theorem write_resource_twice base_path w record w2 :
  write_resource (Raw record) base_path w = (Ok tt, w2) →
  write_resource (Raw record) base_path w2 = (Raise (KeyError "format"), w2).
Proof.
  intros Hwrite. unfold write_resource in Hwrite.
  rewrite (bind_ok _ _ _ record w) in Hwrite; [|done]. cbv beta in Hwrite.
  apply bind_inv in Hwrite as (name & w' & Hname & Hwrite).
  apply getitem_inv in Hname as (-> & lr & dr & -> & Hlr & Hname).
  rewrite (bind_ok _ _ _ (heap w) w) in Hwrite; [|done].
  cbv beta zeta in Hwrite.
  apply bind_inv in Hwrite as (f & wa & Hpop & Hwrite).
  apply pop_inv in Hpop as (l' & d' & [= <-] & Hl' & Hf & ->).
  rewrite Hlr in Hl'. injection Hl' as <-.
  set (wa := set_heap (<[lr := ODict (dict_pop "format" dr)]> (heap w)) w) in *.
  assert (Hla : heap wa !! lr = Some (ODict (dict_pop "format" dr))).
  { apply list_lookup_insert_eq. by eapply lookup_lt_Some. }
  apply bind_inv in Hwrite as (schema & w' & Hschema & Hwrite).
  apply getitem_world in Hschema as ->.
  apply bind_inv in Hwrite as (type & w' & Htype & Hwrite).
  apply get_world in Htype as ->.
  apply bind_inv in Hwrite as ([] & wb & Hset & Hwrite).
  assert (Hlb : ∃ d', heap wb !! lr = Some (ODict d') ∧
                      dict_get "format" d' = None ∧
                      dict_get "name" d' = Some name).
  { destruct (eq_str type "format").
    - apply setitem_inv in Hset as (l' & d0 & [= <-] & Hl0 & ->).
      rewrite Hla in Hl0. injection Hl0 as <-.
      eexists. split_and!.
      + apply list_lookup_insert_eq. by eapply lookup_lt_Some.
      + by rewrite dict_get_set_ne, dict_get_pop_eq.
      + by rewrite dict_get_set_ne, dict_get_pop_ne.
    - injection Hset as <-. eexists. split_and!; [done| |].
      + apply dict_get_pop_eq.
      + by rewrite dict_get_pop_ne. }
  destruct Hlb as (d' & Hlb & Hformat & Hname').
  apply bind_inv in Hwrite as ([] & wc & Hdump & Hwrite).
  apply dump_file_inv in Hdump as (jr & _ & ->).
  apply bind_inv in Hwrite as (dp & wd & Hload & Hwrite).
  apply load_file_inv in Hload as (j & h & _ & Hval & ->).
  cbn [heap set_files] in Hval.
  destruct (load_value_denotes _ _ _ _ Hval) as [[ext ->] Hden].
  apply bind_inv in Hwrite as (now & w' & Hnow & Hwrite).
  injection Hnow as <- <-.
  apply bind_inv in Hwrite as ([] & we & Hupd & Hwrite).
  apply setitem_inv in Hupd as (ldp & ddp & -> & Hldp & ->).
  apply denotes_ref in Hden as [Hbound _].
  apply dump_file_inv in Hwrite as (j2 & _ & ->).
  pose proof (lookup_lt_Some _ _ _ Hlb) as Hlt.
  set (w2 := set_files _ _).
  assert (Hl2 : heap w2 !! lr = Some (ODict d')).
  { unfold w2. cbn [heap set_files set_heap].
    rewrite list_lookup_insert_ne by lia. by apply lookup_app_l_Some. }
  unfold write_resource.
  rewrite (bind_ok _ _ _ (VRef lr) w2); [|done]. cbv beta.
  rewrite (bind_ok _ _ _ name w2); last first.
  { erewrite getitem_dict; [|done]. by rewrite Hname'. }
  cbv beta. rewrite (bind_ok _ _ _ (heap w2) w2); [|done]. cbv beta zeta.
  apply bind_raise. erewrite pop_dict; [|done]. by rewrite Hformat.
Qed.

(** X9.  The two writes of [write_resource] are separate: when the call
    fails because [datapackage.json] is missing, the resource file has
    been written all the same, without a [format], and the metadata is
    still missing. *)
Theorem write_resource_without_metadata resource base_path w record w1 w2 :
  as_record resource w = (Ok record, w1) →
  write_resource resource base_path w
    = (Raise (FileNotFoundError (base_path +:+ "/datapackage.json")), w2) →
  ∃ name kvs,
    getitem record "name" w1 = (Ok name, w1) ∧
    files w2 !! resource_path base_path (heap w1) name
      = Some (Doc (JObj kvs)) ∧
    dict_get "format" kvs = None ∧
    files w2 !! (base_path +:+ "/datapackage.json") = None.
Proof.
  intros Hrec Hwrite. unfold write_resource in Hwrite.
  rewrite (bind_ok _ _ _ _ _ Hrec) in Hwrite. cbv beta in Hwrite.
  apply bind_cases in Hwrite as [(name & w' & Hname & Hwrite)|(e & Hname & He)];
    last first.
  { unfold getitem in Hname. repeat case_match; simplify_eq. }
  pose proof (getitem_world _ _ _ _ _ Hname) as ->.
  rewrite (bind_ok _ _ _ (heap w1) w1) in Hwrite; [|done].
  cbv beta zeta in Hwrite.
  apply bind_cases in Hwrite as [(f & wa & Hpop & Hwrite)|(e & Hpop & He)];
    last first.
  { unfold pop in Hpop. repeat case_match; simplify_eq. }
  apply pop_inv in Hpop as (lr & dr & -> & Hlr & Hf & ->).
  set (wa := set_heap (<[lr := ODict (dict_pop "format" dr)]> (heap w1)) w1) in *.
  assert (Hla : heap wa !! lr = Some (ODict (dict_pop "format" dr))).
  { apply list_lookup_insert_eq. by eapply lookup_lt_Some. }
  apply bind_cases in Hwrite
    as [(schema & w' & Hschema & Hwrite)|(e & Hschema & He)]; last first.
  { unfold getitem in Hschema. repeat case_match; simplify_eq. }
  apply getitem_world in Hschema as ->.
  apply bind_cases in Hwrite as [(type & w' & Htype & Hwrite)|(e & Htype & He)];
    last first.
  { unfold get in Htype. repeat case_match; simplify_eq. }
  apply get_world in Htype as ->.
  apply bind_cases in Hwrite as [([] & wb & Hset & Hwrite)|(e & Hset & He)];
    last first.
  { destruct (eq_str type "format"); [|done].
    unfold setitem in Hset. repeat case_match; simplify_eq. }
  assert (Hlb : ∃ d', heap wb !! lr = Some (ODict d') ∧
                      dict_get "format" d' = None ∧ files wb = files w1).
  { destruct (eq_str type "format").
    - apply setitem_inv in Hset as (l' & d0 & [= <-] & Hl0 & ->).
      rewrite Hla in Hl0. injection Hl0 as <-.
      eexists. split_and!.
      + apply list_lookup_insert_eq. by eapply lookup_lt_Some.
      + by rewrite dict_get_set_ne, dict_get_pop_eq.
      + done.
    - injection Hset as <-. eexists. split_and!; [done| |done].
      apply dict_get_pop_eq. }
  destruct Hlb as (d' & Hlb & Hformat & Hfiles).
  apply bind_cases in Hwrite as [([] & wc & Hdump & Hwrite)|(e & Hdump & He)];
    last first.
  { unfold dump_file in Hdump. case_match; simplify_eq. }
  apply dump_file_inv in Hdump as (jr & Hdumps & ->).
  destruct (dumps_dict _ _ _ _ Hlb Hdumps) as (kvs & -> & _).
  apply bind_cases in Hwrite as [(dp & wd & Hload & Hwrite)|(e & Hload & He)].
  - exfalso. apply load_file_inv in Hload as (j & h & _ & _ & ->).
    apply bind_cases in Hwrite as [(now & w' & Hnow & Hwrite)|(e & Hnow & He)];
      [|done].
    injection Hnow as <- <-.
    apply bind_cases in Hwrite as [([] & we & Hupd & Hwrite)|(e & Hupd & He)].
    + unfold dump_file in Hwrite. case_match; simplify_eq.
    + unfold setitem in Hupd. repeat case_match; simplify_eq.
  - unfold load_file in Hload. cbn [files set_files heap] in Hload.
    destruct (_ !! (base_path +:+ "/datapackage.json")) as [[j|]|] eqn:Hdp;
      [destruct (load_value j (heap wb)); simplify_eq|simplify_eq|].
    injection Hload as <- <-.
    exists name, kvs. split_and!; [done| |by eapply dumps_dict_absent|done].
    cbn [files set_files]. apply lookup_insert_eq.
Qed.

(** ** A resource with a schema of its own *)

Lemma denotes_eq_str h a j b v s :
  denotes h a j b v → eq_str v s = true ↔ j = JStr s.
Proof.
  rewrite eq_str_true.
  destruct j as [ | x | z | s' | js | kvs ]; simpl.
  - intros ->. split; congruence.
  - intros ->. split; congruence.
  - intros ->. split; congruence.
  - intros ->. split; congruence.
  - intros (l & ? & -> & _). split; congruence.
  - intros (l & ? & -> & _). split; congruence.
Qed.

(** What [load_resource] does to the store when the resource has a schema
    other than [inherit-from-format]: the record is loaded at [r], the
    format after it, and the record's [format] is pointed at the schema of
    the format. *)
Lemma load_resource_own (resource_name format_name base_path : string)
    w rkvs sj fkvs fsj :
  files w !! resource_path base_path (heap w) (VStr resource_name)
    = Some (Doc (JObj rkvs)) →
  dict_get "schema" rkvs = Some sj →
  sj ≠ JStr "inherit-from-format" →
  files w !! (base_path +:+ "/" +:+ FORMATS_DIR +:+ "/" +:+ format_name
              +:+ ".json") = Some (Doc (JObj fkvs)) →
  dict_get "schema" fkvs = Some fsj →
  ∃ r d fv h2,
    (length (heap w) ≤ r < length h2)%nat ∧
    h2 !! r = Some (ODict d) ∧
    members_denote h2 (length (heap w)) r rkvs d ∧
    denotes h2 (S r) fsj (length h2) fv ∧
    load_resource (VStr resource_name) (VStr format_name) base_path true w =
    (Ok (Raw (VRef r)),
     set_heap (<[r := ODict (dict_set "format" fv d)]> h2) w).
Proof.
  intros Hrfile Hrschema Hown Hffile Hfschema.
  destruct (load_value (JObj rkvs) (heap w)) as [v1 h1] eqn:Hload1.
  destruct (load_value_denotes _ _ _ _ Hload1) as [_ Hden1].
  apply denotes_obj in Hden1 as (r & d & -> & Hr & Hhr & Hm).
  destruct (load_value (JObj fkvs) h1) as [v2 h2] eqn:Hload2.
  destruct (load_value_denotes _ _ _ _ Hload2) as [[e2 ->] Hden2].
  apply denotes_obj in Hden2 as (f & df & -> & Hf & Hhf & Hmf).
  pose proof (members_get _ _ _ _ _ "schema" Hmf) as Hfs.
  rewrite Hfschema in Hfs. destruct Hfs as (fv & Hfv & Hdenf).
  pose proof (members_get _ _ _ _ _ "schema" Hm) as Hrs.
  rewrite Hrschema in Hrs. destruct Hrs as (sv & Hsv & Hdens).
  assert (Hhr2 : (h1 ++ e2) !! r = Some (ODict d)) by by apply lookup_app_l_Some.
  pose proof (lookup_lt_Some _ _ _ Hhr2) as Hrlt.
  exists r, d, fv, (h1 ++ e2).
  split_and!; [lia|lia|done| | |].
  { eapply members_agree; [|exact Hm]. intros l' Hl'. apply lookup_app_l. lia. }
  { eapply denotes_weaken; [| |exact Hdenf]; lia. }
  unfold load_resource.
  rewrite (bind_ok _ _ _ (heap w) w); [|done]. cbv beta.
  rewrite (bind_ok _ _ _ (VRef r) (set_heap h1 w));
    [|by apply (load_file_value _ _ _ _ _ Hrfile)].
  cbv beta iota.
  set (ha := <[r := ODict (dict_set "format" fv d)]> (h1 ++ e2)).
  rewrite (bind_ok _ _ _ tt (set_heap ha w)); [done|]. cbv beta.
  rewrite (bind_ok _ _ _ h1 (set_heap h1 w)); [|done]. cbv beta.
  rewrite (bind_ok _ _ _ (VRef f) (set_heap (h1 ++ e2) w));
    [|by apply (load_file_value _ (set_heap h1 w) _ _ _ Hffile)].
  cbv beta.
  rewrite (bind_ok _ _ _ fv (set_heap (h1 ++ e2) w)); last first.
  { erewrite getitem_dict; [|done]. by rewrite Hfv. }
  cbv beta.
  rewrite (bind_ok _ _ _ tt (set_heap ha w)); [|by erewrite setitem_dict].
  assert (Hha : ha !! r = Some (ODict (dict_set "format" fv d))).
  { by apply list_lookup_insert_eq. }
  rewrite (bind_ok _ _ _ sv (set_heap ha w)); last first.
  { erewrite getitem_dict; [|done]. by rewrite dict_get_set_ne, Hsv. }
  cbv beta.
  destruct (eq_str sv "inherit-from-format") eqn:Heq; [|done].
  apply (denotes_eq_str _ _ _ _ _ _ Hdens) in Heq. done.
Qed.

(** The fields of a record that was loaded at [r] and then given a
    [format]: but for [format] they are those of the file. *)
Lemma field_json_loaded h a r rkvs d fv w k :
  members_denote h a r rkvs d → (r < length h)%nat → k ≠ "format" →
  field_json (set_heap (<[r := ODict (dict_set "format" fv d)]> h) w) (VRef r) k
  = dict_get k rkvs.
Proof.
  intros Hm Hr Hk. unfold field_json. cbn [heap set_heap].
  rewrite list_lookup_insert_eq by done. rewrite dict_get_set_ne by done.
  pose proof (members_get _ _ _ _ _ k Hm) as Hget.
  destruct (dict_get k rkvs) as [j|].
  - destruct Hget as (v & -> & Hv). simpl.
    eapply denotes_dumps, denotes_agree; [|exact Hv].
    intros l' Hl'. apply list_lookup_insert_ne. lia.
  - by rewrite Hget.
Qed.

(** X10.  A resource whose schema is anything but the string
    [inherit-from-format] keeps it when loaded with a format: its [format]
    is the schema of the format as the file has it, with no tag added, and
    every other field, the schema included, is as the resource file has
    it. *)
Theorem load_resource_own_schema (resource_name format_name base_path : string)
    w rkvs sj fkvs fsj :
  files w !! resource_path base_path (heap w) (VStr resource_name)
    = Some (Doc (JObj rkvs)) →
  dict_get "schema" rkvs = Some sj →
  sj ≠ JStr "inherit-from-format" →
  files w !! (base_path +:+ "/" +:+ FORMATS_DIR +:+ "/" +:+ format_name
              +:+ ".json") = Some (Doc (JObj fkvs)) →
  dict_get "schema" fkvs = Some fsj →
  ∃ record w',
    load_resource (VStr resource_name) (VStr format_name) base_path true w
      = (Ok (Raw record), w') ∧
    field_json w' record "format" = Some fsj ∧
    ∀ k, k ≠ "format" → field_json w' record k = dict_get k rkvs.
Proof.
  intros Hrfile Hrschema Hown Hffile Hfschema.
  destruct (load_resource_own _ _ _ _ _ _ _ _
              Hrfile Hrschema Hown Hffile Hfschema)
    as (r & d & fv & h2 & Hr & Hhr & Hm & Hfv & Hload).
  eexists _, _. split; [exact Hload|]. split.
  - unfold field_json. cbn [heap set_heap].
    rewrite list_lookup_insert_eq by lia. rewrite dict_get_set_eq. simpl.
    eapply denotes_dumps, denotes_agree; [|exact Hfv].
    intros l' Hl'. apply list_lookup_insert_ne. lia.
  - intros k Hk. apply (field_json_loaded _ _ _ _ _ _ _ _ Hm); [lia|done].
Qed.

(** A resource with a schema object of its own, loaded with a format and
    written back: what is written to the file of the resource, and what is
    left of [write_resource] after that. *)
Lemma write_loaded_own (resource_name format_name base_path name : string)
    w rkvs sch fkvs fsj :
  files w !! resource_path base_path (heap w) (VStr resource_name)
    = Some (Doc (JObj rkvs)) →
  dict_get "schema" rkvs = Some (JObj sch) →
  dict_get "name" rkvs = Some (JStr name) →
  files w !! (base_path +:+ "/" +:+ FORMATS_DIR +:+ "/" +:+ format_name
              +:+ ".json") = Some (Doc (JObj fkvs)) →
  dict_get "schema" fkvs = Some fsj →
  ∃ record w1 w3 persisted,
    load_resource (VStr resource_name) (VStr format_name) base_path true w
      = (Ok (Raw record), w1) ∧
    files w3 = <[resource_path base_path [] (VStr name)
                 := Doc (JObj persisted)]> (files w) ∧
    write_resource (Raw record) base_path w1 =
    (let! dp := load_file (base_path +:+ "/datapackage.json") in
     let! now := time_time in
     do! setitem dp "updated" (VInt now) in
     dump_file dp (base_path +:+ "/datapackage.json")) w3 ∧
    (dict_get "type" sch = Some (JStr "format") →
     persisted = dict_set "schema" (JStr "inherit-from-format")
                   (dict_pop "format" rkvs)) ∧
    (dict_get "type" sch ≠ Some (JStr "format") →
     persisted = dict_pop "format" rkvs).
Proof.
  intros Hrfile Hrschema Hrname Hffile Hfschema.
  destruct (load_resource_own _ _ _ _ _ _ _ _
              Hrfile Hrschema ltac:(done) Hffile Hfschema)
    as (r & d & fv & h2 & Hr & Hhr & Hm & Hfv & Hload).
  set (ha := <[r := ODict (dict_set "format" fv d)]> h2) in *.
  set (w1 := set_heap ha w) in *.
  assert (Hhar : heap w1 !! r = Some (ODict (dict_set "format" fv d))).
  { apply list_lookup_insert_eq. lia. }
  pose proof (members_get _ _ _ _ _ "name" Hm) as Hn. rewrite Hrname in Hn.
  destruct Hn as (nv & Hnv & Hnd). simpl in Hnd. subst nv.
  pose proof (members_get _ _ _ _ _ "schema" Hm) as Hs. rewrite Hrschema in Hs.
  destruct Hs as (sv & Hsv & Hsd).
  apply denotes_obj in Hsd as (s & sd & -> & Hsb & Hhs & Hms).
  set (hd := <[r := ODict (dict_pop "format" d)]> ha).
  assert (Hhdr : hd !! r = Some (ODict (dict_pop "format" d))).
  { apply list_lookup_insert_eq. unfold ha. rewrite length_insert. lia. }
  assert (Hhds : hd !! s = Some (ODict sd)).
  { unfold hd, ha. by rewrite !list_lookup_insert_ne by lia. }
  assert (Hstart :
    write_resource (Raw (VRef r)) base_path w1
    = (do! (if eq_str (default VNone (dict_get "type" sd)) "format"
            then setitem (VRef r) "schema" (VStr "inherit-from-format")
            else ret tt) in
       do! dump_file (VRef r) (resource_path base_path (heap w1) (VStr name)) in
       let! dp := load_file (base_path +:+ "/datapackage.json") in
       let! now := time_time in
       do! setitem dp "updated" (VInt now) in
       dump_file dp (base_path +:+ "/datapackage.json")) (set_heap hd w1)).
  { unfold write_resource.
    rewrite (bind_ok _ _ _ (VRef r) w1); [|done]. cbv beta.
    rewrite (bind_ok _ _ _ (VStr name) w1); last first.
    { erewrite getitem_dict; [|done]. by rewrite dict_get_set_ne, Hnv. }
    cbv beta. rewrite (bind_ok _ _ _ (heap w1) w1); [|done]. cbv beta zeta.
    rewrite (bind_ok _ _ _ fv (set_heap hd w1)); last first.
    { erewrite pop_dict; [|done].
      by rewrite dict_get_set_eq, dict_pop_set_eq. }
    rewrite (bind_ok _ _ _ (VRef s) (set_heap hd w1)); last first.
    { erewrite getitem_dict; [|done]. by rewrite dict_get_pop_ne, Hsv. }
    cbv beta.
    by rewrite (bind_ok _ _ _ _ _ (get_dict s sd "type" (set_heap hd w1) Hhds)). }
  assert (Htype : eq_str (default VNone (dict_get "type" sd)) "format" = true
                  ↔ dict_get "type" sch = Some (JStr "format")).
  { pose proof (members_get _ _ _ _ _ "type" Hms) as Ht.
    destruct (dict_get "type" sch) as [tj|].
    - destruct Ht as (tv & -> & Htd). simpl.
      rewrite (denotes_eq_str _ _ _ _ _ _ Htd). split; congruence.
    - rewrite Ht. simpl. split; congruence. }
  assert (Hframe : ∀ l', (length (heap w) ≤ l' < r)%nat → hd !! l' = h2 !! l').
  { intros l' Hl'. unfold hd, ha. by rewrite !list_lookup_insert_ne by lia. }
  destruct (eq_str (default VNone (dict_get "type" sd)) "format") eqn:Heq.
  - set (dl := dict_set "schema" (VStr "inherit-from-format")
                 (dict_pop "format" d)).
    set (he := <[r := ODict dl]> hd).
    exists (VRef r), w1,
      (set_files (<[resource_path base_path [] (VStr name)
                    := Doc (JObj (dict_set "schema" (JStr "inherit-from-format")
                                    (dict_pop "format" rkvs)))]> (files w))
         (set_heap he w)),
      (dict_set "schema" (JStr "inherit-from-format") (dict_pop "format" rkvs)).
    split_and!; [done|done| |done|].
    + rewrite Hstart, ?Heq.
      rewrite (bind_ok _ _ _ tt (set_heap he (set_heap hd w1)));
        [|by erewrite setitem_dict].
      rewrite (bind_ok _ _ _ tt
                 (set_files (<[resource_path base_path [] (VStr name)
                               := Doc (JObj (dict_set "schema"
                                               (JStr "inherit-from-format")
                                               (dict_pop "format" rkvs)))]>
                               (files w)) (set_heap he w))); [done|].
      unfold dump_file. cbn [heap set_heap].
      erewrite (denotes_dumps _ (length (heap w)) _ (S r)); [done|].
      apply denotes_obj. exists r, dl. split_and!; [done|lia|lia| |].
      * apply list_lookup_insert_eq. unfold hd, ha. rewrite !length_insert. lia.
      * apply members_set; [done|]. apply members_pop.
        eapply members_agree; [|exact Hm].
        intros l' Hl'. unfold he. rewrite list_lookup_insert_ne by lia.
        by apply Hframe.
    + intros Hno. destruct Hno. by apply Htype.
  - exists (VRef r), w1,
      (set_files (<[resource_path base_path [] (VStr name)
                    := Doc (JObj (dict_pop "format" rkvs))]> (files w))
         (set_heap hd w)),
      (dict_pop "format" rkvs).
    split_and!; [done|done| | |done].
    + rewrite Hstart, ?Heq.
      rewrite (bind_ok _ _ _ tt (set_heap hd w1)); [|done].
      rewrite (bind_ok _ _ _ tt
                 (set_files (<[resource_path base_path [] (VStr name)
                               := Doc (JObj (dict_pop "format" rkvs))]>
                               (files w)) (set_heap hd w))); [done|].
      unfold dump_file. cbn [heap set_heap].
      erewrite (denotes_dumps _ (length (heap w)) _ (S r)); [done|].
      apply denotes_obj. exists r, (dict_pop "format" d).
      split_and!; [done|lia|lia|done|].
      apply members_pop. eapply members_agree; [|exact Hm]. exact Hframe.
    + intros Hyes. by apply Htype in Hyes.
Qed.

(** X11.  A resource with a schema object of its own that is not tagged
    [type = "format"], loaded with a format and written back, is persisted
    as the record the file had, less any [format]: its schema is written
    out as it was, and the call returns when the metadata holds an
    object. *)
Theorem round_trip_own_schema (resource_name format_name base_path name : string)
    w rkvs sch fkvs fsj :
  files w !! resource_path base_path (heap w) (VStr resource_name)
    = Some (Doc (JObj rkvs)) →
  dict_get "schema" rkvs = Some (JObj sch) →
  dict_get "type" sch ≠ Some (JStr "format") →
  dict_get "name" rkvs = Some (JStr name) →
  files w !! (base_path +:+ "/" +:+ FORMATS_DIR +:+ "/" +:+ format_name
              +:+ ".json") = Some (Doc (JObj fkvs)) →
  dict_get "schema" fkvs = Some fsj →
  ∃ record w1,
    load_resource (VStr resource_name) (VStr format_name) base_path true w
      = (Ok (Raw record), w1) ∧
    (∀ r w2, write_resource (Raw record) base_path w1 = (r, w2) →
       files w2 !! resource_path base_path [] (VStr name)
         = Some (Doc (JObj (dict_pop "format" rkvs)))) ∧
    (∀ dpm,
       files w !! (base_path +:+ "/datapackage.json") = Some (Doc (JObj dpm)) →
       ∃ w2, write_resource (Raw record) base_path w1 = (Ok tt, w2)).
Proof.
  intros Hrfile Hrschema Htype Hrname Hffile Hfschema.
  destruct (write_loaded_own _ _ _ _ _ _ _ _ _
              Hrfile Hrschema Hrname Hffile Hfschema)
    as (record & w1 & w3 & persisted & Hload & Hfiles & Hwrite & _ & Hp).
  rewrite (Hp Htype) in Hfiles.
  exists record, w1. split; [done|]. rewrite Hwrite. split.
  - intros r w2 Hw.
    rewrite (update_metadata_other _ _ _ _ _ Hw)
      by apply resource_path_not_metadata.
    rewrite Hfiles. apply lookup_insert_eq.
  - intros dpm Hdp. apply (update_metadata_ok _ _ dpm).
    rewrite Hfiles, lookup_insert_ne; [done|].
    apply resource_path_not_metadata.
Qed.

(** X12.  The tag is all that [write_resource] looks at: a resource whose
    own schema on file has [type = "format"] loses it in the round trip.
    Loaded with a format and written back, its schema is persisted as
    [inherit-from-format]. *)
Theorem round_trip_tagged_schema (resource_name format_name base_path name : string)
    w rkvs sch fkvs fsj :
  files w !! resource_path base_path (heap w) (VStr resource_name)
    = Some (Doc (JObj rkvs)) →
  dict_get "schema" rkvs = Some (JObj sch) →
  dict_get "type" sch = Some (JStr "format") →
  dict_get "name" rkvs = Some (JStr name) →
  files w !! (base_path +:+ "/" +:+ FORMATS_DIR +:+ "/" +:+ format_name
              +:+ ".json") = Some (Doc (JObj fkvs)) →
  dict_get "schema" fkvs = Some fsj →
  ∃ record w1,
    load_resource (VStr resource_name) (VStr format_name) base_path true w
      = (Ok (Raw record), w1) ∧
    field_json w1 record "schema" = Some (JObj sch) ∧
    ∀ r w2, write_resource (Raw record) base_path w1 = (r, w2) →
      ∃ kvs,
        files w2 !! resource_path base_path [] (VStr name)
          = Some (Doc (JObj kvs)) ∧
        dict_get "schema" kvs = Some (JStr "inherit-from-format").
Proof.
  intros Hrfile Hrschema Htype Hrname Hffile Hfschema.
  destruct (write_loaded_own _ _ _ _ _ _ _ _ _
              Hrfile Hrschema Hrname Hffile Hfschema)
    as (record & w1 & w3 & persisted & Hload & Hfiles & Hwrite & Hp & _).
  rewrite (Hp Htype) in Hfiles.
  exists record, w1. split; [done|]. split.
  - destruct (load_resource_own _ _ _ _ _ _ _ _
                Hrfile Hrschema ltac:(done) Hffile Hfschema)
      as (r & d & fv & h2 & Hr & _ & Hm & _ & Hload').
    rewrite Hload in Hload'. injection Hload' as -> ->.
    rewrite (field_json_loaded _ _ _ _ _ _ _ _ Hm); [done|lia|done].
  - intros r w2 Hw. rewrite Hwrite in Hw. eexists. split.
    + rewrite (update_metadata_other _ _ _ _ _ Hw)
        by apply resource_path_not_metadata.
      rewrite Hfiles. apply lookup_insert_eq.
    + apply dict_get_set_eq.
Qed.

(** ** What [load_resource] needs *)

(** X13.  [load_resource] opens the resource first and the format second,
    and reads the schema of the resource only after the format is
    attached: a missing resource file is a [FileNotFoundError] for its path
    with nothing changed, whatever the format; a missing format file is a
    [FileNotFoundError] for the path of the format; and a resource that has
    no [schema] makes the call raise [KeyError] once a format is named.  No
    file is written in any of these. *)
Theorem load_resource_missing (resource_name : string) base_path as_dict w :
  (∀ format_name,
     files w !! resource_path base_path (heap w) (VStr resource_name) = None →
     load_resource (VStr resource_name) format_name base_path as_dict w
     = (Raise (FileNotFoundError
                 (resource_path base_path (heap w) (VStr resource_name))), w)) ∧
  (∀ rkvs (format_name : string),
     files w !! resource_path base_path (heap w) (VStr resource_name)
       = Some (Doc (JObj rkvs)) →
     files w !! (base_path +:+ "/" +:+ FORMATS_DIR +:+ "/" +:+ format_name
                 +:+ ".json") = None →
     ∃ w',
       load_resource (VStr resource_name) (VStr format_name) base_path
         as_dict w
       = (Raise (FileNotFoundError
                   (base_path +:+ "/" +:+ FORMATS_DIR +:+ "/" +:+ format_name
                    +:+ ".json")), w') ∧
       files w' = files w) ∧
  (∀ rkvs (format_name : string) fkvs fsj,
     files w !! resource_path base_path (heap w) (VStr resource_name)
       = Some (Doc (JObj rkvs)) →
     dict_get "schema" rkvs = None →
     files w !! (base_path +:+ "/" +:+ FORMATS_DIR +:+ "/" +:+ format_name
                 +:+ ".json") = Some (Doc (JObj fkvs)) →
     dict_get "schema" fkvs = Some fsj →
     ∃ w',
       load_resource (VStr resource_name) (VStr format_name) base_path
         as_dict w = (Raise (KeyError "schema"), w') ∧
       files w' = files w).
Proof.
  split_and!.
  - intros format_name Hfile. unfold load_resource.
    rewrite (bind_ok _ _ _ (heap w) w); [|done]. cbv beta.
    apply bind_raise. unfold load_file. by rewrite Hfile.
  - intros rkvs format_name Hrfile Hffile.
    destruct (load_value (JObj rkvs) (heap w)) as [v1 h1] eqn:Hload1.
    exists (set_heap h1 w). split; [|done]. unfold load_resource.
    rewrite (bind_ok _ _ _ (heap w) w); [|done]. cbv beta.
    rewrite (bind_ok _ _ _ v1 (set_heap h1 w));
      [|by apply (load_file_value _ _ _ _ _ Hrfile)].
    cbv beta iota. apply bind_raise.
    rewrite (bind_ok _ _ _ h1 (set_heap h1 w)); [|done]. cbv beta.
    apply bind_raise. unfold load_file. cbn [files set_heap format_value].
    by rewrite Hffile.
  - intros rkvs format_name fkvs fsj Hrfile Hrschema Hffile Hfschema.
    destruct (load_value (JObj rkvs) (heap w)) as [v1 h1] eqn:Hload1.
    destruct (load_value_denotes _ _ _ _ Hload1) as [_ Hden1].
    apply denotes_obj in Hden1 as (r & d & -> & Hr & Hhr & Hm).
    destruct (load_value (JObj fkvs) h1) as [v2 h2] eqn:Hload2.
    destruct (load_value_denotes _ _ _ _ Hload2) as [[e2 ->] Hden2].
    apply denotes_obj in Hden2 as (f & df & -> & Hf & Hhf & Hmf).
    pose proof (members_get _ _ _ _ _ "schema" Hmf) as Hfs.
    rewrite Hfschema in Hfs. destruct Hfs as (fv & Hfv & _).
    pose proof (members_get _ _ _ _ _ "schema" Hm) as Hrs.
    rewrite Hrschema in Hrs.
    assert (Hhr2 : (h1 ++ e2) !! r = Some (ODict d)) by by apply lookup_app_l_Some.
    set (ha := <[r := ODict (dict_set "format" fv d)]> (h1 ++ e2)).
    exists (set_heap ha w). split; [|done]. unfold load_resource.
    rewrite (bind_ok _ _ _ (heap w) w); [|done]. cbv beta.
    rewrite (bind_ok _ _ _ (VRef r) (set_heap h1 w));
      [|by apply (load_file_value _ _ _ _ _ Hrfile)].
    cbv beta iota. apply bind_raise.
    rewrite (bind_ok _ _ _ h1 (set_heap h1 w)); [|done]. cbv beta.
    rewrite (bind_ok _ _ _ (VRef f) (set_heap (h1 ++ e2) w));
      [|by apply (load_file_value _ (set_heap h1 w) _ _ _ Hffile)].
    cbv beta.
    rewrite (bind_ok _ _ _ fv (set_heap (h1 ++ e2) w)); last first.
    { erewrite getitem_dict; [|done]. by rewrite Hfv. }
    cbv beta.
    rewrite (bind_ok _ _ _ tt (set_heap ha w)); [|by erewrite setitem_dict].
    apply bind_raise.
    rewrite (getitem_dict r (dict_set "format" fv d)).
    + rewrite dict_get_set_ne by done. by rewrite Hrs.
    + apply list_lookup_insert_eq. by eapply lookup_lt_Some.
Qed.

(** ** Loading only reads *)

Lemma reads_only_refl w : reads_only w w.
Proof. by unfold reads_only. Qed.

Lemma reads_only_trans w1 w2 w3 :
  reads_only w1 w2 → reads_only w2 w3 → reads_only w1 w3.
Proof.
  intros (Hf & Hr & Hc & Hu & Hh) (Hf' & Hr' & Hc' & Hu' & Hh').
  unfold reads_only. split_and!; [congruence..|]. eauto.
Qed.

Lemma reads_only_length w w' :
  reads_only w w' → (length (heap w) ≤ length (heap w'))%nat.
Proof.
  intros (_ & _ & _ & _ & Hh).
  destruct (heap w) as [|o h] eqn:Hw using rev_ind; [simpl; lia|].
  clear IHh. specialize (Hh (length h) o).
  rewrite lookup_app_r, Nat.sub_diag in Hh by lia.
  specialize (Hh eq_refl). apply lookup_lt_Some in Hh.
  rewrite length_app. simpl. lia.
Qed.

Lemma reads_only_grow h w : reads_only w (set_heap (heap w ++ h) w).
Proof.
  unfold reads_only. split_and!; [done..|].
  intros l o Hl. by apply lookup_app_l_Some.
Qed.

Lemma load_file_reads_only path w r w' :
  load_file path w = (r, w') → reads_only w w'.
Proof.
  unfold load_file. intros H.
  destruct (files w !! path) as [[j|]|]; try (injection H as <- <-; apply reads_only_refl).
  destruct (load_value j (heap w)) as [v h] eqn:Hval.
  injection H as <- <-.
  destruct (load_value_denotes _ _ _ _ Hval) as [[ext ->] _].
  apply reads_only_grow.
Qed.

Lemma load_file_fresh path w v w' :
  load_file path w = (Ok v, w') →
  ∃ j, denotes (heap w') (length (heap w)) j (length (heap w')) v.
Proof.
  intros H. apply load_file_inv in H as (j & h & _ & Hval & ->).
  exists j. by destruct (load_value_denotes _ _ _ _ Hval) as [_ Hden].
Qed.

Lemma denotes_member_fresh h a j b l d k s :
  denotes h a j b (VRef l) → h !! l = Some (ODict d) →
  dict_get k d = Some (VRef s) → (a ≤ s)%nat.
Proof.
  intros Hden Hl Hk.
  destruct (denotes_dict_obj _ _ _ _ _ _ Hden Hl) as (kvs & -> & Hm).
  pose proof (dict_get_rel (λ j v, denotes h a j l v) k kvs d Hm) as Hget.
  rewrite Hk in Hget. inversion Hget as [j' v' Hj|]; subst.
  apply denotes_ref in Hj. lia.
Qed.

(** Storing into an object that [w0] did not have cannot be seen from
    [w0]. *)
Lemma setitem_fresh w0 o k v w r w' :
  reads_only w0 w →
  (∀ l, o = VRef l → (length (heap w0) ≤ l)%nat) →
  setitem o k v w = (r, w') →
  reads_only w0 w'.
Proof.
  intros H0 Hfresh H. unfold setitem in H.
  destruct o as [ | | | |l]; try (by injection H as <- <-).
  destruct (heap w !! l) as [[d|xs]|] eqn:Hl; try (by injection H as <- <-).
  injection H as <- <-.
  destruct H0 as (Hf & Hr & Hc & Hu & Hh).
  unfold reads_only. split_and!; [done..|].
  intros l' o' Hl'. cbn [heap set_heap].
  rewrite list_lookup_insert_ne; [by apply Hh|].
  intros ->. specialize (Hfresh l' eq_refl).
  apply lookup_lt_Some in Hl'. lia.
Qed.

(** X14.  Loading a resource as a dict only reads: whatever the names and
    whatever the outcome, no file is written, no container is asked for, and
    every object that existed before the call is left as it was.  The merge
    of the format writes into the objects the call itself has just made. *)
Theorem load_resource_reads_only resource_name format_name base_path w r w' :
  load_resource resource_name format_name base_path true w = (r, w') →
  reads_only w w'.
Proof.
  unfold load_resource. intros H.
  rewrite (bind_ok _ _ _ (heap w) w) in H; [|done]. cbv beta in H.
  apply bind_cases in H as [(rj & w1 & Hload & H)|(e & Hload & ->)];
    [|by eapply load_file_reads_only].
  pose proof (load_file_reads_only _ _ _ _ Hload) as H01.
  apply load_file_fresh in Hload as (j & Hden).
  assert (Hrj : ∀ l, rj = VRef l → (length (heap w) ≤ l)%nat).
  { intros l ->. apply denotes_ref in Hden. lia. }
  match type of H with
  | bind ?m _ _ = _ =>
      assert (Hm : ∀ r2 w2, m w1 = (r2, w2) → reads_only w w2)
  end.
  { clear H. intros r2 w2 Hm.
    destruct format_name.
    1: { apply bind_cases in Hm as [(p & w2' & Halloc & Hm)|(e & Halloc & ->)];
           [|done].
         unfold alloc in Halloc. injection Halloc as <- <-.
         eapply setitem_fresh; [|exact Hrj|exact Hm].
         eapply reads_only_trans; [exact H01|]. apply reads_only_grow. }
    all: rewrite (bind_ok _ _ _ (heap w1) w1) in Hm; [|done]; cbv beta in Hm.
    all: apply bind_cases in Hm as [(fmt & w2' & Hloadf & Hm)|(e & Hloadf & ->)];
      [|by eapply reads_only_trans; [exact H01|eapply load_file_reads_only]].
    all: pose proof (load_file_reads_only _ _ _ _ Hloadf) as H12.
    all: pose proof (reads_only_trans _ _ _ H01 H12) as H02.
    all: pose proof (reads_only_length _ _ H01) as Hlen.
    all: apply load_file_fresh in Hloadf as (jf & Hdenf).
    all: apply bind_cases in Hm as [(fs & w3 & Hget & Hm)|(e & Hget & ->)];
      [|by apply getitem_world in Hget as ->].
    all: apply getitem_inv in Hget as (-> & lf & df & -> & Hhf & Hfs).
    all: assert (Hfresh : ∀ a, fs = VRef a → (length (heap w) ≤ a)%nat)
      by (intros a ->;
          pose proof (denotes_member_fresh _ _ _ _ _ _ _ _ Hdenf Hhf Hfs); lia).
    all: apply bind_cases in Hm as [([] & w3 & Hset & Hm)|(e & Hset & ->)];
      [|by eapply setitem_fresh; [exact H02|exact Hrj|exact Hset]].
    all: pose proof (setitem_fresh _ _ _ _ _ _ _ H02 Hrj Hset) as H03.
    all: apply setitem_inv in Hset as (lr & dr & -> & Hhr & ->).
    all: apply bind_cases in Hm as [(schema & w4 & Hget & Hm)|(e & Hget & ->)];
      [|by apply getitem_world in Hget as ->].
    all: apply getitem_world in Hget as ->.
    all: destruct (eq_str schema "inherit-from-format");
      [|by injection Hm as <- <-].
    all: apply bind_cases in Hm as [(f & w4 & Hget & Hm)|(e & Hget & ->)];
      [|by apply getitem_world in Hget as ->].
    all: apply getitem_inv in Hget as (-> & l1 & d1 & [= <-] & Hh1 & Hf).
    all: cbn [heap set_heap] in Hh1;
      rewrite list_lookup_insert_eq in Hh1 by (by eapply lookup_lt_Some);
      injection Hh1 as <-; rewrite dict_get_set_eq in Hf; injection Hf as <-.
    all: apply bind_cases in Hm as [([] & w4 & Hset & Hm)|(e & Hset & ->)];
      [|by eapply setitem_fresh; [exact H03|exact Hrj|exact Hset]].
    all: pose proof (setitem_fresh _ _ _ _ _ _ _ H03 Hrj Hset) as H04.
    all: apply setitem_inv in Hset as (l2 & d2 & [= <-] & Hh2 & ->).
    all: apply bind_cases in Hm as [(tagged & w5 & Hget & Hm)|(e & Hget & ->)];
      [|by apply getitem_world in Hget as ->].
    all: apply getitem_inv in Hget as (-> & l3 & d3 & [= <-] & Hh3 & Hs).
    all: cbn [heap set_heap] in Hh3;
      rewrite list_lookup_insert_eq in Hh3 by (by eapply lookup_lt_Some);
      injection Hh3 as <-; rewrite dict_get_set_eq in Hs; injection Hs as <-.
    all: by eapply setitem_fresh; [exact H04|exact Hfresh|exact Hm]. }
  apply bind_cases in H as [([] & w2 & Hmerge & H)|(e & Hmerge & ->)];
    [|by eapply Hm].
  injection H as <- <-. by eapply Hm.
Qed.

(** ** What [execute_view] leaves alone *)

Lemma check_populated_reads_only base_path resource_name w r w' :
  check_populated base_path resource_name w = (r, w') → reads_only w w'.
Proof.
  unfold check_populated. intros H.
  rewrite (bind_ok _ _ _ (heap w) w) in H; [|done]. cbv beta in H.
  apply bind_cases in H as [(v & w1 & Hload & H)|(e & Hload & ->)];
    [|by eapply load_file_reads_only].
  apply load_file_reads_only in Hload.
  apply bind_cases in H as [(data & w2 & Hget & H)|(e & Hget & ->)];
    [|by apply getitem_world in Hget as ->].
  apply getitem_world in Hget as ->.
  rewrite (bind_ok _ _ _ (heap w1) w1) in H; [|done]. cbv beta in H.
  by destruct (negb _); injection H as <- <-.
Qed.

Lemma for_each_reads_only base_path names w r w' :
  for_each names (check_populated base_path) w = (r, w') → reads_only w w'.
Proof.
  revert w. induction names as [|name names IH]; intros w H; simpl in H.
  - injection H as <- <-. apply reads_only_refl.
  - apply bind_cases in H as [([] & w1 & Hcheck & H)|(e & Hcheck & ->)].
    + eapply reads_only_trans; [by eapply check_populated_reads_only|by apply IH].
    + by eapply check_populated_reads_only.
Qed.

(** X15.  Whatever the view file holds and however the call ends,
    [execute_view] asks for at most one container, with [VIEW] set to the
    name of the view.  When it asked for none it has only read: no file was
    written and no object that existed was touched.  When it asked for one,
    that request is the only thing through which a file can have changed,
    and the objects that existed are as they were. *)
Theorem execute_view_reads_or_runs docker_client view_name base_path w r w' :
  execute_view docker_client view_name base_path w = (r, w') →
  reads_only w w' ∨
  ∃ image w1,
    reads_only w w1 ∧
    run_calls w' =
      run_calls w
      ++ [container_request image [("VIEW", view_name)] base_path (uid w)] ∧
    heap w' = heap w1 ∧
    match containers_run docker_client
            (container_request image [("VIEW", view_name)] base_path (uid w))
            (files w) with
    | Ok (c, fs) => files w' = fs
    | Raise e => files w' = files w ∧ r = Raise e
    end.
Proof.
  unfold execute_view, load_view. intros H.
  apply bind_cases in H as [(view & w1 & Hload & H)|(e & Hload & ->)];
    [|left; by eapply load_file_reads_only].
  apply load_file_reads_only in Hload as H01.
  apply bind_cases in H as [(resources & w2 & Hget & H)|(e & Hget & ->)];
    [|left; by apply getitem_world in Hget as ->].
  apply getitem_world in Hget as ->.
  apply bind_cases in H as [(names & w2 & Hiter & H)|(e & Hiter & ->)];
    last first.
  { left. unfold iter in Hiter. by repeat case_match; simplify_eq. }
  assert (w2 = w1) as -> by (unfold iter in Hiter; by repeat case_match; simplify_eq).
  apply bind_cases in H as [([] & w2 & Hloop & H)|(e & Hloop & ->)];
    last first.
  { left. eapply reads_only_trans; [exact H01|by eapply for_each_reads_only]. }
  apply for_each_reads_only in Hloop.
  pose proof (reads_only_trans _ _ _ H01 Hloop) as H02.
  apply bind_cases in H as [(image & w3 & Hget & H)|(e & Hget & ->)];
    [|left; by apply getitem_world in Hget as ->].
  apply getitem_world in Hget as ->.
  right. exists image, w2. split; [done|].
  destruct H02 as (Hf & Hr & _ & Hu & _).
  rewrite execute_container_unfold in H. rewrite <-Hr, <-Hf, <-Hu.
  destruct (containers_run docker_client _ (files w2)) as [[c fs]|e];
    injection H as <- <-; by split_and!.
Qed.

(** ** A declared resource that cannot be read *)

(** The exception of [json.load(f)["data"]] on a resource file that gives no
    [data]. *)
Lemma check_populated_unreadable base_path (name : string) w :
  resource_data (files w) base_path name = None →
  ∃ w',
    check_populated base_path (VStr name) w =
    (Raise match files w !! resource_path base_path [] (VStr name) with
           | None =>
               FileNotFoundError (resource_path base_path [] (VStr name))
           | Some Garbage => JSONDecodeError
           | Some (Doc (JObj _)) => KeyError "data"
           | Some (Doc _) => TypeError
           end, w').
Proof.
  unfold resource_data, check_populated. intros Hdata.
  rewrite (bind_ok _ _ _ (heap w) w); [|done]. cbv beta.
  replace (resource_path base_path (heap w) (VStr name))
    with (resource_path base_path [] (VStr name)) by done.
  destruct (files w !! resource_path base_path [] (VStr name))
    as [[j|]|] eqn:Hfile.
  - destruct (load_value j (heap w)) as [v h1] eqn:Hval.
    exists (set_heap h1 w).
    rewrite (bind_ok _ _ _ v (set_heap h1 w));
      [|by apply (load_file_value _ _ _ _ _ Hfile)].
    cbv beta. apply bind_raise.
    destruct (load_value_denotes _ _ _ _ Hval) as [_ Hden].
    destruct j as [ | x | z | s | js | kvs ]; simpl in Hden; subst; try done.
    + apply denotes_arr in Hden as (l & vs & -> & _ & Hl & _).
      unfold getitem. cbn [heap set_heap]. by rewrite Hl.
    + apply denotes_obj in Hden as (l & d & -> & _ & Hl & Hm).
      pose proof (members_get _ _ _ _ _ "data" Hm) as Hd. rewrite Hdata in Hd.
      rewrite (getitem_dict l d); [|done]. by rewrite Hd.
  - exists w. apply bind_raise. unfold load_file. by rewrite Hfile.
  - exists w. apply bind_raise. unfold load_file. by rewrite Hfile.
Qed.

(** X16.  A declared resource whose file gives no [data] stops
    [execute_view] with the exception of the read itself, provided those
    declared before it are populated: [FileNotFoundError] for a missing
    file, [JSONDecodeError] for a file that is not JSON, [KeyError] for an
    object without [data], [TypeError] for a document that is no object.
    No container is asked for and no file is written. *)
Theorem execute_view_unreadable_resource docker_client view_name base_path w
    vkvs before name after :
  files w !! (base_path +:+ "/" +:+ VIEWS_DIR +:+ "/" +:+ view_name +:+ ".json")
    = Some (Doc (JObj vkvs)) →
  dict_get "resources" vkvs = Some (JArr (map JStr (before ++ name :: after))) →
  Forall (populated (files w) base_path) before →
  resource_data (files w) base_path name = None →
  ∃ w',
    execute_view docker_client view_name base_path w =
    (Raise match files w !! (base_path +:+ "/" +:+ RESOURCES_DIR +:+ "/"
                             +:+ name +:+ ".json") with
           | None =>
               FileNotFoundError (base_path +:+ "/" +:+ RESOURCES_DIR +:+ "/"
                                  +:+ name +:+ ".json")
           | Some Garbage => JSONDecodeError
           | Some (Doc (JObj _)) => KeyError "data"
           | Some (Doc _) => TypeError
           end, w') ∧
    run_calls w' = run_calls w ∧ files w' = files w.
Proof.
  intros Hfile Hres Hbefore Hname.
  destruct (execute_view_loaded docker_client _ _ _ _ _ Hfile Hres)
    as (lv & d & h1 & Hlv & Hm & ->).
  assert (Hloop : ∀ w1, files w1 = files w →
    ∃ w', for_each (map VStr (before ++ name :: after))
            (check_populated base_path) w1 =
          (Raise match files w !! resource_path base_path [] (VStr name) with
                 | None =>
                     FileNotFoundError (resource_path base_path [] (VStr name))
                 | Some Garbage => JSONDecodeError
                 | Some (Doc (JObj _)) => KeyError "data"
                 | Some (Doc _) => TypeError
                 end, w')).
  { clear Hres. induction Hbefore as [|b before Hb _ IH]; intros w1 Hw1; simpl.
    - rewrite <-Hw1 in Hname.
      destruct (check_populated_unreadable _ _ _ Hname) as [w' Hcheck].
      exists w'. apply bind_raise. by rewrite <-Hw1.
    - rewrite <-Hw1 in Hb.
      destruct (check_populated_ok _ _ _ Hb) as [w2 Hcheck].
      pose proof (check_populated_inv _ _ _ _ _ Hcheck) as (Hf & _).
      destruct (IH w2) as [w' Hrest]; [congruence|].
      exists w'. by rewrite (bind_ok _ _ _ _ _ Hcheck). }
  destruct (Hloop (set_heap h1 w) eq_refl) as [w' Hraise].
  exists w'. split; [by apply bind_raise|].
  by apply check_all_inv in Hraise as (-> & -> & _).
Qed.

(** ** The keys of a binding *)

(** Up to the first binding of the variable: what is left of
    [load_resource_by_variable] is the two lookups in that binding and the
    load. *)
Lemma load_resource_by_variable_first
    (variable_name configuration_name base_path : string) as_dict w ckvs
    before binding after :
  files w !! (base_path +:+ "/" +:+ CONFIGURATIONS_DIR +:+ "/"
              +:+ configuration_name +:+ ".json") = Some (Doc (JObj ckvs)) →
  dict_get "data" ckvs = Some (JArr (before ++ JObj binding :: after)) →
  Forall (λ b, binds variable_name b = false) before →
  dict_get "name" binding = Some (JStr variable_name) →
  ∃ h1 lb db,
    h1 !! lb = Some (ODict db) ∧
    (∃ a, members_denote h1 a lb binding db) ∧
    load_resource_by_variable variable_name configuration_name base_path
      as_dict w
    = (let! resource_name := getitem (VRef lb) "resource" in
       let! format_name := getitem (VRef lb) "format" in
       load_resource resource_name format_name base_path as_dict)
        (set_heap h1 w).
Proof.
  intros Hfile Hdata Hbefore Hname.
  destruct (load_value (JObj ckvs) (heap w)) as [v h1] eqn:Hval.
  destruct (load_value_denotes _ _ _ _ Hval) as [_ Hden].
  apply denotes_obj in Hden as (lc & d & -> & _ & Hlc & Hm).
  pose proof (members_get _ _ _ _ _ "data" Hm) as Hd. rewrite Hdata in Hd.
  destruct Hd as (dv & Hdv & Hden).
  apply denotes_arr in Hden as (la & vs & -> & _ & Hla & Hi).
  apply Forall2_app_inv_l in Hi as (vbefore & vrest & Hvb & Hvr & ->).
  apply Forall2_cons_inv_l in Hvr as (bv & vafter & Hbv & _ & ->).
  assert (Hfirst :
    default VNone
      (head (filter (λ i, has_name h1 variable_name i = true)
               (vbefore ++ bv :: vafter))) = bv).
  { rewrite (find_first _ _ _ bv); [done| |].
    - clear -Hvb Hbefore. induction Hvb as [|j v js vs Hj _ IH]; [constructor|].
      inversion Hbefore; subst. constructor; [|by apply IH].
      by rewrite (has_name_binds _ _ _ _ _ _ Hj).
    - rewrite (has_name_binds _ _ _ _ _ _ Hbv). simpl. rewrite Hname.
      by apply bool_decide_eq_true. }
  apply denotes_obj in Hbv as (lb & db & -> & _ & Hlb & Hmb).
  exists h1, lb, db. split_and!; [done|by eexists|].
  unfold load_resource_by_variable, load_configuration.
  rewrite (bind_ok _ _ _ (VRef lc) (set_heap h1 w));
    [|by apply (load_file_value _ _ _ _ _ Hfile)].
  cbv beta. rewrite (bind_ok _ _ _ (VRef la) (set_heap h1 w)); last first.
  { erewrite getitem_dict; [|done]. by rewrite Hdv. }
  cbv beta.
  rewrite (bind_ok _ _ _ (VRef lb) (set_heap h1 w)); [done|].
  unfold find_by_name.
  rewrite (bind_ok _ _ _ (vbefore ++ VRef lb :: vafter) (set_heap h1 w));
    last first.
  { unfold iter. simpl. by rewrite Hla. }
  cbv beta. rewrite (bind_ok _ _ _ h1 (set_heap h1 w)); [|done].
  cbv beta. unfold ret. by rewrite Hfirst.
Qed.

(** X17.  The first binding of the variable must have both a [resource] and
    a [format] key: without [resource] the call raises [KeyError] for it,
    and with a [resource] but no [format] it raises [KeyError] for [format];
    the resource file is not opened in either case.  A [format] that is
    [null] is not an error: the resource is loaded as without a format. *)
Theorem load_resource_by_variable_binding_keys
    (variable_name configuration_name base_path : string) as_dict w ckvs
    before binding after :
  files w !! (base_path +:+ "/" +:+ CONFIGURATIONS_DIR +:+ "/"
              +:+ configuration_name +:+ ".json") = Some (Doc (JObj ckvs)) →
  dict_get "data" ckvs = Some (JArr (before ++ JObj binding :: after)) →
  Forall (λ b, binds variable_name b = false) before →
  dict_get "name" binding = Some (JStr variable_name) →
  ∃ w1,
    files w1 = files w ∧
    (dict_get "resource" binding = None →
     load_resource_by_variable variable_name configuration_name base_path
       as_dict w = (Raise (KeyError "resource"), w1)) ∧
    (is_Some (dict_get "resource" binding) →
     dict_get "format" binding = None →
     load_resource_by_variable variable_name configuration_name base_path
       as_dict w = (Raise (KeyError "format"), w1)) ∧
    (∀ resource_name : string,
       dict_get "resource" binding = Some (JStr resource_name) →
       dict_get "format" binding = Some JNull →
       load_resource_by_variable variable_name configuration_name base_path
         as_dict w
       = load_resource (VStr resource_name) VNone base_path as_dict w1).
Proof.
  intros Hfile Hdata Hbefore Hname.
  destruct (load_resource_by_variable_first _ _ _ as_dict _ _ _ _ _
              Hfile Hdata Hbefore Hname)
    as (h1 & lb & db & Hlb & [a Hmb] & ->).
  exists (set_heap h1 w). split; [done|].
  pose proof (members_get _ _ _ _ _ "resource" Hmb) as Hr.
  pose proof (members_get _ _ _ _ _ "format" Hmb) as Hf.
  split_and!.
  - intros Hnone. rewrite Hnone in Hr. apply bind_raise.
    rewrite (getitem_dict lb db); [|done]. by rewrite Hr.
  - intros [rj Hrj] Hnone. rewrite Hrj in Hr. rewrite Hnone in Hf.
    destruct Hr as (rv & Hrv & _).
    rewrite (bind_ok _ _ _ rv (set_heap h1 w)); last first.
    { rewrite (getitem_dict lb db); [|done]. by rewrite Hrv. }
    cbv beta. apply bind_raise.
    rewrite (getitem_dict lb db); [|done]. by rewrite Hf.
  - intros resource_name Hrj Hfj. rewrite Hrj in Hr. rewrite Hfj in Hf.
    destruct Hr as (rv & Hrv & Hrd). simpl in Hrd. subst rv.
    destruct Hf as (fv & Hfv & Hfd). simpl in Hfd. subst fv.
    rewrite (bind_ok _ _ _ (VStr resource_name) (set_heap h1 w)); last first.
    { rewrite (getitem_dict lb db); [|done]. by rewrite Hrv. }
    cbv beta.
    rewrite (bind_ok _ _ _ VNone (set_heap h1 w)); [done|].
    rewrite (getitem_dict lb db); [|done]. by rewrite Hfv.
Qed.

(** ** What [write_resource] touches *)

Lemma set_heap_self w : w = set_heap (heap w) w.
Proof. by destruct w. Qed.

Lemma pop_heap_only o k w r w' : pop o k w = (r, w') → ∃ h, w' = set_heap h w.
Proof.
  unfold pop. intros H.
  repeat case_match; simplify_eq; eauto using set_heap_self.
Qed.

Lemma setitem_heap_only o k v w r w' :
  setitem o k v w = (r, w') → ∃ h, w' = set_heap h w.
Proof.
  unfold setitem. intros H.
  repeat case_match; simplify_eq; eauto using set_heap_self.
Qed.

Lemma load_file_heap_only path w r w' :
  load_file path w = (r, w') → ∃ h, w' = set_heap h w.
Proof.
  unfold load_file. intros H.
  repeat case_match; simplify_eq; eauto using set_heap_self.
Qed.

Lemma dump_file_calls v path w r w' :
  dump_file v path w = (r, w') →
  run_calls w' = run_calls w ∧ clock w' = clock w.
Proof. unfold dump_file. intros H. by case_match; simplify_eq. Qed.

Lemma update_metadata_calls base_path w r w' :
  (let! dp := load_file (base_path +:+ "/datapackage.json") in
   let! now := time_time in
   do! setitem dp "updated" (VInt now) in
   dump_file dp (base_path +:+ "/datapackage.json")) w = (r, w') →
  run_calls w' = run_calls w ∧ clock w' = clock w.
Proof.
  intros H.
  apply bind_cases in H as [(dp & w1 & Hload & H)|(e & Hload & ->)];
    [|by apply load_file_heap_only in Hload as [h ->]].
  apply load_file_heap_only in Hload as [h1 ->].
  apply bind_cases in H as [(now & w2 & Hnow & H)|(e & Hnow & ->)]; [|done].
  injection Hnow as <- <-.
  apply bind_cases in H as [(u & w3 & Hset & H)|(e & Hset & ->)];
    [|by apply setitem_heap_only in Hset as [h ->]].
  apply setitem_heap_only in Hset as [h2 ->].
  by apply dump_file_calls in H.
Qed.

(** X18.  Whatever its outcome, [write_resource] touches no file other than
    the file of the resource it was given, named by the record's [name],
    and [datapackage.json]; it asks for no container and leaves the clock
    alone. *)
Theorem write_resource_footprint resource base_path w record w1 r w2 :
  as_record resource w = (Ok record, w1) →
  write_resource resource base_path w = (r, w2) →
  run_calls w2 = run_calls w1 ∧ clock w2 = clock w1 ∧
  ∀ path,
    path ≠ base_path +:+ "/datapackage.json" →
    (∀ name, getitem record "name" w1 = (Ok name, w1) →
             path ≠ resource_path base_path (heap w1) name) →
    files w2 !! path = files w1 !! path.
Proof.
  intros Hrec H. unfold write_resource in H.
  rewrite (bind_ok _ _ _ record w1 Hrec) in H. cbv beta in H.
  apply bind_cases in H as [(name & w' & Hname & H)|(e & Hname & ->)];
    last first.
  { by apply getitem_world in Hname as ->. }
  pose proof (getitem_world _ _ _ _ _ Hname) as ->.
  rewrite (bind_ok _ _ _ (heap w1) w1) in H; [|done]. cbv beta zeta in H.
  apply bind_cases in H as [(fmt & wa & Hpop & H)|(e & Hpop & ->)];
    [|by apply pop_heap_only in Hpop as [h ->]].
  apply pop_heap_only in Hpop as [ha ->].
  apply bind_cases in H as [(schema & wb & Hget & H)|(e & Hget & ->)];
    [|by apply getitem_world in Hget as ->].
  apply getitem_world in Hget as ->.
  apply bind_cases in H as [(type & wb & Hget & H)|(e & Hget & ->)];
    [|by apply get_world in Hget as ->].
  apply get_world in Hget as ->.
  apply bind_cases in H as [([] & wb & Hset & H)|(e & Hset & ->)]; last first.
  { destruct (eq_str type "format"); [|done].
    by apply setitem_heap_only in Hset as [h ->]. }
  assert (∃ hb, wb = set_heap hb w1) as [hb ->].
  { destruct (eq_str type "format").
    - apply setitem_heap_only in Hset as [h ->]. by exists h.
    - injection Hset as <-. by exists ha. }
  clear Hset.
  apply bind_cases in H as [([] & wc & Hdump & H)|(e & Hdump & ->)];
    last first.
  { pose proof (dump_file_calls _ _ _ _ _ Hdump) as [-> ->].
    split_and!; [done..|]. intros path _ Hpath.
    rewrite (dump_file_other _ _ _ _ _ path Hdump); [done|].
    intros Heq. by apply (Hpath name). }
  pose proof (dump_file_calls _ _ _ _ _ Hdump) as [Hcalls Hclock].
  pose proof (update_metadata_calls _ _ _ _ H) as [-> ->].
  split_and!; [done..|]. intros path Hmeta Hpath.
  rewrite (update_metadata_other _ _ _ _ path H Hmeta).
  rewrite (dump_file_other _ _ _ _ _ path Hdump); [done|].
  intros Heq. by apply (Hpath name).
Qed.

End datapackage.

Arguments Typed {TabularDataResource} r.
Arguments Raw {TabularDataResource} v.

(** ** The theorems at work on the example package *)

(** A container that exits with 1 after printing [boom]. *)
Lemma execute_container_status_witness :
  ∃ message,
    (execute_container (Example.docker 1 "boom") (VStr "view:latest")
       [("VIEW", "v1")] "/dp" Example.w0).1
    = Raise (ExecutionError message (text "boom")).
Proof.
  apply (proj1 (proj1 (execute_container_status (Example.docker 1 "boom")
                         (VStr "view:latest") [("VIEW", "v1")] "/dp" Example.w0
                         (Container 1 (bytes "boom")) Example.fs (text "boom")
                         eq_refl eq_refl))).
  discriminate.
Defined.

Example execute_container_boom :
  execute_container (Example.docker 1 "  boom
") (VStr "algorithm:latest") [("CONFIGURATION", "c1")] "/dp" Example.w0
  = (Raise (ExecutionError
              "Execution failed with status code {result['StatusCode']}"
              (text "boom")),
     add_run_call
       (container_request (VStr "algorithm:latest") [("CONFIGURATION", "c1")]
          "/dp" 501) Example.w0).
Proof. reflexivity. Qed.

Example execute_container_ok :
  (execute_container (Example.docker 0 "ok") (VStr "algorithm:latest")
     [("CONFIGURATION", "c1")] "/dp" Example.w0).1
  = Ok (text "ok").
Proof. reflexivity. Qed.

(** Writing a record that has no [format]. *)
Lemma write_resource_without_format_witness :
  ∃ key, (key = "name" ∨ key = "format") ∧
    write_resource Example.no_repr value Example.tdr_to_dict
      (Raw (VRef 0%nat)) "/dp" Example.bare
    = (Raise (KeyError key), Example.bare).
Proof.
  apply (write_resource_without_format Example.no_repr value
           Example.tdr_to_dict (Raw (VRef 0%nat)) "/dp" Example.bare 0%nat
           Example.bare
           [("name", VStr "r1"); ("schema", VStr "inherit-from-format")]);
    reflexivity.
Defined.

(** [r1] inherits its schema: loaded without a format it cannot be written. *)
Lemma write_resource_needs_schema_object_witness :
  ∃ record w1 w2,
    load_resource Example.no_repr value Example.tdr_init (VStr "r1") VNone
      "/dp" true Example.w0 = (Ok (Raw record), w1) ∧
    write_resource Example.no_repr value Example.tdr_to_dict (Raw record)
      "/dp" w1 = (Raise AttributeError, w2) ∧
    files w2 = files Example.w0.
Proof.
  apply (proj2 (proj2 (write_resource_needs_schema_object Example.no_repr value
                         Example.tdr_init Example.tdr_to_dict "/dp"))
           "r1" Example.w0 Example.r1_members);
    [reflexivity|reflexivity|by eexists].
Defined.

(** [r3] has a profile the module does not know. *)
Lemma load_resource_profile_witness :
  load_resource Example.no_repr value Example.tdr_init (VStr "r3") VNone
    "/dp" false Example.w0
  = (Raise (NotImplementedError
              ("Unknown resource profile " +:+ dquote +:+ "geo-resource"
               +:+ dquote)),
     (load_resource Example.no_repr value Example.tdr_init (VStr "r3") VNone
        "/dp" true Example.w0).2).
Proof.
  apply (proj1 (load_resource_profile Example.no_repr value Example.tdr_init
                  (VStr "r3") VNone "/dp" Example.w0 (VRef 1%nat)
                  (load_resource Example.no_repr value Example.tdr_init
                     (VStr "r3") VNone "/dp" true Example.w0).2
                  (VStr "geo-resource") eq_refl eq_refl));
    discriminate.
Defined.

Example load_resource_typed_r1 :
  (load_resource Example.no_repr value Example.tdr_init (VStr "r1") (VStr "f1")
     "/dp" false Example.w0).1
  = Ok (Typed (VRef 2%nat)).
Proof. reflexivity. Qed.

(** The view [v1] lists [r1], which is populated, and then [r2], which is
    not. *)
Lemma execute_view_precondition_witness :
  ∃ w',
    execute_view Example.no_repr (Example.docker 0 "ok") "v1" "/dp" Example.w0
    = (Raise (ResourceError
                ("Can't render view with empty resource " +:+ "r2"
                 +:+ ". Have you executed the datapackage?") (VStr "r2")), w') ∧
    run_calls w' = run_calls Example.w0.
Proof.
  apply (proj1 (execute_view_precondition Example.no_repr
                  (Example.docker 0 "ok") "v1" "/dp" Example.w0
                  Example.v1_members ["r1"; "r2"] eq_refl eq_refl)
           ["r1"] "r2" []).
  - reflexivity.
  - constructor; [|constructor].
    exists (JArr [JObj [("x", JNum 1)]]). split; reflexivity.
  - exists (JArr []). split; reflexivity.
Defined.

Example execute_view_v2 :
  let run := execute_view Example.no_repr (Example.docker 0 "ok") "v2" "/dp"
               Example.w0 in
  run.1 = Ok (text "ok") ∧
  run_calls run.2
  = [container_request (VStr "view:latest") [("VIEW", "v2")] "/dp" 501].
Proof. split; reflexivity. Qed.

(** [r1] loaded with [f1] and written back at time 1000; the metadata said
    100. *)
Lemma write_resource_updates_metadata_witness :
  ∃ old new,
    JObj Example.dp_members = JObj old ∧
    files (write_resource Example.no_repr value Example.tdr_to_dict
             (Raw (VRef 2%nat)) "/dp"
             (load_resource Example.no_repr value Example.tdr_init (VStr "r1")
                (VStr "f1") "/dp" true Example.w0).2).2
      !! ("/dp" +:+ "/datapackage.json") = Some (Doc (JObj new)) ∧
    new = dict_set "updated" (JNum 1000) old ∧
    dict_get "updated" new = Some (JNum 1000) ∧
    (∀ k, k ≠ "updated" → dict_get k new = dict_get k old) ∧
    (∀ t, dict_get "updated" old = Some (JNum t) → t ≤ 1000 →
          ∃ t', dict_get "updated" new = Some (JNum t') ∧ t ≤ t').
Proof.
  change 1000 with
    (clock (load_resource Example.no_repr value Example.tdr_init (VStr "r1")
              (VStr "f1") "/dp" true Example.w0).2).
  apply (write_resource_updates_metadata Example.no_repr value
           Example.tdr_to_dict (Raw (VRef 2%nat)) "/dp"
           (load_resource Example.no_repr value Example.tdr_init (VStr "r1")
              (VStr "f1") "/dp" true Example.w0).2
           (VRef 2%nat)
           (load_resource Example.no_repr value Example.tdr_init (VStr "r1")
              (VStr "f1") "/dp" true Example.w0).2
           (write_resource Example.no_repr value Example.tdr_to_dict
              (Raw (VRef 2%nat)) "/dp"
              (load_resource Example.no_repr value Example.tdr_init (VStr "r1")
                 (VStr "f1") "/dp" true Example.w0).2).2
           (JObj Example.dp_members)).
  - reflexivity.
  - vm_compute. reflexivity.
  - vm_compute. reflexivity.
Defined.

Example write_resource_r1 :
  let loaded := (load_resource Example.no_repr value Example.tdr_init
                   (VStr "r1") (VStr "f1") "/dp" true Example.w0).2 in
  let written := (write_resource Example.no_repr value Example.tdr_to_dict
                    (Raw (VRef 2%nat)) "/dp" loaded).2 in
  files written !! "/dp/resources/r1.json" = Some (Doc (JObj Example.r1_members)) ∧
  files written !! "/dp/datapackage.json"
  = Some (Doc (JObj [("name", JStr "dp"); ("updated", JNum 1000);
                     ("resources", JArr [])])).
Proof. vm_compute. split; reflexivity. Qed.

(** [r1] inherits its schema and is loaded with [f1]. *)
Lemma load_resource_format_merge_witness :
  ∃ record w' s,
    load_resource Example.no_repr value Example.tdr_init (VStr "r1") (VStr "f1")
      "/dp" true Example.w0 = (Ok (Raw record), w') ∧
    getitem record "schema" w' = (Ok (VRef s), w') ∧
    getitem record "format" w' = (Ok (VRef s), w') ∧
    field_json w' record "schema"
      = Some (JObj (dict_set "type" (JStr "format") Example.f1_schema)) ∧
    field_json w' record "format"
      = Some (JObj (dict_set "type" (JStr "format") Example.f1_schema)).
Proof.
  apply (load_resource_format_merge Example.no_repr value Example.tdr_init
           "r1" "f1" "/dp" Example.w0 Example.r1_members Example.f1_members
           Example.f1_schema);
    reflexivity.
Defined.

(** C4, as the claim has it: the [format] of the loaded record would be an
    untagged copy of the schema of [f1].  It is the tagged object. *)
Lemma format_field_is_tagged :
  ∃ record w',
    load_resource Example.no_repr value Example.tdr_init (VStr "r1") (VStr "f1")
      "/dp" true Example.w0 = (Ok (Raw record), w') ∧
    field_json w' record "format"
      = Some (JObj (Example.f1_schema ++ [("type", JStr "format")])) ∧
    field_json w' record "format" ≠ Some (JObj Example.f1_schema).
Proof.
  eexists _, _. split; [reflexivity|]. split; [reflexivity|].
  vm_compute. discriminate.
Qed.

(** The round trip of [r1] through [f1]. *)
Lemma load_write_round_trip_witness :
  (∀ r w2,
     write_resource Example.no_repr value Example.tdr_to_dict
       (Raw (VRef 2%nat)) "/dp"
       (load_resource Example.no_repr value Example.tdr_init (VStr "r1")
          (VStr "f1") "/dp" true Example.w0).2 = (r, w2) →
     ∃ kvs,
       files w2 !! resource_path Example.no_repr "/dp" [] (VStr "r1")
         = Some (Doc (JObj kvs)) ∧
       kvs = dict_pop "format" Example.r1_members ∧
       dict_get "format" kvs = None ∧
       dict_get "schema" kvs = Some (JStr "inherit-from-format")) ∧
  (∀ dpm,
     files Example.w0 !! ("/dp" +:+ "/datapackage.json")
       = Some (Doc (JObj dpm)) →
     ∃ w2,
       write_resource Example.no_repr value Example.tdr_to_dict
         (Raw (VRef 2%nat)) "/dp"
         (load_resource Example.no_repr value Example.tdr_init (VStr "r1")
            (VStr "f1") "/dp" true Example.w0).2 = (Ok tt, w2)).
Proof.
  apply (proj2 (load_write_round_trip Example.no_repr value Example.tdr_init
                  Example.tdr_to_dict "/dp")
           "r1" "f1" "r1" Example.w0 Example.r1_members (Raw (VRef 2%nat))
           (load_resource Example.no_repr value Example.tdr_init (VStr "r1")
              (VStr "f1") "/dp" true Example.w0).2).
  - reflexivity.
  - reflexivity.
  - reflexivity.
  - vm_compute. reflexivity.
Defined.

(** The variable [x] of the configuration [c1]. *)
Lemma load_resource_by_variable_resolves_witness :
  ∃ h1,
    load_resource_by_variable Example.no_repr value Example.tdr_init "x" "c1"
      "/dp" true Example.w0
    = load_resource Example.no_repr value Example.tdr_init (VStr "r1")
        (VStr "f1") "/dp" true (set_heap h1 Example.w0).
Proof.
  destruct (load_resource_by_variable_resolves Example.no_repr value
              Example.tdr_init "x" "c1" "/dp" true Example.w0
              Example.c1_members Example.c1_bindings eq_refl eq_refl)
    as [h1 [Hfound _]].
  exists h1.
  apply (Hfound [] [("name", JStr "x"); ("resource", JStr "r1");
                    ("format", JStr "f1")] [] "r1" "f1");
    [reflexivity|constructor|reflexivity|reflexivity|reflexivity].
Defined.

Example load_resource_by_variable_x :
  ∃ w',
    load_resource_by_variable Example.no_repr value Example.tdr_init "x" "c1"
      "/dp" true Example.w0 = (Ok (Raw (VRef 5%nat)), w') ∧
    field_json w' (VRef 5%nat) "name" = Some (JStr "r1") ∧
    field_json w' (VRef 5%nat) "schema"
      = Some (JObj (Example.f1_schema ++ [("type", JStr "format")])).
Proof. eexists. split; [reflexivity|]. split; reflexivity. Qed.

Example load_resource_by_variable_y :
  (load_resource_by_variable Example.no_repr value Example.tdr_init "y" "c1"
     "/dp" true Example.w0).1
  = Raise (KeyError "Can't find variable named y in configuration c1").
Proof. reflexivity. Qed.

(** [r2] has a schema of its own and is loaded without a format. *)
Lemma load_resource_without_format_witness :
  ∃ record w',
    load_resource Example.no_repr value Example.tdr_init (VStr "r2") VNone
      "/dp" true Example.w0 = (Ok (Raw record), w') ∧
    field_json w' record "format" = Some (JObj [("hello", JStr "world")]) ∧
    ∀ k, k ≠ "format" →
         field_json w' record k = dict_get k Example.r2_members.
Proof.
  apply (load_resource_without_format Example.no_repr value Example.tdr_init
           "r2" "/dp" Example.w0 Example.r2_members);
    reflexivity.
Defined.

(** C7, as the claim has it: the [format] of a record loaded without a
    format name would be empty.  It has a member. *)
Lemma placeholder_is_not_empty :
  ∃ record w' placeholder,
    load_resource Example.no_repr value Example.tdr_init (VStr "r2") VNone
      "/dp" true Example.w0 = (Ok (Raw record), w') ∧
    field_json w' record "format" = Some placeholder ∧
    placeholder ≠ JObj [] ∧
    json_truthy placeholder = true.
Proof.
  eexists _, _, _. split; [reflexivity|]. split; [reflexivity|].
  split; [discriminate|reflexivity].
Qed.

(** ** The further properties at work on the example package *)

(** The request that runs [c1]. *)
Lemma execute_container_one_run_witness :
  run_calls (execute_container (Example.docker 0 "ok")
               (VStr "algorithm:latest") [("CONFIGURATION", "c1")] "/dp"
               Example.w0).2
  = [{| image := VStr "algorithm:latest";
        volumes := ["/dp:/usr/src/app/datapackage"];
        environment := [("CONFIGURATION", "c1")];
        detach := true;
        user := 501 |}].
Proof.
  apply (proj1 (execute_container_one_run (Example.docker 0 "ok")
                  (VStr "algorithm:latest") [("CONFIGURATION", "c1")] "/dp"
                  Example.w0 (Ok (text "ok"))
                  (execute_container (Example.docker 0 "ok")
                     (VStr "algorithm:latest") [("CONFIGURATION", "c1")] "/dp"
                     Example.w0).2 eq_refl)).
Defined.

(** A container that fails and prints a byte that is no UTF-8. *)
Lemma execute_container_undecodable_witness :
  (execute_container Example.garbled (VStr "view:latest") [("VIEW", "v1")]
     "/dp" Example.w0).1
  = Raise UnicodeDecodeError.
Proof.
  apply (execute_container_undecodable Example.garbled (VStr "view:latest")
           [("VIEW", "v1")] "/dp" Example.w0 (Container 1 [Byte.xff])
           Example.fs);
    reflexivity.
Defined.

(** Output with blanks around it. *)
Lemma execute_container_logs_stripped_witness :
  head (text "ok") = Some 111%N ∧ isspace 111%N = false.
Proof.
  split; [reflexivity|].
  apply (execute_container_logs_stripped (Example.docker 0 "  ok ")
           (VStr "view:latest") [("VIEW", "v1")] "/dp" Example.w0
           (Container 0 (bytes "  ok ")) Example.fs eq_refl (text "ok")
           (or_introl eq_refl) 111%N (or_introl eq_refl)).
Defined.

(** Executing the package with the configuration [c1]. *)
Lemma execute_datapackage_runs_witness :
  run_calls (execute_datapackage (Example.docker 0 "ok") "c1" "/dp"
               Example.w0).2
  = run_calls Example.w0
    ++ [container_request (VStr "algorithm:latest") [("CONFIGURATION", "c1")]
          "/dp" (uid Example.w0)].
Proof.
  apply (proj1 (execute_datapackage_runs (Example.docker 0 "ok") "c1" "/dp"
                  Example.w0 Example.c1_members "algorithm:latest"
                  eq_refl eq_refl)).
Defined.

(** The configuration [c3] is written and read back. *)
Lemma write_configuration_round_trip_witness :
  ∃ v w',
    load_configuration "c3" "/dp"
      (set_files
         (<["/dp" +:+ "/" +:+ CONFIGURATIONS_DIR +:+ "/" +:+ "c3" +:+ ".json"
            := Doc (JObj Example.c3_members)]> (files Example.drafted))
         Example.drafted)
    = (Ok v, w') ∧
    dumps (heap w') v = Some (JObj Example.c3_members).
Proof.
  apply (proj2 (write_configuration_round_trip Example.no_repr (VRef 1%nat)
                  "/dp" Example.drafted Example.c3_members "c3"
                  eq_refl eq_refl)).
Defined.

(** [r1], loaded with [f1], is written twice. *)
Lemma write_resource_twice_witness :
  write_resource Example.no_repr value Example.tdr_to_dict (Raw (VRef 2%nat))
    "/dp"
    (write_resource Example.no_repr value Example.tdr_to_dict
       (Raw (VRef 2%nat)) "/dp"
       (load_resource Example.no_repr value Example.tdr_init
       (VStr "r1") (VStr "f1") "/dp" true Example.w0).2).2
  = (Raise (KeyError "format"),
     (write_resource Example.no_repr value Example.tdr_to_dict
       (Raw (VRef 2%nat)) "/dp"
       (load_resource Example.no_repr value Example.tdr_init
       (VStr "r1") (VStr "f1") "/dp" true Example.w0).2).2).
Proof.
  apply (write_resource_twice Example.no_repr value Example.tdr_to_dict "/dp"
           (load_resource Example.no_repr value Example.tdr_init
              (VStr "r1") (VStr "f1") "/dp" true Example.w0).2
           (VRef 2%nat)
           (write_resource Example.no_repr value Example.tdr_to_dict
              (Raw (VRef 2%nat)) "/dp"
              (load_resource Example.no_repr value Example.tdr_init
                 (VStr "r1") (VStr "f1") "/dp" true Example.w0).2).2).
  vm_compute. reflexivity.
Defined.

(** [r1] is written to a package that has lost its [datapackage.json]. *)
Lemma write_resource_without_metadata_witness :
  ∃ name kvs,
    getitem (VRef 2%nat) "name"
      (load_resource Example.no_repr value Example.tdr_init
       (VStr "r1") (VStr "f1") "/dp" true Example.headless).2
    = (Ok name,
       (load_resource Example.no_repr value Example.tdr_init
       (VStr "r1") (VStr "f1") "/dp" true Example.headless).2) ∧
    files
      (write_resource Example.no_repr value Example.tdr_to_dict
       (Raw (VRef 2%nat)) "/dp"
       (load_resource Example.no_repr value Example.tdr_init
       (VStr "r1") (VStr "f1") "/dp" true Example.headless).2).2
      !! resource_path Example.no_repr "/dp"
           (heap
              (load_resource Example.no_repr value Example.tdr_init
       (VStr "r1") (VStr "f1") "/dp" true Example.headless).2) name
      = Some (Doc (JObj kvs)) ∧
    dict_get "format" kvs = None ∧
    files
      (write_resource Example.no_repr value Example.tdr_to_dict
       (Raw (VRef 2%nat)) "/dp"
       (load_resource Example.no_repr value Example.tdr_init
       (VStr "r1") (VStr "f1") "/dp" true Example.headless).2).2
      !! ("/dp" +:+ "/datapackage.json") = None.
Proof.
  apply (write_resource_without_metadata Example.no_repr value
           Example.tdr_to_dict (Raw (VRef 2%nat)) "/dp"
           (load_resource Example.no_repr value Example.tdr_init
              (VStr "r1") (VStr "f1") "/dp" true Example.headless).2
           (VRef 2%nat)
           (load_resource Example.no_repr value Example.tdr_init
              (VStr "r1") (VStr "f1") "/dp" true Example.headless).2
           (write_resource Example.no_repr value Example.tdr_to_dict
              (Raw (VRef 2%nat)) "/dp"
              (load_resource Example.no_repr value Example.tdr_init
                 (VStr "r1") (VStr "f1") "/dp" true Example.headless).2).2).
  - reflexivity.
  - vm_compute. reflexivity.
Defined.

(** [r2] has a schema of its own and is loaded with [f1]. *)
Lemma load_resource_own_schema_witness :
  ∃ record w',
    load_resource Example.no_repr value Example.tdr_init (VStr "r2") (VStr "f1")
      "/dp" true Example.w0 = (Ok (Raw record), w') ∧
    field_json w' record "format" = Some (JObj Example.f1_schema) ∧
    ∀ k, k ≠ "format" → field_json w' record k = dict_get k Example.r2_members.
Proof.
  apply (load_resource_own_schema Example.no_repr value Example.tdr_init
           "r2" "f1" "/dp" Example.w0 Example.r2_members
           (JObj [("fields", JArr [])]) Example.f1_members
           (JObj Example.f1_schema));
    [reflexivity|reflexivity|discriminate|reflexivity|reflexivity].
Defined.

(** The round trip of [r2] through [f1]. *)
Lemma round_trip_own_schema_witness :
  ∃ record w1,
    load_resource Example.no_repr value Example.tdr_init (VStr "r2") (VStr "f1")
      "/dp" true Example.w0 = (Ok (Raw record), w1) ∧
    (∀ r w2,
       write_resource Example.no_repr value Example.tdr_to_dict (Raw record)
         "/dp" w1 = (r, w2) →
       files w2 !! resource_path Example.no_repr "/dp" [] (VStr "r2")
         = Some (Doc (JObj (dict_pop "format" Example.r2_members)))) ∧
    (∀ dpm,
       files Example.w0 !! ("/dp" +:+ "/datapackage.json")
         = Some (Doc (JObj dpm)) →
       ∃ w2,
         write_resource Example.no_repr value Example.tdr_to_dict (Raw record)
           "/dp" w1 = (Ok tt, w2)).
Proof.
  apply (round_trip_own_schema Example.no_repr value Example.tdr_init
           Example.tdr_to_dict "r2" "f1" "/dp" "r2" Example.w0
           Example.r2_members [("fields", JArr [])] Example.f1_members
           (JObj Example.f1_schema));
    [reflexivity|reflexivity|discriminate|reflexivity|reflexivity|reflexivity].
Defined.

(** The round trip of [r4], whose own schema has the tag, through [f1]. *)
Lemma round_trip_tagged_schema_witness :
  ∃ record w1,
    load_resource Example.no_repr value Example.tdr_init (VStr "r4") (VStr "f1")
      "/dp" true Example.wide = (Ok (Raw record), w1) ∧
    field_json w1 record "schema" = Some (JObj Example.r4_schema) ∧
    ∀ r w2,
      write_resource Example.no_repr value Example.tdr_to_dict (Raw record)
        "/dp" w1 = (r, w2) →
      ∃ kvs,
        files w2 !! resource_path Example.no_repr "/dp" [] (VStr "r4")
          = Some (Doc (JObj kvs)) ∧
        dict_get "schema" kvs = Some (JStr "inherit-from-format").
Proof.
  apply (round_trip_tagged_schema Example.no_repr value Example.tdr_init
           Example.tdr_to_dict "r4" "f1" "/dp" "r4" Example.wide
           Example.r4_members Example.r4_schema Example.f1_members
           (JObj Example.f1_schema));
    reflexivity.
Defined.

(** Loading [r1] with [f1] leaves the package as it was. *)
Lemma load_resource_reads_only_witness :
  reads_only Example.w0
    (load_resource Example.no_repr value Example.tdr_init (VStr "r1")
       (VStr "f1") "/dp" true Example.w0).2.
Proof.
  apply (load_resource_reads_only Example.no_repr value Example.tdr_init
           (VStr "r1") (VStr "f1") "/dp" Example.w0
           (load_resource Example.no_repr value Example.tdr_init (VStr "r1")
              (VStr "f1") "/dp" true Example.w0).1
           (load_resource Example.no_repr value Example.tdr_init (VStr "r1")
              (VStr "f1") "/dp" true Example.w0).2).
  vm_compute. reflexivity.
Defined.

(** The view [v1] stops at [r2]; nothing was run, so nothing was changed. *)
Lemma execute_view_reads_or_runs_witness :
  reads_only Example.w0
    (execute_view Example.no_repr (Example.docker 0 "ok") "v1" "/dp"
       Example.w0).2 ∨
  ∃ image w1,
    reads_only Example.w0 w1 ∧
    run_calls
      (execute_view Example.no_repr (Example.docker 0 "ok") "v1" "/dp"
       Example.w0).2
      = run_calls Example.w0
        ++ [container_request image [("VIEW", "v1")] "/dp" (uid Example.w0)] ∧
    heap
      (execute_view Example.no_repr (Example.docker 0 "ok") "v1" "/dp"
       Example.w0).2 = heap w1 ∧
    match containers_run (Example.docker 0 "ok")
            (container_request image [("VIEW", "v1")] "/dp" (uid Example.w0))
            (files Example.w0) with
    | Ok (c, fs) =>
        files
          (execute_view Example.no_repr (Example.docker 0 "ok") "v1" "/dp"
       Example.w0).2 = fs
    | Raise e =>
        files
          (execute_view Example.no_repr (Example.docker 0 "ok") "v1" "/dp"
       Example.w0).2 = files Example.w0 ∧
        (execute_view Example.no_repr (Example.docker 0 "ok") "v1" "/dp"
       Example.w0).1 = Raise e
    end.
Proof.
  apply (execute_view_reads_or_runs Example.no_repr (Example.docker 0 "ok")
           "v1" "/dp" Example.w0
           (execute_view Example.no_repr (Example.docker 0 "ok") "v1" "/dp"
              Example.w0).1
           (execute_view Example.no_repr (Example.docker 0 "ok") "v1" "/dp"
              Example.w0).2).
  vm_compute. reflexivity.
Defined.

(** The view [v3] lists [r9], for which there is no file. *)
Lemma execute_view_unreadable_resource_witness :
  ∃ w',
    execute_view Example.no_repr (Example.docker 0 "ok") "v3" "/dp"
      Example.wide
    = (Raise (FileNotFoundError "/dp/resources/r9.json"), w') ∧
    run_calls w' = run_calls Example.wide ∧ files w' = files Example.wide.
Proof.
  apply (execute_view_unreadable_resource Example.no_repr
           (Example.docker 0 "ok") "v3" "/dp" Example.wide Example.v3_members
           ["r1"] "r9" [] eq_refl eq_refl).
  - constructor; [|constructor].
    exists (JArr [JObj [("x", JNum 1)]]). split; reflexivity.
  - reflexivity.
Defined.

(** The binding of [x] in [c2] has no [format]. *)
Lemma load_resource_by_variable_binding_keys_witness :
  ∃ w1,
    load_resource_by_variable Example.no_repr value Example.tdr_init "x" "c2"
      "/dp" true Example.wide = (Raise (KeyError "format"), w1).
Proof.
  destruct (load_resource_by_variable_binding_keys Example.no_repr value
              Example.tdr_init "x" "c2" "/dp" true Example.wide
              Example.c2_members [] Example.c2_binding [] eq_refl eq_refl
              (Forall_nil_2 _) eq_refl)
    as (w1 & _ & _ & Hformat & _).
  exists w1. apply Hformat; [by eexists|reflexivity].
Defined.

(** Writing [r1] leaves the other resources, the formats, the configurations
    and the views alone. *)
Lemma write_resource_footprint_witness :
  run_calls
    (write_resource Example.no_repr value Example.tdr_to_dict
       (Raw (VRef 2%nat)) "/dp"
       (load_resource Example.no_repr value Example.tdr_init
       (VStr "r1") (VStr "f1") "/dp" true Example.w0).2).2
  = run_calls
      (load_resource Example.no_repr value Example.tdr_init
       (VStr "r1") (VStr "f1") "/dp" true Example.w0).2 ∧
  clock
    (write_resource Example.no_repr value Example.tdr_to_dict
       (Raw (VRef 2%nat)) "/dp"
       (load_resource Example.no_repr value Example.tdr_init
       (VStr "r1") (VStr "f1") "/dp" true Example.w0).2).2
  = clock
      (load_resource Example.no_repr value Example.tdr_init
       (VStr "r1") (VStr "f1") "/dp" true Example.w0).2 ∧
  ∀ path,
    path ≠ "/dp" +:+ "/datapackage.json" →
    (∀ name,
       getitem (VRef 2%nat) "name"
         (load_resource Example.no_repr value Example.tdr_init
       (VStr "r1") (VStr "f1") "/dp" true Example.w0).2
       = (Ok name,
          (load_resource Example.no_repr value Example.tdr_init
       (VStr "r1") (VStr "f1") "/dp" true Example.w0).2) →
       path ≠ resource_path Example.no_repr "/dp"
                (heap
                   (load_resource Example.no_repr value Example.tdr_init
       (VStr "r1") (VStr "f1") "/dp" true Example.w0).2) name) →
    files
      (write_resource Example.no_repr value Example.tdr_to_dict
       (Raw (VRef 2%nat)) "/dp"
       (load_resource Example.no_repr value Example.tdr_init
       (VStr "r1") (VStr "f1") "/dp" true Example.w0).2).2
      !! path
    = files
        (load_resource Example.no_repr value Example.tdr_init
       (VStr "r1") (VStr "f1") "/dp" true Example.w0).2
        !! path.
Proof.
  apply (write_resource_footprint Example.no_repr value Example.tdr_to_dict
           (Raw (VRef 2%nat)) "/dp"
           (load_resource Example.no_repr value Example.tdr_init
              (VStr "r1") (VStr "f1") "/dp" true Example.w0).2
           (VRef 2%nat)
           (load_resource Example.no_repr value Example.tdr_init
              (VStr "r1") (VStr "f1") "/dp" true Example.w0).2
           (write_resource Example.no_repr value Example.tdr_to_dict
              (Raw (VRef 2%nat)) "/dp"
              (load_resource Example.no_repr value Example.tdr_init
                 (VStr "r1") (VStr "f1") "/dp" true Example.w0).2).1
           (write_resource Example.no_repr value Example.tdr_to_dict
              (Raw (VRef 2%nat)) "/dp"
              (load_resource Example.no_repr value Example.tdr_init
                 (VStr "r1") (VStr "f1") "/dp" true Example.w0).2).2).
  - reflexivity.
  - vm_compute. reflexivity.
Defined.

(** There is no configuration [c9]. *)
Lemma execute_datapackage_no_image_witness :
  execute_datapackage (Example.docker 0 "ok") "c9" "/dp" Example.w0
  = (Raise (FileNotFoundError "/dp/configurations/c9.json"), Example.w0).
Proof.
  apply (proj1 (execute_datapackage_no_image (Example.docker 0 "ok") "c9" "/dp"
                  Example.w0)).
  reflexivity.
Defined.

(** There is no resource [r9], and no format [f9] for [r1]. *)
Lemma load_resource_missing_witness :
  load_resource Example.no_repr value Example.tdr_init (VStr "r9") (VStr "f1")
    "/dp" true Example.w0
  = (Raise (FileNotFoundError "/dp/resources/r9.json"), Example.w0) ∧
  ∃ w',
    load_resource Example.no_repr value Example.tdr_init (VStr "r1") (VStr "f9")
      "/dp" true Example.w0
    = (Raise (FileNotFoundError "/dp/formats/f9.json"), w') ∧
    files w' = files Example.w0.
Proof.
  split.
  - apply (proj1 (load_resource_missing Example.no_repr value Example.tdr_init
                    "r9" "/dp" true Example.w0) (VStr "f1")).
    reflexivity.
  - apply (proj1 (proj2 (load_resource_missing Example.no_repr value
                           Example.tdr_init "r1" "/dp" true Example.w0))
             Example.r1_members "f9");
      reflexivity.
Defined.
